(** * docker-watchdog: the retry and reconciliation logic of [daemon_monitor.py]

    A shallow embedding of the monitor script.  The script is a straight
    line of bounded retry loops over two collaborators, the Docker client
    and the systemd manager reached over D-Bus.  The collaborators are
    modelled by an oracle [Env] that answers every remote call; the
    program is written in a small monad that threads a call counter,
    accumulates the observable events (remote calls with their answers,
    sleeps, log records) and carries Python exceptions, [SystemExit]
    included.  The options reach the script through [argparse], of which
    the one restriction it puts on them is modelled. *)

From Stdlib Require Import List ZArith Lia Bool String Arith.
Import ListNotations.
Local Open Scope string_scope.
Local Open Scope list_scope.
Local Open Scope Z_scope.

(** ** Python values seen by the script *)

(** Exception classes the script meets.  [NotFound] is a subclass of
    [APIError] in docker-py; [SystemExit] carries the argument of [exit];
    [ValueError] and [OverflowError] are what [time.sleep] raises. *)
Inductive exn : Type :=
| NotFound (msg : string)
| APIError (msg : string)
| DBusException (msg : string)
| ImportError (msg : string)
| TypeError
| ValueError
| OverflowError
| AttributeError
| SystemExit (code : option Z)
| OtherException (msg : string).

(** What a remote call gives back: a value or a raised exception. *)
Inductive result (A : Type) : Type :=
| Ok (a : A)
| Raise (e : exn).
Arguments Ok {A} a.
Arguments Raise {A} e.

(** The object returned by [docker.from_env()]. *)
Inductive DockerClient : Type := from_env_client.

(** A container object: the script reads [name], calls [reload] and
    [start]; docker-py addresses both calls by the container id. *)
Record container : Type := Container { cid : string; cname : string }.

(** The two entries the script reads from the dictionary of [client.info()];
    [dict.get] gives [None] for a missing key. *)
Record info : Type := Info_dict { Containers : option Z; ContainersRunning : option Z }.

Inductive level : Type := DEBUG | INFO | WARNING | ERROR.

(** Arguments of a logging call. *)
Inductive arg : Type :=
| AInt (z : Z)
| ANone
| AStr (s : string)
| AExn (e : exn)
| AKeys (ks : list string)
| AExcInfo (e : exn).

(** Observable events, in the order the script produces them. *)
Inductive event : Type :=
| FromEnv
| Version (r : result (option string))
| Sleep (sec : Z)
| Log (lvl : level) (fmt : string) (args : list arg)
| ImportDBus (r : result unit)
| GetObject (r : result unit)
| RestartUnit (r : result unit)
| Info (r : result info)
| Get (name : string) (r : result container)
| ListContainers (filter_name : string) (r : result (list container))
| Reload (c : container) (r : result string)
| Start (c : container) (r : result unit).

(** ** The collaborators

    Every step whose result lies outside the script is answered by the
    oracle: the calls to the daemon, the import of the [dbus] modules,
    which may not be installed, and the calls over the system bus.  The
    first argument is the number of such steps made before this one, so an
    oracle can script any sequence of answers.  In [restart_docker],
    [env_import_dbus] answers the two imports of lines 77-78,
    [env_get_object] answers [SystemBus().get_object(...)] of line 85 and
    [env_restart] answers [RestartUnit] of line 87. *)
Record Env : Type := {
  env_version : nat -> result (option string);
  env_import_dbus : nat -> result unit;
  env_get_object : nat -> result unit;
  env_restart : nat -> result unit;
  env_info : nat -> result info;
  env_get : nat -> string -> result container;
  env_list : nat -> string -> result (list container);
  env_reload : nat -> container -> result string;
  env_start : nat -> container -> result unit }.

(** ** The monad *)

(** A computation starts at a call count and gives an outcome, the new
    call count and the events it produced. *)
Definition M (A : Type) : Type := nat -> result A * nat * list event.

Definition ret {A} (a : A) : M A := fun c => (Ok a, c, []).

Definition bind {A B} (m : M A) (f : A -> M B) : M B :=
  fun c =>
    match m c with
    | (Ok a, c1, e1) => let '(r, c2, e2) := f a c1 in (r, c2, e1 ++ e2)
    | (Raise e, c1, e1) => (Raise e, c1, e1)
    end.

Declare Scope monad_scope.
Delimit Scope monad_scope with monad.
Notation "x <- m ;; k" := (bind m (fun x => k))
  (at level 100, m at next level, right associativity) : monad_scope.
Notation "m ;; k" := (bind m (fun _ => k))
  (at level 100, right associativity) : monad_scope.
Local Open Scope monad_scope.

Definition raise {A} (e : exn) : M A := fun c => (Raise e, c, []).

Definition emit (ev : event) : M unit := fun c => (Ok tt, c, [ev]).

(** A step answered by the oracle: ask, record the answer, count the
    step, and raise what the collaborator raised. *)
Definition call {A} (answer : nat -> result A) (ev : result A -> event) : M A :=
  fun c => (answer c, S c, [ev (answer c)]).

(** [try: m  except <classes accepted by handler>: ...]: a handler that
    gives [None] does not match the exception, which then propagates. *)
Definition try_except {A} (m : M A) (handler : exn -> option (M A)) : M A :=
  fun c =>
    match m c with
    | (Ok a, c1, e1) => (Ok a, c1, e1)
    | (Raise e, c1, e1) =>
        match handler e with
        | Some h => let '(r, c2, e2) := h c1 in (r, c2, e1 ++ e2)
        | None => (Raise e, c1, e1)
        end
    end.

(** [for x in xs] with [break]; the loop body updates the local variables
    [s]. *)
Inductive ctl : Type := Continue | Break.

Fixpoint for_loop {A S} (xs : list A) (body : A -> S -> M (ctl * S)) (s : S) : M S :=
  match xs with
  | [] => ret s
  | x :: xs' =>
      r <- body x s ;;
      match r with
      | (Break, s') => ret s'
      | (Continue, s') => for_loop xs' body s'
      end
  end.

(** [range(0, n)]; empty when [n <= 0]. *)
Definition range (n : Z) : list Z := map Z.of_nat (seq 0 (Z.to_nat n)).

Definition log (lvl : level) (fmt : string) (args : list arg) : M unit :=
  emit (Log lvl fmt args).

(** The longest sleep, in whole seconds, that [time.sleep] takes: the
    length is kept in nanoseconds in a signed 64-bit integer, and
    [(2^63 - 1) / 10^9 = 9223372036]. *)
Definition sleep_max : Z := 9223372036.
Arguments sleep_max : simpl never.

(** [time.sleep] refuses a negative length with [ValueError] and a length
    beyond [sleep_max] with [OverflowError]. *)
Definition sleep (sec : Z) : M unit :=
  if sec <? 0 then raise ValueError
  else if sec <=? sleep_max then emit (Sleep sec)
  else raise OverflowError.

(** [x > 0] and [x == 0] on a value that may be [None]: ordering [None]
    against an integer raises [TypeError], equality is just false. *)
Definition py_gt0 (x : option Z) : M bool :=
  match x with
  | Some z => ret (0 <? z)
  | None => raise TypeError
  end.

Definition py_eq0 (x : option Z) : bool :=
  match x with
  | Some z => z =? 0
  | None => false
  end.

Definition arg_of_int (x : option Z) : arg :=
  match x with
  | Some z => AInt z
  | None => ANone
  end.

(** Truth value of the result of [get_docker_version]. *)
Definition truthy (version : option string) : bool :=
  match version with
  | Some EmptyString => false
  | Some _ => true
  | None => false
  end.

(** ** Dictionaries

    A [dict] keeps its keys in insertion order; storing under a key that
    is present replaces the value where it stands.  The script stores
    [None] in place of a container it drops. *)
Definition dict : Type := list (string * option container).

Fixpoint dict_set (d : dict) (k : string) (v : option container) : dict :=
  match d with
  | [] => [(k, v)]
  | (k', v') :: d' =>
      if String.eqb k' k then (k', v) :: d' else (k', v') :: dict_set d' k v
  end.

Definition keys (d : dict) : list string := map fst d.

Definition is_some {A} (o : option A) : bool :=
  match o with
  | Some _ => true
  | None => false
  end.

Definition dict_remove_none (input_dict : dict) : dict :=
  filter (fun kv => is_some (snd kv)) input_dict.

(** ** The script *)

Section Program.

Variable env : Env.

Definition get_docker_version (client : DockerClient) : M (option string) :=
  try_except
    (call (env_version env) Version)
    (fun _ => Some (ret None)).

(** Lines 60-66: one turn of the connection loop. *)
Definition connect_attempt (attempts_qty attempts_tm_sec : Z)
    (client : DockerClient) (i : Z) (_ : option string)
  : M (ctl * option string) :=
  version <- get_docker_version client ;;
  if truthy version then ret (Break, version)
  else
    log WARNING "Can't get Docker version" [] ;;
    (if i + 1 <? attempts_qty
     then
       log INFO "Retry in: %d sec" [AInt attempts_tm_sec] ;;
       sleep attempts_tm_sec
     else ret tt) ;;
    ret (Continue, version).

Definition connect_docker_service (attempts_qty attempts_tm_sec : Z)
  : M (option DockerClient) :=
  emit FromEnv ;;
  let client := from_env_client in
  version <-
    for_loop (range attempts_qty)
      (connect_attempt attempts_qty attempts_tm_sec client) None ;;
  if truthy version
  then
    log INFO "Docker version: %s"
      [match version with Some s => AStr s | None => ANone end] ;;
    ret (Some client)
  else
    log ERROR "Can't get Docker version" [] ;;
    ret None.

(** Lines 75-90.  The imports of lines 77-78 stand before the [try];
    [Interface(...)] of line 86 only wraps the object it is given. *)
Definition restart_docker : M unit :=
  log INFO "Restarting Docker service" [] ;;
  call (env_import_dbus env) ImportDBus ;;
  try_except
    (call (env_get_object env) GetObject ;;
     call (env_restart env) RestartUnit)
    (fun e =>
       match e with
       | DBusException _ =>
           Some (log ERROR "Can't restart Docker, error: %s" [AExn e] ;;
                 log DEBUG "Exception" [AExcInfo e])
       | _ => None
       end).

Definition verify_docker_client (client : option DockerClient) (restart : bool)
  : M unit :=
  match client with
  | Some _ => ret tt
  | None =>
      log ERROR
        (String.append "Docker service is not available => exit"
           (if restart then " and restart service" else EmptyString)) [] ;;
      (if restart then restart_docker else ret tt) ;;
      raise (SystemExit None)
  end.

(** A method call on [docker_client], which is [None] when no connection
    was made. *)
Definition with_client {A} (docker_client : option DockerClient) (m : M A) : M A :=
  match docker_client with
  | Some _ => m
  | None => raise AttributeError
  end.

(** Line 154: [qty == 0 or (qty > 0 and running > 0)]. *)
Definition daemon_started (docker_container_qty docker_container_running_qty : option Z)
  : M bool :=
  if py_eq0 docker_container_qty then ret true
  else
    some <- py_gt0 docker_container_qty ;;
    if some then py_gt0 docker_container_running_qty else ret false.

(** Lines 150-159: one turn of the loop over [docker_client.info()]. *)
Definition health_check (docker_client : option DockerClient)
    (attempts_qty attempts_tm_sec : Z) (i : Z) (_ : option Z * option Z)
  : M (ctl * (option Z * option Z)) :=
  docker_info <- with_client docker_client (call (env_info env) Info) ;;
  let docker_container_qty := Containers docker_info in
  let docker_container_running_qty := ContainersRunning docker_info in
  log INFO "Containers info, qty: %d, running: %d"
    [arg_of_int docker_container_qty; arg_of_int docker_container_running_qty] ;;
  started <- daemon_started docker_container_qty docker_container_running_qty ;;
  if started
  then ret (Break, (docker_container_qty, docker_container_running_qty))
  else
    log WARNING "Docker has zero qty of running containers" [] ;;
    (if i + 1 <? attempts_qty
     then
       log INFO "Wait for %d sec" [AInt attempts_tm_sec] ;;
       sleep attempts_tm_sec
     else ret tt) ;;
    ret (Continue, (docker_container_qty, docker_container_running_qty)).

(** Lines 147-159. *)
Definition health_check_loop (docker_client : option DockerClient)
    (attempts_qty attempts_tm_sec : Z) : M (option Z * option Z) :=
  for_loop (range attempts_qty)
    (health_check docker_client attempts_qty attempts_tm_sec) (None, None).

(** Line 160: [docker_container_qty > 0 and docker_container_running_qty == 0]. *)
Definition failed_to_start (sample : option Z * option Z) : M bool :=
  some <- py_gt0 (fst sample) ;;
  ret (some && py_eq0 (snd sample)).

(** Lines 161-164: restart, connect again, give up if that fails. *)
Definition restart_path (attempts_qty attempts_tm_sec : Z)
  : M (option DockerClient) :=
  log ERROR "Docker failed to start containers" [] ;;
  restart_docker ;;
  docker_client <- connect_docker_service attempts_qty attempts_tm_sec ;;
  verify_docker_client docker_client false ;;
  ret docker_client.

(** Lines 145-164. *)
Definition check_daemon_health (docker_client : option DockerClient)
    (attempts_qty attempts_tm_sec : Z) : M (option DockerClient) :=
  sample <- health_check_loop docker_client attempts_qty attempts_tm_sec ;;
  failed <- failed_to_start sample ;;
  if failed then restart_path attempts_qty attempts_tm_sec
  else ret docker_client.

(** Lines 171-178: look one container up by its exact name. *)
Definition get_container (docker_client : option DockerClient)
    (i : string) (d : dict) : M (ctl * dict) :=
  try_except
    (container <- with_client docker_client
                    (call (fun c => env_get env c i) (Get i)) ;;
     ret (Continue, dict_set d (cname container) (Some container)))
    (fun e =>
       match e with
       | NotFound _ =>
           Some (log WARNING "Docker container is not found, name: %s => skip"
                   [AStr i] ;;
                 ret (Continue, d))
       | APIError _ =>
           Some (log ERROR "Can't get Docker container, name: %s, error: %s"
                   [AStr i; AExn e] ;;
                 log DEBUG "Exception" [AExcInfo e] ;;
                 ret (Continue, d))
       | _ => None
       end).

(** Lines 185-186: every listed container goes into the dictionary. *)
Definition add_containers (containers : list container) (d : dict) : dict :=
  fold_left (fun acc v => dict_set acc (cname v) (Some v)) containers d.

(** Lines 181-189: list the containers matched by one name filter. *)
Definition list_containers (docker_client : option DockerClient)
    (i : string) (d : dict) : M (ctl * dict) :=
  try_except
    (containers <- with_client docker_client
                     (call (fun c => env_list env c i) (ListContainers i)) ;;
     (if (List.length containers =? 0)%nat
      then log WARNING
             "Docker containers are not found, filter-name: %s => skip"
             [AStr i]
      else ret tt) ;;
     ret (Continue, add_containers containers d))
    (fun e =>
       match e with
       | NotFound _ | APIError _ =>
           Some (log ERROR
                   "Can't get Docker containers list, filter-name: %s, error: %s"
                   [AStr i; AExn e] ;;
                 log DEBUG "Exception" [AExcInfo e] ;;
                 ret (Continue, d))
       | _ => None
       end).

(** Lines 168-193: the dictionary of monitored containers. *)
Definition resolve_containers (docker_client : option DockerClient)
    (docker_container_check_list docker_container_filter_name_check_list : list string)
  : M dict :=
  d <- for_loop docker_container_check_list (get_container docker_client) [] ;;
  d <- for_loop docker_container_filter_name_check_list
         (list_containers docker_client) d ;;
  let d := dict_remove_none d in
  log INFO "Monitored containers: %s" [AKeys (keys d)] ;;
  ret d.

(** Lines 198-200: reload one entry and blank it when it is running. *)
Definition check_status (kv : string * option container) (d : dict)
  : M (ctl * dict) :=
  match snd kv with
  | None => raise AttributeError
  | Some v =>
      status <- call (fun c => env_reload env c v) (Reload v) ;;
      if String.eqb status "running"
      then ret (Continue, dict_set d (fst kv) None)
      else ret (Continue, d)
  end.

(** Lines 197-202: reload every entry, then clean the dictionary up.  The
    [for] runs over the items the dictionary had on entry; no key is added
    or deleted while it runs. *)
Definition settle_iteration (start_list : dict) : M dict :=
  d <- for_loop start_list check_status start_list ;;
  ret (dict_remove_none d).

(** Lines 196-210: one turn of the waiting loop. *)
Definition settle_step (attempts_qty attempts_tm_sec : Z) (i : Z) (d : dict)
  : M (ctl * dict) :=
  d <- settle_iteration d ;;
  if (List.length d =? 0)%nat then ret (Break, d)
  else
    log INFO "Found not running containers, list: %s" [AKeys (keys d)] ;;
    (if i + 1 <? attempts_qty
     then
       log INFO "Wait for %d sec" [AInt attempts_tm_sec] ;;
       sleep attempts_tm_sec
     else ret tt) ;;
    ret (Continue, d).

(** Lines 195-210: wait for the monitored containers to come up. *)
Definition settle_containers (start_list : dict)
    (attempts_qty attempts_tm_sec : Z) : M dict :=
  for_loop (range (if (0 <? List.length start_list)%nat then attempts_qty else 0))
    (settle_step attempts_qty attempts_tm_sec) start_list.

(** Lines 213-218: start one container. *)
Definition start_container (kv : string * option container) (_ : unit)
  : M (ctl * unit) :=
  log INFO "Starting container, name: %s" [AStr (fst kv)] ;;
  try_except
    (match snd kv with
     | None => raise AttributeError
     | Some v => call (fun c => env_start env c v) (Start v)
     end)
    (fun e =>
       match e with
       | NotFound _ | APIError _ =>
           Some (log ERROR "Can't start container, name: %s, error: %s"
                   [AStr (fst kv); AExn e] ;;
                 log DEBUG "Exception" [AExcInfo e])
       | _ => None
       end) ;;
  ret (Continue, tt).

(** Lines 212-218: start what is still not running. *)
Definition start_containers (start_list : dict) : M unit :=
  for_loop start_list start_container tt.

(** Lines 139-210: everything up to the start loop. *)
Definition monitor (attempts_qty attempts_tm_sec : Z)
    (docker_container_check_list docker_container_filter_name_check_list : list string)
  : M dict :=
  docker_client <- connect_docker_service attempts_qty attempts_tm_sec ;;
  verify_docker_client docker_client true ;;
  docker_client <- check_daemon_health docker_client attempts_qty attempts_tm_sec ;;
  d <- resolve_containers docker_client docker_container_check_list
         docker_container_filter_name_check_list ;;
  settle_containers d attempts_qty attempts_tm_sec.

(** Lines 139-218: the [__main__] block once the options are parsed. *)
Definition main (attempts_qty attempts_tm_sec : Z)
    (docker_container_check_list docker_container_filter_name_check_list : list string)
  : M unit :=
  d <- monitor attempts_qty attempts_tm_sec docker_container_check_list
         docker_container_filter_name_check_list ;;
  start_containers d.

(** Line 111: [choices=range(1,6)] for [--attempts-qty]. *)
Definition attempts_qty_choices : list Z := [1; 2; 3; 4; 5].

(** Lines 103-218: the [__main__] block from the values of
    [--attempts-qty] and [--attempts-timeout], each given with an integer
    argument or left at its default.  [parse_args] ends the process with
    status 2 when [--attempts-qty] is none of its choices;
    [--attempts-timeout] takes any integer. *)
Definition script (attempts_qty attempts_tm_sec : Z)
    (docker_container_check_list docker_container_filter_name_check_list : list string)
  : M unit :=
  if existsb (Z.eqb attempts_qty) attempts_qty_choices
  then main attempts_qty attempts_tm_sec docker_container_check_list
         docker_container_filter_name_check_list
  else raise (SystemExit (Some 2)).

End Program.

(** Exit status of the interpreter: [0] after a normal end and after
    [SystemExit] with no argument, the argument itself when it is an
    integer, [1] after an exception nobody caught. *)
Definition exit_status {A} (r : result A) : Z :=
  match r with
  | Ok _ => 0
  | Raise (SystemExit None) => 0
  | Raise (SystemExit (Some n)) => n
  | Raise _ => 1
  end.

Definition outcome {A} (run : result A * nat * list event) : result A := fst (fst run).
Definition calls {A} (run : result A * nat * list event) : nat := snd (fst run).
Definition events {A} (run : result A * nat * list event) : list event := snd run.

(** ** Reading a run *)

Definition is_version (e : event) : bool :=
  match e with Version _ => true | _ => false end.

Definition is_sleep (e : event) : bool :=
  match e with Sleep _ => true | _ => false end.

(** The script enters [restart_docker]: line 76 writes this record before
    anything else, and no other line of the script writes it. *)
Definition is_restart (e : event) : bool :=
  match e with
  | Log INFO fmt [] => String.eqb fmt "Restarting Docker service"
  | _ => false
  end.

(** A restart request that went out to the manager of systemd (line 87). *)
Definition is_restart_unit (e : event) : bool :=
  match e with RestartUnit _ => true | _ => false end.

Definition is_info (e : event) : bool :=
  match e with Info _ => true | _ => false end.

Definition is_reload (e : event) : bool :=
  match e with Reload _ _ => true | _ => false end.

Definition is_start (e : event) : bool :=
  match e with Start _ _ => true | _ => false end.

Definition is_lookup (e : event) : bool :=
  match e with Get _ _ | ListContainers _ _ => true | _ => false end.

Definition is_log (e : event) : bool :=
  match e with Log _ _ _ => true | _ => false end.

(** How often an event of some kind occurs. *)
Definition count (p : event -> bool) (evs : list event) : nat :=
  List.length (filter p evs).

(** [xs] with [sep] between any two neighbours. *)
Fixpoint intersperse {A} (sep : A) (xs : list A) : list A :=
  match xs with
  | [] => []
  | x :: xs' =>
      match xs' with
      | [] => [x]
      | _ :: _ => x :: sep :: intersperse sep xs'
      end
  end.

(** What [get_docker_version] makes of an answer to [client.version()]. *)
Definition version_of (r : result (option string)) : option string :=
  match r with
  | Ok v => v
  | Raise _ => None
  end.

(** The version queries answered at call counts [c], ..., [c + n - 1]. *)
Definition version_queries (env : Env) (c n : nat) : list event :=
  map (fun t => Version (env_version env t)) (seq c n).

Definition is_version_or_sleep (e : event) : bool := is_version e || is_sleep e.

(** The query answered at call count [t] does not give a version. *)
Definition query_fails (env : Env) (t : nat) : Prop :=
  truthy (version_of (env_version env t)) = false.

Definition query_succeeds (env : Env) (t : nat) : Prop :=
  truthy (version_of (env_version env t)) = true.

Definition is_info_or_sleep (e : event) : bool := is_info e || is_sleep e.

(** The [info] queries answered at call counts [c], ..., [c + n - 1]. *)
Definition info_queries (env : Env) (c n : nat) : list event :=
  map (fun t => Info (env_info env t)) (seq c n).

(** The two counts the health loop keeps of an answer to [client.info()]. *)
Definition sample_of (r : result info) : option Z * option Z :=
  match r with
  | Ok i => (Containers i, ContainersRunning i)
  | Raise _ => (None, None)
  end.

(** A sample [total, running] that ends the health loop, and one that
    does not. *)
Definition started (total running : Z) : Prop :=
  total = 0 \/ (0 < total /\ 0 < running).

Definition sample_started (env : Env) (t : nat) : Prop :=
  exists total running,
    env_info env t = Ok (Info_dict (Some total) (Some running)) /\
    started total running.

Definition sample_not_started (env : Env) (t : nat) : Prop :=
  exists total running,
    env_info env t = Ok (Info_dict (Some total) (Some running)) /\
    ~ started total running.

(** An answer to [client.info()] with containers and none running. *)
Definition sample_degraded (env : Env) (t : nat) : Prop :=
  exists total,
    env_info env t = Ok (Info_dict (Some total) (Some 0)) /\ 0 < total.

(** The sample that sends the script into the restart path. *)
Definition degraded (sample : option Z * option Z) : Prop :=
  exists total, sample = (Some total, Some 0) /\ 0 < total.

(** No event of the kind [p] is ever produced by [m]. *)
Definition silent (p : event -> bool) {A} (m : M A) : Prop :=
  forall c, filter p (events (m c)) = [].

Definition is_connect (e : event) : bool :=
  match e with FromEnv | Version _ => true | _ => false end.

(** An answer over the bus that [restart_docker] copes with. *)
Definition dbus_handled (r : result unit) : Prop :=
  r = Ok tt \/ exists msg, r = Raise (DBusException msg).

(** [restart_docker], entered at the step numbered [c], meets nothing it
    does not cope with: the [dbus] modules are there, and the bus and the
    manager answer or raise a [DBusException]. *)
Definition restart_handled (env : Env) (c : nat) : Prop :=
  env_import_dbus env c = Ok tt /\
  ((exists msg, env_get_object env (S c) = Raise (DBusException msg)) \/
   (env_get_object env (S c) = Ok tt /\ dbus_handled (env_restart env (S (S c))))).

(** The restart request of [restart_docker], entered at the step numbered
    [c], goes out: the modules are there and the bus gives the object. *)
Definition restart_sent (env : Env) (c : nat) : Prop :=
  env_import_dbus env c = Ok tt /\ env_get_object env (S c) = Ok tt.

(** A length that [time.sleep] takes. *)
Definition sleep_accepts (sec : Z) : Prop := 0 <= sec <= sleep_max.

(** An answer to [start] that the start loop copes with. *)
Definition start_handled (r : result unit) : Prop :=
  r = Ok tt \/ exists msg, r = Raise (APIError msg) \/ r = Raise (NotFound msg).

(** Every value of the dictionary is a container. *)
Definition all_some (d : dict) : Prop :=
  Forall (fun kv => is_some (snd kv) = true) d.

(** ** Reading the dictionary of monitored containers *)

Definition mem_key (k : string) (ks : list string) : bool :=
  existsb (String.eqb k) ks.

(** Every entry holds a container under the name of that container. *)
Definition entries_named (d : dict) : Prop :=
  Forall (fun kv => exists v, kv = (cname v, Some v)) d.

(** What resolution hands to the later phases. *)
Definition well_formed (d : dict) : Prop :=
  NoDup (keys d) /\ entries_named d.

Definition is_running (r : result string) : bool :=
  match r with
  | Ok status => String.eqb status "running"
  | Raise _ => false
  end.

(** The [reload] calls of one pass over [d] that starts at call count [c]:
    one for each entry, in the order of the dictionary. *)
Fixpoint reloads (env : Env) (c : nat) (d : dict) : list event :=
  match d with
  | [] => []
  | (_, Some v) :: d' => Reload v (env_reload env c v) :: reloads env (S c) d'
  | (_, None) :: d' => reloads env c d'
  end.

(** The keys whose container answers [running] in that pass. *)
Fixpoint running_keys (env : Env) (c : nat) (d : dict) : list string :=
  match d with
  | [] => []
  | (k, Some v) :: d' =>
      if is_running (env_reload env c v)
      then k :: running_keys env (S c) d'
      else running_keys env (S c) d'
  | (_, None) :: d' => running_keys env c d'
  end.

(** Storing [None] under each of the keys [ks]. *)
Definition blank (ks : list string) (d : dict) : dict :=
  fold_left (fun acc k => dict_set acc k None) ks d.

(** The [start] calls of the start loop over [d] from call count [c]. *)
Fixpoint starts (env : Env) (c : nat) (d : dict) : list event :=
  match d with
  | [] => []
  | (_, Some v) :: d' => Start v (env_start env c v) :: starts env (S c) d'
  | (_, None) :: d' => starts env c d'
  end.

(** How the dictionary [d] may turn into [d'] while the events [evs]
    happen: no entry is added or changed, and an entry goes exactly when
    its container was seen running. *)
Definition shrinks (d : dict) (evs : list event) (d' : dict) : Prop :=
  (forall kv, In kv d' -> In kv d) /\
  NoDup (keys d') /\
  (entries_named d -> entries_named d') /\
  (forall k, In k (keys d) -> ~ In k (keys d') ->
     exists v, In (k, Some v) d /\ In (Reload v (Ok "running")) evs) /\
  (entries_named d ->
   forall v, In (Reload v (Ok "running")) evs -> forall k, ~ In (k, Some v) d').

(** ** Reading the resolution *)

(** An answer to a lookup that the resolution copes with: a value, a
    [NotFound] or another [APIError]. *)
Definition lookup_handled {A} (r : result A) : Prop :=
  match r with
  | Ok _ | Raise (NotFound _) | Raise (APIError _) => True
  | Raise _ => False
  end.

(** The lookups by exact name made from call count [c] on. *)
Fixpoint gets (env : Env) (c : nat) (names : list string) : list event :=
  match names with
  | [] => []
  | i :: names' => Get i (env_get env c i) :: gets env (S c) names'
  end.

(** The lookups by name filter made from call count [c] on. *)
Fixpoint lists (env : Env) (c : nat) (filters : list string) : list event :=
  match filters with
  | [] => []
  | i :: filters' => ListContainers i (env_list env c i) :: lists env (S c) filters'
  end.

(** Every container that a lookup in [evs] returned has its name among the
    keys of [d]. *)
Definition covers (d : dict) (evs : list event) : Prop :=
  (forall name v, In (Get name (Ok v)) evs -> In (cname v) (keys d)) /\
  (forall name vs v,
     In (ListContainers name (Ok vs)) evs -> In v vs -> In (cname v) (keys d)).

(** Every lookup in [evs] that raised is followed up in the log, under the
    selector it was made for. *)
Definition failures_logged (evs : list event) : Prop :=
  (forall name e,
     In (Get name (Raise e)) evs ->
     exists lvl fmt args, In (Log lvl fmt (AStr name :: args)) evs) /\
  (forall name e,
     In (ListContainers name (Raise e)) evs ->
     exists lvl fmt args, In (Log lvl fmt (AStr name :: args)) evs).

(** What the resolution keeps true of its dictionary and of its events. *)
Definition resolved (d : dict) (evs : list event) : Prop :=
  well_formed d /\ covers d evs /\ failures_logged evs.

Definition is_reload_or_start (e : event) : bool := is_reload e || is_start e.

(** ** Scenarios *)

Definition web : container := Container "3f4e8a" "web".
Definition db : container := Container "9b1c77" "db".

(** A daemon that answers, has no containers, and knows no name. *)
Definition idle_daemon : Env := {|
  env_version := fun _ => Ok (Some "17.11.0");
  env_import_dbus := fun _ => Ok tt;
  env_get_object := fun _ => Ok tt;
  env_restart := fun _ => Ok tt;
  env_info := fun _ => Ok (Info_dict (Some 0) (Some 0));
  env_get := fun _ name => Raise (NotFound name);
  env_list := fun _ _ => Ok [];
  env_reload := fun _ _ => Ok "exited";
  env_start := fun _ _ => Ok tt |}.

(** The daemon never answers and systemd refuses the restart. *)
Definition daemon_down : Env := {|
  env_version := fun _ => Raise (OtherException "Connection refused");
  env_import_dbus := fun _ => Ok tt;
  env_get_object := fun _ => Ok tt;
  env_restart := fun _ => Raise (DBusException "Unit docker.service not found");
  env_info := env_info idle_daemon;
  env_get := env_get idle_daemon;
  env_list := env_list idle_daemon;
  env_reload := env_reload idle_daemon;
  env_start := env_start idle_daemon |}.

(** The daemon answers from the call numbered [k] on. *)
Definition daemon_up_after (k : nat) : Env := {|
  env_version := fun t =>
    if (t <? k)%nat then Raise (OtherException "Connection refused")
    else Ok (Some "17.11.0");
  env_import_dbus := fun _ => Ok tt;
  env_get_object := fun _ => Ok tt;
  env_restart := env_restart idle_daemon;
  env_info := env_info idle_daemon;
  env_get := env_get idle_daemon;
  env_list := env_list idle_daemon;
  env_reload := env_reload idle_daemon;
  env_start := env_start idle_daemon |}.

(** The daemon answers the first call, reports five containers and none
    running, and is gone after the restart. *)
Definition daemon_degraded : Env := {|
  env_version := fun t =>
    if (t <? 1)%nat then Ok (Some "17.11.0")
    else Raise (OtherException "Connection refused");
  env_import_dbus := fun _ => Ok tt;
  env_get_object := fun _ => Ok tt;
  env_restart := fun _ => Raise (DBusException "Job failed");
  env_info := fun _ => Ok (Info_dict (Some 5) (Some 0));
  env_get := env_get idle_daemon;
  env_list := env_list idle_daemon;
  env_reload := env_reload idle_daemon;
  env_start := env_start idle_daemon |}.

(** As [daemon_degraded], but the daemon is back after the restart. *)
Definition daemon_recovers : Env := {|
  env_version := fun _ => Ok (Some "17.11.0");
  env_import_dbus := fun _ => Ok tt;
  env_get_object := fun _ => Ok tt;
  env_restart := fun _ => Ok tt;
  env_info := fun _ => Ok (Info_dict (Some 5) (Some 0));
  env_get := env_get idle_daemon;
  env_list := env_list idle_daemon;
  env_reload := env_reload idle_daemon;
  env_start := env_start idle_daemon |}.

(** One running container out of two; [web] and [db] exist, [db] comes up
    at the call numbered [7], and no start is accepted. *)
Definition two_containers : Env := {|
  env_version := fun _ => Ok (Some "17.11.0");
  env_import_dbus := fun _ => Ok tt;
  env_get_object := fun _ => Ok tt;
  env_restart := fun _ => Ok tt;
  env_info := fun _ => Ok (Info_dict (Some 2) (Some 1));
  env_get := fun _ name =>
    if String.eqb name "web" then Ok web
    else if String.eqb name "db" then Ok db
    else if String.eqb name "broken" then Raise (APIError "500 Server Error")
    else Raise (NotFound name);
  env_list := fun _ filter_name =>
    if String.eqb filter_name "we" then Ok [web]
    else if String.eqb filter_name "broken" then Raise (APIError "500 Server Error")
    else Ok [];
  env_reload := fun t c =>
    if String.eqb (cname c) "db" && (7 <=? t)%nat then Ok "running"
    else Ok "exited";
  env_start := fun _ _ => Raise (APIError "500 Server Error") |}.

(** Five containers, none of them running before the call numbered [k],
    two of them from then on. *)
Definition containers_up_after (k : nat) : Env := {|
  env_version := fun _ => Ok (Some "17.11.0");
  env_import_dbus := fun _ => Ok tt;
  env_get_object := fun _ => Ok tt;
  env_restart := fun _ => Ok tt;
  env_info := fun t =>
    if (t <? k)%nat then Ok (Info_dict (Some 5) (Some 0))
    else Ok (Info_dict (Some 5) (Some 2));
  env_get := env_get idle_daemon;
  env_list := env_list idle_daemon;
  env_reload := env_reload idle_daemon;
  env_start := env_start idle_daemon |}.

(** The daemon answers the version query and fails on [info]. *)
Definition info_fails : Env := {|
  env_version := fun _ => Ok (Some "17.11.0");
  env_import_dbus := fun _ => Ok tt;
  env_get_object := fun _ => Ok tt;
  env_restart := fun _ => Ok tt;
  env_info := fun _ => Raise (APIError "500 Server Error");
  env_get := env_get idle_daemon;
  env_list := env_list idle_daemon;
  env_reload := env_reload idle_daemon;
  env_start := env_start idle_daemon |}.

(** The daemon is healthy and [web] exists, but reloading it fails. *)
Definition reload_fails : Env := {|
  env_version := fun _ => Ok (Some "17.11.0");
  env_import_dbus := fun _ => Ok tt;
  env_get_object := fun _ => Ok tt;
  env_restart := fun _ => Ok tt;
  env_info := fun _ => Ok (Info_dict (Some 2) (Some 1));
  env_get := env_get two_containers;
  env_list := env_list two_containers;
  env_reload := fun _ _ => Raise (APIError "500 Server Error");
  env_start := fun _ _ => Ok tt |}.

(** ** Further readings of a run *)

(** How many sleeps the turn numbered [i] of a loop of [N] turns may
    make: one, unless the turn is the last. *)
Definition sleep_bound (N : Z) (i : Z) : nat :=
  if i + 1 <? N then 1%nat else 0%nat.

(** The exception classes that an [except docker.errors.APIError] clause
    catches. *)
Definition is_api_error (e : exn) : bool :=
  match e with
  | NotFound _ | APIError _ => true
  | _ => false
  end.

Definition is_dbus_error (e : exn) : bool :=
  match e with
  | DBusException _ => true
  | _ => false
  end.

(** The daemon never answers and the [dbus] module is missing. *)
Definition dbus_missing : Env := {|
  env_version := env_version daemon_down;
  env_import_dbus := fun _ => Raise (ImportError "No module named 'dbus'");
  env_get_object := fun _ => Ok tt;
  env_restart := fun _ => Ok tt;
  env_info := env_info idle_daemon;
  env_get := env_get idle_daemon;
  env_list := env_list idle_daemon;
  env_reload := env_reload idle_daemon;
  env_start := env_start idle_daemon |}.

(** The daemon never answers and the system bus cannot be reached. *)
Definition bus_missing : Env := {|
  env_version := env_version daemon_down;
  env_import_dbus := fun _ => Ok tt;
  env_get_object := fun _ => Raise (DBusException "Failed to connect to socket");
  env_restart := fun _ => Ok tt;
  env_info := env_info idle_daemon;
  env_get := env_get idle_daemon;
  env_list := env_list idle_daemon;
  env_reload := env_reload idle_daemon;
  env_start := env_start idle_daemon |}.

(** The daemon answers [info()] without the entry [Containers]. *)
Definition info_without_counts : Env := {|
  env_version := fun _ => Ok (Some "17.11.0");
  env_import_dbus := fun _ => Ok tt;
  env_get_object := fun _ => Ok tt;
  env_restart := fun _ => Ok tt;
  env_info := fun _ => Ok (Info_dict None None);
  env_get := env_get idle_daemon;
  env_list := env_list idle_daemon;
  env_reload := env_reload idle_daemon;
  env_start := env_start idle_daemon |}.

(** The container [v] was returned by a lookup recorded in [evs]. *)
Definition returned (evs : list event) (v : container) : Prop :=
  (exists name, In (Get name (Ok v)) evs) \/
  (exists name vs, In (ListContainers name (Ok vs)) evs /\ In v vs).

(** Every container of [d] was returned by a lookup recorded in [evs]. *)
Definition sourced (d : dict) (evs : list event) : Prop :=
  forall k v, In (k, Some v) d -> returned evs v.

(** Every [reload] gives a status, and one other than [running]. *)
Definition reloads_answer (env : Env) : Prop :=
  forall t v, exists status, env_reload env t v = Ok status.

Definition never_running (env : Env) : Prop :=
  forall t v, exists status, env_reload env t v = Ok status /\ status <> "running".

(** The daemon breaks the connection when [db] is looked up or started. *)
Definition connection_lost : Env := {|
  env_version := fun _ => Ok (Some "17.11.0");
  env_import_dbus := fun _ => Ok tt;
  env_get_object := fun _ => Ok tt;
  env_restart := fun _ => Ok tt;
  env_info := fun _ => Ok (Info_dict (Some 2) (Some 1));
  env_get := fun _ name =>
    if String.eqb name "db" then Raise (OtherException "Connection aborted")
    else if String.eqb name "web" then Ok web
    else Raise (NotFound name);
  env_list := fun _ filter_name =>
    if String.eqb filter_name "d" then Raise (OtherException "Connection aborted")
    else Ok [];
  env_reload := fun _ _ => Ok "exited";
  env_start := fun _ c =>
    if String.eqb (cname c) "db" then Raise (OtherException "Connection aborted")
    else Ok tt |}.

Definition is_warning (e : event) : bool :=
  match e with Log WARNING _ _ => true | _ => false end.

(** The collaborators raise nothing that the script does not handle:
    [info()] gives both counts, the [dbus] modules are there and the bus
    answers or raises a [DBusException], lookups and starts raise at most API errors, and
    [reload] gives a status. *)
Definition collaborators_behave (env : Env) : Prop :=
  (forall t, exists total running,
     env_info env t = Ok (Info_dict (Some total) (Some running))) /\
  (forall t, restart_handled env t) /\
  (forall t i, lookup_handled (env_get env t i)) /\
  (forall t i, lookup_handled (env_list env t i)) /\
  reloads_answer env /\
  (forall t v, start_handled (env_start env t v)).

(** ** Laws of the monad and of the loop *)

Lemma bind_ok {A B} (m : M A) (f : A -> M B) c a c1 e1 r c2 e2 :
  m c = (Ok a, c1, e1) ->
  f a c1 = (r, c2, e2) ->
  bind m f c = (r, c2, e1 ++ e2).
Proof.
  intros Hm Hf. unfold bind. rewrite Hm, Hf. reflexivity.
Qed.

Lemma bind_raise {A B} (m : M A) (f : A -> M B) c e c1 e1 :
  m c = (Raise e, c1, e1) ->
  bind m f c = (Raise e, c1, e1).
Proof.
  intros Hm. unfold bind. rewrite Hm. reflexivity.
Qed.

(** A run of [bind m f] is a run of [m] that raised, or a run of [m]
    followed by a run of [f]. *)
Lemma bind_inv {A B} (m : M A) (f : A -> M B) c r c2 evs :
  bind m f c = (r, c2, evs) ->
  (exists e, m c = (Raise e, c2, evs) /\ r = Raise e) \/
  (exists a c1 e1 e2,
      m c = (Ok a, c1, e1) /\ f a c1 = (r, c2, e2) /\ evs = e1 ++ e2).
Proof.
  unfold bind. destruct (m c) as [[[a | e] c1] e1].
  - destruct (f a c1) as [[r' c2'] e2] eqn:Hf. intros H.
    injection H as <- <- <-. right. exists a, c1, e1, e2. auto.
  - intros H. injection H as <- <- <-. left. exists e. auto.
Qed.

Lemma for_loop_nil {A S} (body : A -> S -> M (ctl * S)) s c :
  for_loop [] body s c = (Ok s, c, []).
Proof. reflexivity. Qed.

Lemma for_loop_continue {A S} (body : A -> S -> M (ctl * S)) x xs s c s' c1 e1 r c2 e2 :
  body x s c = (Ok (Continue, s'), c1, e1) ->
  for_loop xs body s' c1 = (r, c2, e2) ->
  for_loop (x :: xs) body s c = (r, c2, e1 ++ e2).
Proof.
  intros Hb Hl. simpl. unfold bind. rewrite Hb, Hl. reflexivity.
Qed.

Lemma for_loop_break {A S} (body : A -> S -> M (ctl * S)) x xs s c s' c1 e1 :
  body x s c = (Ok (Break, s'), c1, e1) ->
  for_loop (x :: xs) body s c = (Ok s', c1, e1).
Proof.
  intros Hb. simpl. unfold bind. rewrite Hb. simpl. now rewrite app_nil_r.
Qed.

Lemma for_loop_raise {A S} (body : A -> S -> M (ctl * S)) x xs s c e c1 e1 :
  body x s c = (Raise e, c1, e1) ->
  for_loop (x :: xs) body s c = (Raise e, c1, e1).
Proof.
  intros Hb. simpl. unfold bind. now rewrite Hb.
Qed.

(** The three ways a loop over [x :: xs] can go. *)
Lemma for_loop_inv {A S} (body : A -> S -> M (ctl * S)) x xs s c r c2 evs :
  for_loop (x :: xs) body s c = (r, c2, evs) ->
  (exists e, body x s c = (Raise e, c2, evs) /\ r = Raise e) \/
  (exists s', body x s c = (Ok (Break, s'), c2, evs) /\ r = Ok s') \/
  (exists s' c1 e1 e2,
      body x s c = (Ok (Continue, s'), c1, e1) /\
      for_loop xs body s' c1 = (r, c2, e2) /\ evs = e1 ++ e2).
Proof.
  simpl. intros H. apply bind_inv in H.
  destruct H as [(e & Hb & ->) | (a & c1 & e1 & e2 & Hb & Hk & ->)].
  - left. eauto.
  - right. destruct a as [[|] s'].
    + right. exists s', c1, e1, e2. auto.
    + left. injection Hk as <- <- <-. rewrite app_nil_r. eauto.
Qed.

Lemma range_of_nat (n : nat) : range (Z.of_nat n) = map Z.of_nat (seq 0 n).
Proof. unfold range. now rewrite Nat2Z.id. Qed.

Lemma count_app p xs ys : count p (xs ++ ys) = (count p xs + count p ys)%nat.
Proof. unfold count. now rewrite filter_app, length_app. Qed.

Lemma filter_filter {A} (p q : A -> bool) xs :
  (forall x, p x = true -> q x = true) ->
  filter p (filter q xs) = filter p xs.
Proof.
  intros Hpq. induction xs as [|x xs IH]; simpl; [reflexivity|].
  destruct (q x) eqn:Hq; simpl.
  - now rewrite IH.
  - destruct (p x) eqn:Hp; [|exact IH]. apply Hpq in Hp. congruence.
Qed.

Lemma intersperse_cons {A} (sep x y : A) xs :
  intersperse sep (x :: y :: xs) = x :: sep :: intersperse sep (y :: xs).
Proof. reflexivity. Qed.

Lemma intersperse_not_nil {A} (sep x : A) xs : intersperse sep (x :: xs) <> [].
Proof. destruct xs; discriminate. Qed.

Lemma last_intersperse {A} (sep d : A) xs :
  last (intersperse sep xs) d = last xs d.
Proof.
  induction xs as [|x [|y xs] IH]; try reflexivity.
  rewrite intersperse_cons.
  change (last (intersperse sep (y :: xs)) d = last (y :: xs) d) in IH.
  change (last (x :: y :: xs) d) with (last (y :: xs) d). rewrite <- IH.
  destruct (intersperse sep (y :: xs)) eqn:E; [|reflexivity].
  now apply intersperse_not_nil in E.
Qed.

(** Of a list interspersed with [sep], a test that holds of the members
    only finds the members, and one that holds of [sep] only finds one
    [sep] less than there are members. *)
Lemma intersperse_filter {A} (p q : A -> bool) sep xs :
  p sep = false -> q sep = true ->
  Forall (fun x => p x = true /\ q x = false) xs ->
  filter p (intersperse sep xs) = xs /\
  filter q (intersperse sep xs) = repeat sep (List.length xs - 1).
Proof.
  intros Hp Hq. induction 1 as [|x xs [Hx1 Hx2] Hxs [IH1 IH2]]; [split; reflexivity|].
  destruct xs as [|y xs].
  - simpl. rewrite Hx1, Hx2. split; reflexivity.
  - rewrite intersperse_cons. simpl filter. rewrite Hx1, Hx2, Hp, Hq.
    change (x :: filter p (intersperse sep (y :: xs)) = x :: y :: xs /\
            sep :: filter q (intersperse sep (y :: xs))
              = repeat sep (List.length (x :: y :: xs) - 1)).
    rewrite IH1, IH2. simpl. now rewrite Nat.sub_0_r.
Qed.

(** The two tests of [sleep] on a length that [time.sleep] takes. *)
Lemma sleep_tests sec :
  sleep_accepts sec -> (sec <? 0) = false /\ (sec <=? sleep_max) = true.
Proof.
  intros [H0 H1]. split; [apply Z.ltb_ge; exact H0 | apply Z.leb_le; exact H1].
Qed.

(** ** Retry loops with one remote call a turn

    The connection loop and the health loop have the same shape: a turn
    makes one call; a good answer breaks the loop, a bad one is followed by
    a sleep unless the turn is the last. *)
Section RetryLoop.

Context {S : Type}.
Variables (body : Z -> S -> M (ctl * S)) (n : nat) (T : Z).
Variables (view : event -> bool) (query : nat -> event) (value : nat -> S).
Variables (bad good : nat -> Prop).

Hypothesis turn_bad : forall a s c, bad c ->
  exists evs,
    body (Z.of_nat a) s c = (Ok (Continue, value c), Datatypes.S c, evs) /\
    filter view evs
      = query c :: (if Z.of_nat a + 1 <? Z.of_nat n then [Sleep T] else []).

Hypothesis turn_good : forall a s c, good c ->
  exists evs,
    body (Z.of_nat a) s c = (Ok (Break, value c), Datatypes.S c, evs) /\
    filter view evs = [query c].

Lemma retry_exhausted m : forall a s c,
  (a + m = n)%nat ->
  (forall t, (c <= t < c + m)%nat -> bad t) ->
  exists v evs,
    for_loop (map Z.of_nat (seq a m)) body s c = (Ok v, (c + m)%nat, evs) /\
    (m = 0%nat -> v = s) /\
    (forall m', m = Datatypes.S m' -> v = value (c + m')) /\
    filter view evs = intersperse (Sleep T) (map query (seq c m)).
Proof.
  induction m as [|m IH]; intros a s c Ham Hbad.
  - exists s, []. rewrite Nat.add_0_r. repeat split; auto. discriminate.
  - destruct (turn_bad a s c) as (e1 & Hb & Hv1); [apply Hbad; lia|].
    destruct (IH (Datatypes.S a) (value c) (Datatypes.S c))
      as (v & e2 & Hl & Hv0 & HvS & Hv2); [lia | intros t Ht; apply Hbad; lia |].
    exists v, (e1 ++ e2). repeat split.
    + change (map Z.of_nat (seq a (Datatypes.S m)))
        with (Z.of_nat a :: map Z.of_nat (seq (Datatypes.S a) m)).
      replace (c + Datatypes.S m)%nat with (Datatypes.S c + m)%nat by lia.
      eapply for_loop_continue; eassumption.
    + discriminate.
    + intros m' E. injection E as <-. destruct m as [|m].
      * rewrite Nat.add_0_r. auto.
      * rewrite (HvS m eq_refl). f_equal. lia.
    + rewrite filter_app, Hv1, Hv2. destruct m as [|m].
      * assert (E : (Z.of_nat a + 1 <? Z.of_nat n) = false) by (apply Z.ltb_ge; lia).
        rewrite E. reflexivity.
      * assert (E : (Z.of_nat a + 1 <? Z.of_nat n) = true) by (apply Z.ltb_lt; lia).
        rewrite E. reflexivity.
Qed.

Lemma retry_stops j : forall m a s c,
  (a + m = n)%nat ->
  (j < m)%nat ->
  (forall t, (c <= t < c + j)%nat -> bad t) ->
  good (c + j) ->
  exists evs,
    for_loop (map Z.of_nat (seq a m)) body s c
      = (Ok (value (c + j)), Datatypes.S (c + j), evs) /\
    filter view evs = intersperse (Sleep T) (map query (seq c (Datatypes.S j))).
Proof.
  induction j as [|j IH]; intros m a s c Ham Hjm Hbad Hgood;
    (destruct m as [|m]; [lia|]);
    change (map Z.of_nat (seq a (Datatypes.S m)))
      with (Z.of_nat a :: map Z.of_nat (seq (Datatypes.S a) m)).
  - rewrite Nat.add_0_r in *.
    destruct (turn_good a s c Hgood) as (e1 & Hb & Hv1).
    exists e1. split; [now apply for_loop_break | exact Hv1].
  - destruct (turn_bad a s c) as (e1 & Hb & Hv1); [apply Hbad; lia|].
    destruct (IH m (Datatypes.S a) (value c) (Datatypes.S c)) as (e2 & Hl & Hv2);
      [lia | lia | intros t Ht; apply Hbad; lia
      | now replace (Datatypes.S c + j)%nat with (c + Datatypes.S j)%nat by lia |].
    replace (Datatypes.S c + j)%nat with (c + Datatypes.S j)%nat in Hl by lia.
    exists (e1 ++ e2). split; [eapply for_loop_continue; eassumption|].
    assert (E : (Z.of_nat a + 1 <? Z.of_nat n) = true) by (apply Z.ltb_lt; lia).
    rewrite filter_app, Hv1, Hv2, E. reflexivity.
Qed.

End RetryLoop.

(** The calls and sleeps of a retry loop, counted. *)
Lemma retry_counts (p view : event -> bool) (query : nat -> event) T c n evs :
  (forall e, p e = true -> view e = true) ->
  (forall e, is_sleep e = true -> view e = true) ->
  (forall t, p (query t) = true /\ is_sleep (query t) = false) ->
  p (Sleep T) = false ->
  filter view evs = intersperse (Sleep T) (map query (seq c n)) ->
  count p evs = n /\
  filter is_sleep evs = repeat (Sleep T) (n - 1) /\
  (forall m, n = S m -> last (filter view evs) FromEnv = query (c + m)%nat).
Proof.
  intros Hp Hs Hq HpT H.
  destruct (intersperse_filter p is_sleep (Sleep T) (map query (seq c n)))
    as [H1 H2]; [exact HpT | reflexivity | |].
  { apply Forall_forall. intros e He. apply in_map_iff in He.
    destruct He as (t & <- & _). apply Hq. }
  rewrite <- H in H1, H2. rewrite filter_filter in H1, H2 by assumption.
  unfold count. rewrite H1, H2, length_map, length_seq.
  repeat split. intros m ->. rewrite H, last_intersperse, seq_S, map_app.
  cbn [map]. apply last_last.
Qed.

(** ** The connection loop *)

Section Connect.

Variable env : Env.
Variables (n : nat) (T : Z) (client : DockerClient).
Hypothesis T_accepted : sleep_accepts T.

Let N := Z.of_nat n.

Lemma connect_attempt_fails i s c :
  query_fails env c ->
  connect_attempt env N T client i s c =
    (Ok (Continue, version_of (env_version env c)), S c,
     Version (env_version env c)
       :: Log WARNING "Can't get Docker version" []
       :: (if i + 1 <? N
           then [Log INFO "Retry in: %d sec" [AInt T]; Sleep T]
           else [])).
Proof.
  unfold query_fails, connect_attempt, get_docker_version, try_except, call,
    bind, log, emit, sleep, ret.
  intros H. destruct (sleep_tests T T_accepted) as [HT HT'].
  destruct (env_version env c) as [v | e]; simpl in H |- *; rewrite ?H;
    destruct (i + 1 <? N); rewrite ?HT, ?HT'; reflexivity.
Qed.

Lemma connect_attempt_succeeds i s c :
  query_succeeds env c ->
  connect_attempt env N T client i s c =
    (Ok (Break, version_of (env_version env c)), S c,
     [Version (env_version env c)]).
Proof.
  unfold query_succeeds, connect_attempt, get_docker_version, try_except, call,
    bind, ret.
  intros H.
  destruct (env_version env c) as [v | e]; simpl in H |- *;
    [rewrite H; reflexivity | discriminate H].
Qed.

Lemma connect_turn_bad a s c :
  query_fails env c ->
  exists evs,
    connect_attempt env N T client (Z.of_nat a) s c
      = (Ok (Continue, version_of (env_version env c)), S c, evs) /\
    filter is_version_or_sleep evs
      = Version (env_version env c)
          :: (if Z.of_nat a + 1 <? Z.of_nat n then [Sleep T] else []).
Proof.
  intros H. eexists. split; [apply connect_attempt_fails; exact H|].
  subst N. simpl. destruct (Z.of_nat a + 1 <? Z.of_nat n); reflexivity.
Qed.

Lemma connect_turn_good a s c :
  query_succeeds env c ->
  exists evs,
    connect_attempt env N T client (Z.of_nat a) s c
      = (Ok (Break, version_of (env_version env c)), S c, evs) /\
    filter is_version_or_sleep evs = [Version (env_version env c)].
Proof.
  intros H. eexists. split; [apply connect_attempt_succeeds; exact H|]. reflexivity.
Qed.

(** What [connect_docker_service] adds around its loop. *)
Lemma connect_docker_service_run c v c1 evs :
  for_loop (range N) (connect_attempt env N T from_env_client) None c
    = (Ok v, c1, evs) ->
  exists tail,
    connect_docker_service env N T c
      = (Ok (if truthy v then Some from_env_client else None), c1,
         FromEnv :: evs ++ tail) /\
    filter is_version_or_sleep tail = [].
Proof.
  intros Hl. unfold connect_docker_service.
  destruct (truthy v) eqn:Hv.
  - eexists. split; [|shelve].
    eapply (bind_ok _ _ c tt c [FromEnv]); [reflexivity|].
    eapply bind_ok; [exact Hl|]. rewrite Hv. reflexivity.
    Unshelve. reflexivity.
  - eexists. split; [|shelve].
    eapply (bind_ok _ _ c tt c [FromEnv]); [reflexivity|].
    eapply bind_ok; [exact Hl|]. rewrite Hv. reflexivity.
    Unshelve. reflexivity.
Qed.

End Connect.

Lemma version_view_counts env T c n evs :
  filter is_version_or_sleep evs = intersperse (Sleep T) (version_queries env c n) ->
  count is_version evs = n /\
  filter is_sleep evs = repeat (Sleep T) (n - 1) /\
  (forall m, n = S m ->
     last (filter is_version_or_sleep evs) FromEnv = Version (env_version env (c + m))).
Proof.
  apply (retry_counts is_version is_version_or_sleep
           (fun t => Version (env_version env t))).
  - intros e H. unfold is_version_or_sleep. now rewrite H.
  - intros e H. unfold is_version_or_sleep. rewrite H. apply orb_true_r.
  - intros t. split; reflexivity.
  - reflexivity.
Qed.




(** ** Kinds of events a computation never produces *)

Lemma count_bind {A B} p (m : M A) (f : A -> M B) c :
  count p (events (bind m f c))
  = (count p (events (m c))
     + match outcome (m c) with
       | Ok a => count p (events (f a (calls (m c))))
       | Raise _ => 0
       end)%nat.
Proof.
  unfold bind, events, outcome, calls.
  destruct (m c) as [[[a | e] c1] e1]; simpl.
  - destruct (f a c1) as [[r c2] e2]. simpl. apply count_app.
  - now rewrite Nat.add_0_r.
Qed.

Lemma silent_count {A} p (m : M A) c : silent p m -> count p (events (m c)) = 0%nat.
Proof. intros H. unfold count. now rewrite H. Qed.

Lemma silent_ret {A} p (a : A) : silent p (ret a).
Proof. intros c. reflexivity. Qed.

Lemma silent_raise {A} p e : silent p (@raise A e).
Proof. intros c. reflexivity. Qed.

Lemma silent_emit p ev : p ev = false -> silent p (emit ev).
Proof. intros H c. unfold emit, events. simpl. now rewrite H. Qed.

Lemma silent_log p lvl fmt args : p (Log lvl fmt args) = false -> silent p (log lvl fmt args).
Proof. apply silent_emit. Qed.

Lemma silent_sleep p sec : p (Sleep sec) = false -> silent p (sleep sec).
Proof.
  intros H. unfold sleep. destruct (sec <? 0); [apply silent_raise|].
  destruct (sec <=? sleep_max); [now apply silent_emit | apply silent_raise].
Qed.

Lemma silent_call {A} p (answer : nat -> result A) ev :
  (forall r, p (ev r) = false) -> silent p (call answer ev).
Proof. intros H c. unfold call, events. simpl. now rewrite H. Qed.

Lemma silent_bind {A B} p (m : M A) (f : A -> M B) :
  silent p m -> (forall a, silent p (f a)) -> silent p (bind m f).
Proof.
  intros Hm Hf c. specialize (Hm c). unfold bind, events in *.
  destruct (m c) as [[[a | e] c1] e1]; simpl in *; [|exact Hm].
  specialize (Hf a c1). unfold events in Hf.
  destruct (f a c1) as [[r c2] e2]. simpl in *. now rewrite filter_app, Hm, Hf.
Qed.

Lemma silent_try_except {A} p (m : M A) handler :
  silent p m ->
  (forall e h, handler e = Some h -> silent p h) ->
  silent p (try_except m handler).
Proof.
  intros Hm Hh c. specialize (Hm c). unfold try_except, events in *.
  destruct (m c) as [[[a | e] c1] e1]; simpl in *; [exact Hm|].
  destruct (handler e) as [h|] eqn:E; [|exact Hm].
  specialize (Hh e h E c1). unfold events in Hh.
  destruct (h c1) as [[r c2] e2]. simpl in *. now rewrite filter_app, Hm, Hh.
Qed.

Lemma silent_for_loop {A S} p (body : A -> S -> M (ctl * S)) xs :
  (forall x s, silent p (body x s)) ->
  forall s, silent p (for_loop xs body s).
Proof.
  intros Hb. induction xs as [|x xs IH]; intros s; [apply silent_ret|].
  simpl. apply silent_bind; [apply Hb|].
  intros [[|] s']; [apply IH | apply silent_ret].
Qed.

Lemma silent_with_client {A} p dc (m : M A) : silent p m -> silent p (with_client dc m).
Proof. intros H. destruct dc; [exact H | apply silent_raise]. Qed.

(** Peels a computation apart down to its events. *)
Ltac silence :=
  repeat first
    [ apply silent_ret
    | apply silent_raise
    | apply silent_log; reflexivity
    | apply silent_sleep; reflexivity
    | apply silent_emit; reflexivity
    | apply silent_call; intros; reflexivity
    | apply silent_with_client
    | apply silent_bind; [|intros]
    | apply silent_for_loop; intros
    | match goal with
      | |- silent _ (if ?b then _ else _) => destruct b
      | |- silent _ (match ?x with _ => _ end) => destruct x
      | |- silent _ (try_except _ _) =>
          apply silent_try_except;
          [|let e := fresh "e" in
            let h := fresh "h" in
            let E := fresh "E" in
            intros e h E; destruct e; simpl in E;
            try discriminate E; injection E as <-]
      end ].

Lemma connect_no_restart env N T : silent is_restart (connect_docker_service env N T).
Proof. unfold connect_docker_service, connect_attempt, get_docker_version. silence. Qed.

Lemma health_loop_no_restart env dc N T : silent is_restart (health_check_loop env dc N T).
Proof. unfold health_check_loop, health_check, daemon_started, py_gt0. silence. Qed.

Lemma resolve_no_restart env dc names filters :
  silent is_restart (resolve_containers env dc names filters).
Proof. unfold resolve_containers, get_container, list_containers. silence. Qed.

Lemma settle_no_restart env d N T : silent is_restart (settle_containers env d N T).
Proof.
  unfold settle_containers, settle_step, settle_iteration, check_status. silence.
Qed.

Lemma start_no_restart env d : silent is_restart (start_containers env d).
Proof. unfold start_containers, start_container. silence. Qed.

Lemma verify_no_restart env dc : silent is_restart (verify_docker_client env dc false).
Proof. unfold verify_docker_client. silence. Qed.

Lemma connect_no_restart_unit env N T :
  silent is_restart_unit (connect_docker_service env N T).
Proof. unfold connect_docker_service, connect_attempt, get_docker_version. silence. Qed.

Lemma health_loop_no_restart_unit env dc N T :
  silent is_restart_unit (health_check_loop env dc N T).
Proof. unfold health_check_loop, health_check, daemon_started, py_gt0. silence. Qed.

(** What [restart_docker] does at each answer it can get. *)
Lemma restart_docker_run env c :
  restart_docker env c
  = match env_import_dbus env c with
    | Raise e =>
        (Raise e, S c,
         [Log INFO "Restarting Docker service" []; ImportDBus (Raise e)])
    | Ok u =>
        match env_get_object env (S c) with
        | Raise e =>
            match e with
            | DBusException _ =>
                (Ok tt, S (S c),
                 [Log INFO "Restarting Docker service" []; ImportDBus (Ok u);
                  GetObject (Raise e);
                  Log ERROR "Can't restart Docker, error: %s" [AExn e];
                  Log DEBUG "Exception" [AExcInfo e]])
            | _ =>
                (Raise e, S (S c),
                 [Log INFO "Restarting Docker service" []; ImportDBus (Ok u);
                  GetObject (Raise e)])
            end
        | Ok u' =>
            match env_restart env (S (S c)) with
            | Raise e =>
                match e with
                | DBusException _ =>
                    (Ok tt, S (S (S c)),
                     [Log INFO "Restarting Docker service" []; ImportDBus (Ok u);
                      GetObject (Ok u'); RestartUnit (Raise e);
                      Log ERROR "Can't restart Docker, error: %s" [AExn e];
                      Log DEBUG "Exception" [AExcInfo e]])
                | _ =>
                    (Raise e, S (S (S c)),
                     [Log INFO "Restarting Docker service" []; ImportDBus (Ok u);
                      GetObject (Ok u'); RestartUnit (Raise e)])
                end
            | Ok u'' =>
                (Ok u'', S (S (S c)),
                 [Log INFO "Restarting Docker service" []; ImportDBus (Ok u);
                  GetObject (Ok u'); RestartUnit (Ok u'')])
            end
        end
    end.
Proof.
  unfold restart_docker, try_except, call, bind, log, emit, ret.
  destruct (env_import_dbus env c) as [u | e]; [|reflexivity].
  destruct (env_get_object env (S c)) as [u' | e]; [|destruct e; reflexivity].
  destruct (env_restart env (S (S c))) as [u'' | e]; [|destruct e]; reflexivity.
Qed.

(** [restart_docker] writes its first record once, whatever comes after. *)
Lemma restart_docker_once env c : count is_restart (events (restart_docker env c)) = 1%nat.
Proof.
  rewrite restart_docker_run.
  destruct (env_import_dbus env c) as [u | e]; [|reflexivity].
  destruct (env_get_object env (S c)) as [u' | e]; [|destruct e; reflexivity].
  destruct (env_restart env (S (S c))) as [u'' | e]; [|destruct e]; reflexivity.
Qed.

(** At most one restart request goes out, and exactly one when the bus
    gives the object. *)
Lemma restart_docker_requests env c :
  (count is_restart_unit (events (restart_docker env c)) <= 1)%nat /\
  (restart_sent env c ->
   count is_restart_unit (events (restart_docker env c)) = 1%nat) /\
  (count is_restart_unit (events (restart_docker env c)) = 1%nat ->
   restart_sent env c).
Proof.
  unfold restart_sent. rewrite restart_docker_run.
  destruct (env_import_dbus env c) as [[] | e].
  - destruct (env_get_object env (S c)) as [[] | e].
    + destruct (env_restart env (S (S c))) as [u'' | e]; [|destruct e];
        unfold count; simpl; auto.
    + destruct e; unfold count; simpl;
        (split; [lia | split; [intros [_ H]; discriminate H | discriminate]]).
  - unfold count; simpl.
    split; [lia | split; [intros [H _]; discriminate H | discriminate]].
Qed.

(** ** The health loop *)

Section Health.

Variable env : Env.
Variables (n : nat) (T : Z) (client : DockerClient).
Hypothesis T_accepted : sleep_accepts T.

Lemma health_turn_bad a s c :
  sample_not_started env c ->
  exists evs,
    health_check env (Some client) (Z.of_nat n) T (Z.of_nat a) s c
      = (Ok (Continue, sample_of (env_info env c)), S c, evs) /\
    filter is_info_or_sleep evs
      = Info (env_info env c)
          :: (if Z.of_nat a + 1 <? Z.of_nat n then [Sleep T] else []).
Proof.
  intros (q & r & E & H). unfold started in H.
  destruct (sleep_tests T T_accepted) as [HT HT'].
  unfold health_check, with_client, daemon_started, py_eq0, py_gt0, call, bind,
    log, emit, sleep, ret.
  rewrite E. simpl.
  destruct (q =? 0) eqn:E0; [apply Z.eqb_eq in E0; tauto|]. simpl.
  destruct (0 <? q) eqn:E1; simpl.
  - destruct (0 <? r) eqn:E2; [apply Z.ltb_lt in E1, E2; tauto|]. simpl.
    destruct (Z.of_nat a + 1 <? Z.of_nat n); simpl; rewrite ?HT, ?HT'; simpl;
      eexists; split; reflexivity.
  - destruct (Z.of_nat a + 1 <? Z.of_nat n); simpl; rewrite ?HT, ?HT'; simpl;
      eexists; split; reflexivity.
Qed.

Lemma health_turn_good a s c :
  sample_started env c ->
  exists evs,
    health_check env (Some client) (Z.of_nat n) T (Z.of_nat a) s c
      = (Ok (Break, sample_of (env_info env c)), S c, evs) /\
    filter is_info_or_sleep evs = [Info (env_info env c)].
Proof.
  intros (q & r & E & H). unfold started in H.
  unfold health_check, with_client, daemon_started, py_eq0, py_gt0, call, bind,
    log, emit, ret.
  rewrite E. simpl.
  destruct (q =? 0) eqn:E0; simpl; [eexists; split; reflexivity|].
  apply Z.eqb_neq in E0.
  assert (E1 : (0 <? q) = true) by (apply Z.ltb_lt; lia).
  assert (E2 : (0 <? r) = true) by (apply Z.ltb_lt; lia).
  rewrite E1. simpl. rewrite E2. simpl. eexists; split; reflexivity.
Qed.

End Health.

Lemma info_view_counts env T c n evs :
  filter is_info_or_sleep evs = intersperse (Sleep T) (info_queries env c n) ->
  count is_info evs = n /\
  filter is_sleep evs = repeat (Sleep T) (n - 1) /\
  (forall m, n = S m ->
     last (filter is_info_or_sleep evs) FromEnv = Info (env_info env (c + m))).
Proof.
  apply (retry_counts is_info is_info_or_sleep (fun t => Info (env_info env t))).
  - intros e H. unfold is_info_or_sleep. now rewrite H.
  - intros e H. unfold is_info_or_sleep. rewrite H. apply orb_true_r.
  - intros t. split; reflexivity.
  - reflexivity.
Qed.

(** The restart path runs [restart_docker] exactly once. *)
Lemma restart_path_once env N T c :
  count is_restart (events (restart_path env N T c)) = 1%nat.
Proof.
  unfold restart_path. rewrite count_bind.
  rewrite (silent_count is_restart (log _ _ _)) by (apply silent_log; reflexivity).
  change (outcome (log ERROR "Docker failed to start containers" [] c)) with (Ok tt).
  cbv iota. rewrite count_bind, restart_docker_once.
  destruct (outcome (restart_docker env _)); [|reflexivity].
  rewrite silent_count; [reflexivity|].
  apply silent_bind; [apply connect_no_restart|]. intros dc.
  apply silent_bind; [apply verify_no_restart | intros; apply silent_ret].
Qed.

(** A turn of the health loop that ends well has made one query and
    keeps its two counts. *)
Lemma health_check_ok env dc N T i s c k s' c1 evs :
  health_check env dc N T i s c = (Ok (k, s'), c1, evs) ->
  c1 = S c /\ s' = sample_of (env_info env c).
Proof.
  unfold health_check, with_client, daemon_started, py_eq0, py_gt0, call, bind,
    log, emit, sleep, ret, raise.
  destruct dc; [|discriminate].
  destruct (env_info env c) as [[[q|] [r|]] | e]; simpl;
    repeat match goal with
      | |- context [if ?b then _ else _] => destruct b; simpl
      end;
    intros H; try discriminate H; injection H as <- <- <- <-; auto.
Qed.

(** The loop hands on the sample of its last query. *)
Lemma health_loop_last env dc N T xs : forall s c sample c1 evs,
  for_loop xs (health_check env dc N T) s c = (Ok sample, c1, evs) ->
  (xs = [] /\ c1 = c /\ sample = s) \/
  ((c < c1)%nat /\ sample = sample_of (env_info env (c1 - 1))).
Proof.
  induction xs as [|x xs IH]; intros s c sample c1 evs H.
  - left. injection H as <- <- <-. auto.
  - right. apply for_loop_inv in H.
    destruct H as [(e & _ & E) | [(s' & Hb & E) | (s' & c' & e1 & e2 & Hb & Hl & _)]].
    + discriminate E.
    + injection E as <-. apply health_check_ok in Hb. destruct Hb as [-> ->].
      split; [lia|]. simpl. now rewrite Nat.sub_0_r.
    + apply health_check_ok in Hb. destruct Hb as [-> ->].
      apply IH in Hl. destruct Hl as [(_ & -> & ->) | (Hlt & ->)].
      * split; [lia|]. simpl. now rewrite Nat.sub_0_r.
      * split; [lia | reflexivity].
Qed.



(** ** The whole run *)

Lemma bind_assoc {A B C} (m : M A) (f : A -> M B) (g : B -> M C) c :
  bind (bind m f) g c = bind m (fun a => bind (f a) g) c.
Proof.
  unfold bind. destruct (m c) as [[[a | e] c1] e1]; [|reflexivity].
  destruct (f a c1) as [[[b | e] c2] e2]; [|reflexivity].
  destruct (g b c2) as [[r c3] e3]. now rewrite app_assoc.
Qed.

Lemma bind_ext {A B} (m : M A) (f g : A -> M B) c :
  (forall a c', f a c' = g a c') -> bind m f c = bind m g c.
Proof.
  intros H. unfold bind. destruct (m c) as [[[a | e] c1] e1]; [|reflexivity].
  now rewrite H.
Qed.

(** The script as one chain of steps. *)
Lemma main_steps env N T names filters c :
  main env N T names filters c
  = bind (connect_docker_service env N T) (fun dc =>
    bind (verify_docker_client env dc true) (fun _ =>
    bind (check_daemon_health env dc N T) (fun dc =>
    bind (resolve_containers env dc names filters) (fun d =>
    bind (settle_containers env d N T) (start_containers env))))) c.
Proof.
  unfold main, monitor. rewrite bind_assoc. apply bind_ext. intros dc c1.
  rewrite bind_assoc. apply bind_ext. intros _ c2.
  rewrite bind_assoc. apply bind_ext. intros dc' c3.
  now rewrite bind_assoc.
Qed.

(** What is left of the script once a client is at hand: lines 167-218. *)
Lemma reconcile_no_restart env dc names filters N T :
  silent is_restart
    (bind (resolve_containers env dc names filters) (fun d =>
     bind (settle_containers env d N T) (start_containers env))).
Proof.
  apply silent_bind; [apply resolve_no_restart|]. intros d.
  apply silent_bind; [apply settle_no_restart|]. intros d'.
  apply start_no_restart.
Qed.

Lemma reconcile_no_restart_unit env dc names filters N T :
  silent is_restart_unit
    (bind (resolve_containers env dc names filters) (fun d =>
     bind (settle_containers env d N T) (start_containers env))).
Proof.
  unfold resolve_containers, get_container, list_containers, settle_containers,
    settle_step, settle_iteration, check_status, start_containers, start_container.
  silence.
Qed.

(** [restart_docker] returns exactly when it meets nothing but answers
    that it handles. *)
Lemma restart_docker_handled env c :
  outcome (restart_docker env c) = Ok tt <-> restart_handled env c.
Proof.
  unfold restart_handled, dbus_handled. rewrite restart_docker_run. unfold outcome.
  destruct (env_import_dbus env c) as [[] | e]; simpl;
    [|split; [discriminate | intros [H _]; discriminate H]].
  destruct (env_get_object env (S c)) as [[] | e]; simpl.
  - destruct (env_restart env (S (S c))) as [[] | e]; simpl; [split; auto 6|].
    destruct e; simpl; split; intros H; try discriminate H; try reflexivity;
      try (split; [reflexivity|]; right; split; [reflexivity|]; right; eauto);
      destruct H as [_ [(m0 & H) | (_ & [H | (m0 & H)])]]; discriminate H.
  - destruct e; simpl; split; intros H; try discriminate H; try reflexivity;
      try (split; [reflexivity|]; left; eauto);
      destruct H as [_ [(m0 & H) | (H & _)]]; discriminate H.
Qed.

(** [restart_docker] makes one step at least and three at most, and three
    when the request goes out. *)
Lemma restart_docker_calls env c :
  (S c <= calls (restart_docker env c) <= c + 3)%nat /\
  (restart_sent env c -> calls (restart_docker env c) = (c + 3)%nat).
Proof.
  unfold restart_sent. rewrite restart_docker_run. unfold calls.
  destruct (env_import_dbus env c) as [[] | e]; simpl;
    [|split; [lia | intros [H _]; discriminate H]].
  destruct (env_get_object env (S c)) as [[] | e]; simpl.
  - destruct (env_restart env (S (S c))) as [[] | e]; [|destruct e]; simpl;
      (split; [lia | intros _; lia]).
  - destruct e; simpl; (split; [lia | intros [_ H]; discriminate H]).
Qed.

(** The health loop when every sample has containers and none running. *)
Lemma health_loop_degraded env client n T c :
  0 <= T <= sleep_max -> (1 <= n)%nat ->
  (forall t, (c <= t < c + n)%nat -> sample_degraded env t) ->
  exists total evs,
    0 < total /\
    health_check_loop env (Some client) (Z.of_nat n) T c
      = (Ok (Some total, Some 0), (c + n)%nat, evs) /\
    filter is_info_or_sleep evs = intersperse (Sleep T) (info_queries env c n).
Proof.
  intros HT Hn Hall.
  assert (Hbad : forall t, (c <= t < c + n)%nat -> sample_not_started env t).
  { intros t Ht. destruct (Hall t Ht) as (q & E & Hq).
    exists q, 0. split; [exact E | unfold started; lia]. }
  destruct (retry_exhausted _ n T is_info_or_sleep _ _ _
              (health_turn_bad env n T client HT) n 0%nat (None, None) c)
    as (v & evs & Hl & _ & Hv & Hview); [lia | exact Hbad |].
  destruct n as [|m]; [lia|]. rewrite (Hv m eq_refl) in Hl.
  destruct (Hall (c + m)%nat) as (q & E & Hq); [lia|].
  rewrite E in Hl. exists q, evs. split; [exact Hq|]. split; [|exact Hview].
  unfold health_check_loop. rewrite range_of_nat. exact Hl.
Qed.

Lemma bind_run {A B} (m : M A) (f : A -> M B) c a c1 e1 :
  m c = (Ok a, c1, e1) ->
  bind m f c = let '(r, c2, e2) := f a c1 in (r, c2, e1 ++ e2).
Proof. intros H. unfold bind. now rewrite H. Qed.

(** The restart path once systemd has answered and the script has tried to
    connect again. *)
Lemma restart_path_run env N T c c3 e3 r4 c4 e4 :
  restart_docker env c = (Ok tt, c3, e3) ->
  connect_docker_service env N T c3 = (r4, c4, e4) ->
  restart_path env N T c
  = (match r4 with
     | Ok (Some client) => Ok (Some client)
     | Ok None => Raise (SystemExit None)
     | Raise e => Raise e
     end, c4,
     Log ERROR "Docker failed to start containers" []
       :: e3 ++ e4
       ++ match r4 with
          | Ok None => [Log ERROR "Docker service is not available => exit" []]
          | _ => []
          end).
Proof.
  intros Hr Ha. unfold restart_path.
  rewrite (bind_run _ _ c tt c [Log ERROR "Docker failed to start containers" []] eq_refl).
  rewrite (bind_run _ _ _ _ _ _ Hr).
  unfold bind at 1. rewrite Ha.
  destruct r4 as [[client|] | e]; simpl; rewrite ?app_nil_r; reflexivity.
Qed.

(** The health block when the loop ends on a degraded sample. *)
Lemma check_daemon_health_run env dc N T c total c2 health :
  health_check_loop env dc N T c = (Ok (Some total, Some 0), c2, health) ->
  0 < total ->
  check_daemon_health env dc N T c
  = let '(r, c3, e) := restart_path env N T c2 in (r, c3, health ++ e).
Proof.
  intros Hl Hq. unfold check_daemon_health. rewrite (bind_run _ _ _ _ _ _ Hl).
  assert (E : failed_to_start (Some total, Some 0) c2 = (Ok true, c2, [])).
  { unfold failed_to_start, py_gt0, bind, ret. simpl.
    apply Z.ltb_lt in Hq. now rewrite Hq. }
  rewrite (bind_run _ _ _ _ _ _ E).
  destruct (restart_path env N T c2) as [[r c3] e]. reflexivity.
Qed.

(** Brings nested appends to one right-nested list. *)
Ltac norm_app :=
  repeat first
    [ rewrite app_nil_r | rewrite <- app_assoc | rewrite <- app_comm_cons ].

Lemma restart_docker_handled_run env c :
  restart_handled env c ->
  exists evs, restart_docker env c = (Ok tt, calls (restart_docker env c), evs).
Proof.
  intros H. apply restart_docker_handled in H. unfold outcome, calls in *.
  destruct (restart_docker env c) as [[r c3] evs]. simpl in *. subst r. eauto.
Qed.

(** The script up to the second connection when the daemon is degraded. *)
Lemma main_degraded_run env N T names filters c client c1 e1 total c2 health c3 e3 r4 c4 e4 :
  connect_docker_service env N T c = (Ok (Some client), c1, e1) ->
  health_check_loop env (Some client) N T c1 = (Ok (Some total, Some 0), c2, health) ->
  0 < total ->
  restart_docker env c2 = (Ok tt, c3, e3) ->
  connect_docker_service env N T c3 = (r4, c4, e4) ->
  main env N T names filters c
  = match r4 with
    | Ok (Some client') =>
        let '(r, c5, e5) :=
          bind (resolve_containers env (Some client') names filters) (fun d =>
          bind (settle_containers env d N T) (start_containers env)) c4 in
        (r, c5,
         e1 ++ health ++ Log ERROR "Docker failed to start containers" []
           :: e3 ++ e4 ++ e5)
    | Ok None =>
        (Raise (SystemExit None), c4,
         e1 ++ health ++ Log ERROR "Docker failed to start containers" []
           :: e3 ++ e4 ++ [Log ERROR "Docker service is not available => exit" []])
    | Raise e =>
        (Raise e, c4,
         e1 ++ health ++ Log ERROR "Docker failed to start containers" []
           :: e3 ++ e4)
    end.
Proof.
  intros Hconnect Hloop Hq Hr Ha.
  pose proof (check_daemon_health_run env _ _ _ _ _ _ _ Hloop Hq) as Hcheck.
  rewrite (restart_path_run env _ _ _ _ _ _ _ _ Hr Ha) in Hcheck.
  rewrite main_steps, (bind_run _ _ _ _ _ _ Hconnect).
  rewrite (bind_run _ _ c1 tt c1 [] eq_refl).
  destruct r4 as [[client'|] | ex].
  - rewrite (bind_run _ _ _ _ _ _ Hcheck).
    match goal with
    | |- context [bind ?m ?f c4] => destruct (bind m f c4) as [[r5 c5] e5]
    end.
    simpl. now norm_app.
  - rewrite (bind_raise _ _ _ _ _ _ Hcheck). simpl. now norm_app.
  - rewrite (bind_raise _ _ _ _ _ _ Hcheck). simpl. now norm_app.
Qed.

(** The events of a degraded run, counted around the restart. *)
Lemma count_around_restart p e1 xs zs ys rest :
  p (Log ERROR "Docker failed to start containers" []) = false ->
  filter p e1 = [] -> filter p xs = [] -> filter p ys = [] -> filter p rest = [] ->
  count p (e1 ++ xs ++ Log ERROR "Docker failed to start containers" []
             :: zs ++ ys ++ rest)
  = count p zs.
Proof.
  intros Hlog He Hx Hy Hrest. unfold count.
  rewrite filter_app, He, filter_app, Hx. simpl. rewrite Hlog.
  now rewrite filter_app, filter_app, Hy, Hrest, !app_nil_r.
Qed.



(** The script when the first connection gives no client. *)
Lemma main_unavailable_run env N T names filters c c1 e1 :
  connect_docker_service env N T c = (Ok None, c1, e1) ->
  main env N T names filters c
  = (match outcome (restart_docker env c1) with
     | Ok _ => Raise (SystemExit None)
     | Raise e => Raise e
     end, calls (restart_docker env c1),
     e1 ++ Log ERROR "Docker service is not available => exit and restart service" []
       :: events (restart_docker env c1)).
Proof.
  intros Hconnect. rewrite main_steps, (bind_run _ _ _ _ _ _ Hconnect).
  unfold bind at 1. unfold verify_docker_client.
  rewrite (bind_run _ _ c1 tt c1
             [Log ERROR "Docker service is not available => exit and restart service" []]
             eq_refl).
  unfold bind, outcome, events, calls in *.
  destruct (restart_docker env c1) as [[[[] | e] rc] e3]; simpl in *;
    rewrite ?app_nil_r; reflexivity.
Qed.

(** C10.  When the first run of [connect_docker_service] gives no client,
    the script logs the failure, runs [restart_docker] once and ends at
    once: no call to the daemon follows, in particular no [from_env] and no
    version query, so the restart is not followed by a reconnection here
    as it is on the degraded path.  At most one restart request goes out,
    and exactly one when the bus gives the manager's object. *)
Theorem initial_failure_restarts_and_exits env (N T : Z) names filters c c1 e1 :
  connect_docker_service env N T c = (Ok None, c1, e1) ->
  let run := main env N T names filters c in
  events run
    = e1 ++ Log ERROR "Docker service is not available => exit and restart service" []
        :: events (restart_docker env c1) /\
  calls run = calls (restart_docker env c1) /\
  (S c1 <= calls run <= c1 + 3)%nat /\
  (exists e, outcome run = Raise e) /\
  (restart_handled env c1 -> outcome run = Raise (SystemExit None)) /\
  count is_restart (events run) = 1%nat /\
  (count is_restart_unit (events run) <= 1)%nat /\
  (restart_sent env c1 <->
   count is_restart_unit (events run) = 1%nat) /\
  (restart_sent env c1 -> calls run = (c1 + 3)%nat) /\
  filter is_connect (events run) = filter is_connect e1.
Proof.
  intros Hconnect run. subst run.
  rewrite (main_unavailable_run env N T names filters c c1 e1 Hconnect).
  pose proof (connect_no_restart env N T c) as He1.
  pose proof (connect_no_restart_unit env N T c) as He1'.
  rewrite Hconnect in He1, He1'.
  pose proof (restart_docker_once env c1) as Hr1.
  destruct (restart_docker_requests env c1) as (Hq1 & Hq2 & Hq3).
  destruct (restart_docker_calls env c1) as (Hc1 & Hc2).
  pose proof (proj2 (restart_docker_handled env c1)) as Hrh.
  assert (Hrc : silent is_connect (restart_docker env)).
  { unfold restart_docker. silence. }
  specialize (Hrc c1).
  destruct (restart_docker env c1) as [[r rc] e3].
  unfold outcome, calls, events in *. simpl in *.
  assert (Hu : count is_restart_unit
                 (e1 ++ Log ERROR
                          "Docker service is not available => exit and restart service" []
                    :: e3) = count is_restart_unit e3).
  { unfold count. rewrite filter_app, He1'. reflexivity. }
  rewrite Hu.
  split; [reflexivity|]. split; [reflexivity|]. split; [exact Hc1|].
  split; [destruct r; eauto|].
  split; [intros H; now rewrite (Hrh H)|].
  split; [unfold count in *; rewrite filter_app, He1; exact Hr1|].
  split; [exact Hq1|]. split; [split; assumption|]. split; [exact Hc2|].
  rewrite filter_app. simpl. now rewrite Hrc, app_nil_r.
Qed.

(** The theorem at work on a daemon that never answers. *)
Lemma initial_failure_restarts_and_exits_witness :
  outcome (main daemon_down 3 30 ["web"] [] 0%nat) = Raise (SystemExit None) /\
  calls (main daemon_down 3 30 ["web"] [] 0%nat) = 6%nat /\
  count is_restart (events (main daemon_down 3 30 ["web"] [] 0%nat)) = 1%nat /\
  count is_version (events (main daemon_down 3 30 ["web"] [] 0%nat)) = 3%nat.
Proof.
  destruct (initial_failure_restarts_and_exits daemon_down 3 30 ["web"] [] 0%nat 3%nat
              (events (connect_docker_service daemon_down 3 30 0%nat)) eq_refl)
    as (_ & _ & _ & _ & Hc & Hd & _ & _ & Hb & _).
  split; [|split; [|split; [exact Hd | reflexivity]]].
  - apply Hc. split; [reflexivity|]. right. split; [reflexivity|].
    right. exists "Unit docker.service not found". reflexivity.
  - apply Hb. split; reflexivity.
Defined.

(** ** Dictionaries *)

Lemma dict_set_keys_in d k v : In k (keys d) -> keys (dict_set d k v) = keys d.
Proof.
  induction d as [|[k' v'] d IH]; simpl; [tauto|].
  intros H. destruct (String.eqb k' k) eqn:E; [reflexivity|].
  simpl. f_equal. apply IH. destruct H as [H | H]; [|exact H].
  apply String.eqb_neq in E. contradiction.
Qed.

Lemma dict_set_keys_notin d k v : ~ In k (keys d) -> keys (dict_set d k v) = keys d ++ [k].
Proof.
  induction d as [|[k' v'] d IH]; simpl; [reflexivity|].
  intros H. destruct (String.eqb k' k) eqn:E.
  - apply String.eqb_eq in E. tauto.
  - simpl. f_equal. apply IH. tauto.
Qed.

Lemma dict_set_keys d k v :
  keys (dict_set d k v) = keys d \/
  (~ In k (keys d) /\ keys (dict_set d k v) = keys d ++ [k]).
Proof.
  destruct (in_dec string_dec k (keys d)) as [H | H].
  - left. now apply dict_set_keys_in.
  - right. split; [exact H | now apply dict_set_keys_notin].
Qed.

Lemma dict_set_NoDup d k v : NoDup (keys d) -> NoDup (keys (dict_set d k v)).
Proof.
  intros H. destruct (dict_set_keys d k v) as [-> | [Hk ->]]; [exact H|].
  apply NoDup_app; [exact H | repeat constructor; simpl; tauto |].
  intros x Hx [<- | []]. contradiction.
Qed.

Lemma dict_set_has_key d k v : In k (keys (dict_set d k v)).
Proof.
  induction d as [|[k' v'] d IH]; simpl; [auto|].
  destruct (String.eqb k' k) eqn:E; simpl; [|auto].
  apply String.eqb_eq in E. auto.
Qed.

Lemma dict_set_keeps_keys d k v k0 : In k0 (keys d) -> In k0 (keys (dict_set d k v)).
Proof.
  intros H. destruct (dict_set_keys d k v) as [-> | [_ ->]]; [exact H|].
  apply in_or_app. auto.
Qed.

(** An entry after a store is the stored one or was there before. *)
Lemma dict_set_entries d k v kv :
  In kv (dict_set d k v) -> kv = (k, v) \/ In kv d.
Proof.
  induction d as [|[k' v'] d IH]; simpl.
  - intros [<- | []]. auto.
  - destruct (String.eqb k' k) eqn:E; simpl.
    + apply String.eqb_eq in E. subst k'. intros [<- | H]; auto.
    + intros [<- | H]; [auto|]. destruct (IH H); auto.
Qed.

Lemma dict_set_entries_named d v :
  entries_named d -> entries_named (dict_set d (cname v) (Some v)).
Proof.
  unfold entries_named. rewrite !Forall_forall. intros H kv Hkv.
  apply dict_set_entries in Hkv. destruct Hkv as [-> | Hkv]; eauto.
Qed.

Lemma all_some_remove_none d : all_some d -> dict_remove_none d = d.
Proof.
  unfold all_some, dict_remove_none.
  induction 1 as [|kv d Hkv _ IH]; simpl; [reflexivity|]. now rewrite Hkv, IH.
Qed.

Lemma entries_named_all_some d : entries_named d -> all_some d.
Proof.
  unfold entries_named, all_some. apply Forall_impl. intros kv (v & ->). reflexivity.
Qed.

Lemma keys_filter_incl (f : string * option container -> bool) d :
  incl (keys (filter f d)) (keys d).
Proof.
  intros k H. unfold keys in *. apply in_map_iff in H.
  destruct H as (kv & <- & H). apply filter_In in H. apply in_map. tauto.
Qed.

Lemma keys_filter_NoDup (f : string * option container -> bool) d :
  NoDup (keys d) -> NoDup (keys (filter f d)).
Proof.
  induction d as [|kv d IH]; simpl; [auto|].
  intros H. inversion H as [|k ks Hk Hks]; subst.
  destruct (f kv); simpl; [|auto]. constructor; [|auto].
  intros Hin. apply Hk. now apply (keys_filter_incl f d).
Qed.

Lemma filter_other_keys d k :
  ~ In k (keys d) ->
  filter (fun kv : string * option container => negb (String.eqb (fst kv) k)) d = d.
Proof.
  induction d as [|[k' v'] d IH]; simpl; [reflexivity|].
  intros H. destruct (String.eqb k' k) eqn:E.
  - apply String.eqb_eq in E. tauto.
  - simpl. f_equal. apply IH. tauto.
Qed.

(** Storing [None] under a key and cleaning up drops that key and no other. *)
Lemma remove_none_set_none d k :
  NoDup (keys d) ->
  dict_remove_none (dict_set d k None)
  = filter (fun kv => negb (String.eqb (fst kv) k)) (dict_remove_none d).
Proof.
  unfold dict_remove_none.
  induction d as [|[k' v'] d IH]; simpl; [reflexivity|].
  intros H. inversion H as [|x xs Hk Hd]; subst.
  destruct (String.eqb k' k) eqn:E; simpl.
  - apply String.eqb_eq in E. subst k'.
    assert (Hrest : filter (fun kv : string * option container =>
                              negb (String.eqb (fst kv) k))
                      (filter (fun kv => is_some (snd kv)) d)
                    = filter (fun kv => is_some (snd kv)) d).
    { apply filter_other_keys. intros Hin. apply Hk.
      revert Hin. apply keys_filter_incl. }
    destruct v'; simpl; [rewrite String.eqb_refl; simpl|]; now rewrite Hrest.
  - destruct v'; simpl; [rewrite E; simpl; f_equal|]; now apply IH.
Qed.

(** Blanking keys and cleaning up drops just these keys. *)
Lemma remove_none_blank ks : forall d,
  NoDup (keys d) ->
  dict_remove_none (blank ks d)
  = filter (fun kv => negb (mem_key (fst kv) ks)) (dict_remove_none d).
Proof.
  induction ks as [|k ks IH]; intros d H; simpl.
  - generalize (dict_remove_none d). intros xs.
    induction xs as [|x xs IHxs]; simpl; [reflexivity | now rewrite <- IHxs at 1].
  - rewrite IH by now apply dict_set_NoDup.
    rewrite remove_none_set_none by exact H.
    generalize (dict_remove_none d). intros xs.
    induction xs as [|[k' v'] xs IHxs]; simpl; [reflexivity|].
    simpl in IHxs.
    destruct (String.eqb k' k); simpl; [exact IHxs|].
    destruct (mem_key k' ks); simpl; [exact IHxs | now rewrite IHxs].
Qed.

(** ** One pass over the monitored containers *)

Lemma is_running_iff r : is_running r = true <-> r = Ok "running".
Proof.
  destruct r as [s | e]; simpl.
  - rewrite String.eqb_eq. split; [intros -> | intros [= ->]]; reflexivity.
  - split; discriminate.
Qed.

Lemma mem_key_iff k ks : mem_key k ks = true <-> In k ks.
Proof.
  unfold mem_key. rewrite existsb_exists. split.
  - intros (x & Hx & E). apply String.eqb_eq in E. now subst.
  - intros H. exists k. split; [exact H | apply String.eqb_refl].
Qed.

Lemma reloads_member env d : forall c v r,
  In (Reload v r) (reloads env c d) -> exists k, In (k, Some v) d.
Proof.
  induction d as [|[k [v0|]] d IH]; simpl; intros c v r H.
  - contradiction.
  - destruct H as [[= -> _] | H]; [eauto|]. destruct (IH _ _ _ H); eauto.
  - destruct (IH _ _ _ H); eauto.
Qed.

(** A key counted as running belongs to an entry whose reload answered
    [running]. *)
Lemma running_key_observed env d : forall c k,
  In k (running_keys env c d) ->
  exists v, In (k, Some v) d /\ In (Reload v (Ok "running")) (reloads env c d).
Proof.
  induction d as [|[k0 [v0|]] d IH]; simpl; intros c k H.
  - contradiction.
  - destruct (is_running (env_reload env c v0)) eqn:E.
    + destruct H as [<- | H].
      * apply is_running_iff in E. rewrite E. eauto.
      * destruct (IH _ _ H) as (v & H1 & H2). eauto.
    + destruct (IH _ _ H) as (v & H1 & H2). eauto.
  - destruct (IH _ _ H) as (v & H1 & H2). eauto.
Qed.

(** In a well-formed dictionary the converse holds as well. *)
Lemma observed_running_key env d : forall c k v,
  well_formed d ->
  In (k, Some v) d ->
  In (Reload v (Ok "running")) (reloads env c d) ->
  In k (running_keys env c d).
Proof.
  induction d as [|[k0 [v0|]] d IH]; simpl; intros c k v [Hnd Hnamed] Hin Hev.
  - contradiction.
  - inversion Hnd as [|x xs Hk0 Hd]; subst.
    inversion Hnamed as [|x xs (v1 & E1) Hrest]; subst. injection E1 as -> ->.
    assert (Hwf : well_formed d) by (split; assumption).
    assert (Hname : k = cname v).
    { destruct Hin as [[= <- <-] | Hin]; [reflexivity|].
      unfold entries_named in Hrest. rewrite Forall_forall in Hrest.
      destruct (Hrest _ Hin) as (v2 & [= -> ->]). reflexivity. }
    destruct Hev as [[= -> E] | Hev].
    + subst k. rewrite E. simpl. auto.
    + assert (Htail : In (k, Some v) d).
      { destruct Hin as [[= <- <-] | Hin]; [|exact Hin].
        exfalso. apply Hk0. destruct (reloads_member _ _ _ _ _ Hev) as (k' & Hk').
        unfold entries_named in Hrest. rewrite Forall_forall in Hrest.
        destruct (Hrest _ Hk') as (v2 & [= -> ->]).
        apply (in_map fst) in Hk'. exact Hk'. }
      specialize (IH (S c) k v Hwf Htail Hev).
      destruct (is_running (env_reload env c v1)); simpl; auto.
  - inversion Hnamed as [|x xs (v1 & E1) Hrest]; subst. discriminate E1.
Qed.

Lemma check_status_ok env kv acc c k acc' c' evs :
  check_status env kv acc c = (Ok (k, acc'), c', evs) ->
  exists v,
    snd kv = Some v /\ k = Continue /\ c' = S c /\
    evs = [Reload v (env_reload env c v)] /\
    acc' = (if is_running (env_reload env c v)
            then dict_set acc (fst kv) None else acc).
Proof.
  unfold check_status, call, bind, ret, raise.
  destruct (snd kv) as [v|]; [|discriminate].
  intros H. exists v. revert H. unfold is_running.
  destruct (env_reload env c v) as [s | e]; [|discriminate].
  simpl. destruct (String.eqb s "running"); intros [= <- <- <- <-];
    repeat split.
Qed.

Lemma check_status_loop env xs : forall acc c acc' c' evs,
  for_loop xs (check_status env) acc c = (Ok acc', c', evs) ->
  all_some xs /\
  acc' = blank (running_keys env c xs) acc /\
  c' = (c + List.length xs)%nat /\
  evs = reloads env c xs.
Proof.
  induction xs as [|[k0 v0] xs IH]; intros acc c acc' c' evs H.
  - injection H as <- <- <-. rewrite Nat.add_0_r. repeat split. constructor.
  - apply for_loop_inv in H.
    destruct H as [(e & _ & E) | [(s' & Hb & _) | (s' & c1 & e1 & e2 & Hb & Hl & ->)]].
    + discriminate E.
    + apply check_status_ok in Hb. destruct Hb as (v & _ & E & _). discriminate E.
    + apply check_status_ok in Hb. simpl in Hb.
      destruct Hb as (v & -> & _ & -> & -> & ->).
      apply IH in Hl. destruct Hl as (Hsome & -> & -> & ->).
      repeat split.
      * constructor; [reflexivity | exact Hsome].
      * simpl. destruct (is_running (env_reload env c v)); reflexivity.
      * simpl. lia.
Qed.

(** One pass reloads every entry and keeps the ones not seen running. *)
Lemma settle_iteration_run env d c d' c' evs :
  NoDup (keys d) ->
  settle_iteration env d c = (Ok d', c', evs) ->
  all_some d /\
  d' = filter (fun kv => negb (mem_key (fst kv) (running_keys env c d))) d /\
  c' = (c + List.length d)%nat /\
  evs = reloads env c d.
Proof.
  intros Hnd H. unfold settle_iteration in H. apply bind_inv in H.
  destruct H as [(e & _ & E) | (acc & c1 & e1 & e2 & Hl & Hr & ->)]; [discriminate E|].
  injection Hr as <- <- <-. apply check_status_loop in Hl.
  destruct Hl as (Hsome & -> & -> & ->). rewrite app_nil_r.
  repeat split; [exact Hsome|].
  rewrite remove_none_blank by exact Hnd. now rewrite all_some_remove_none.
Qed.

Lemma entries_named_filter (f : string * option container -> bool) d :
  entries_named d -> entries_named (filter f d).
Proof.
  unfold entries_named. rewrite !Forall_forall. intros H kv Hkv.
  apply filter_In in Hkv. apply H. tauto.
Qed.

(** ** The waiting loop *)

Lemma shrinks_quiet d tail :
  NoDup (keys d) -> filter is_reload tail = [] -> shrinks d tail d.
Proof.
  intros Hnd Htail. unfold shrinks. repeat split; auto.
  - intros k H1 H2. contradiction.
  - intros _ v Hv. exfalso.
    assert (H : In (Reload v (Ok "running")) (filter is_reload tail))
      by (apply filter_In; auto).
    now rewrite Htail in H.
Qed.

Lemma shrinks_trans d e1 d1 e2 d2 :
  shrinks d e1 d1 -> shrinks d1 e2 d2 -> shrinks d (e1 ++ e2) d2.
Proof.
  intros (A1 & A2 & A3 & A4 & A5) (B1 & B2 & B3 & B4 & B5).
  unfold shrinks. repeat split; auto.
  - intros k Hk Hk2. destruct (in_dec string_dec k (keys d1)) as [Hk1 | Hk1].
    + destruct (B4 k Hk1 Hk2) as (v & Hv & He). exists v.
      split; [auto | apply in_or_app; auto].
    + destruct (A4 k Hk Hk1) as (v & Hv & He). exists v.
      split; [auto | apply in_or_app; auto].
  - intros Hnamed v Hv k Hin. apply in_app_or in Hv. destruct Hv as [Hv | Hv].
    + apply (A5 Hnamed v Hv k). auto.
    + apply (B5 (A3 Hnamed) v Hv k). exact Hin.
Qed.

Lemma settle_iteration_shrinks env d c d' c' evs :
  NoDup (keys d) ->
  settle_iteration env d c = (Ok d', c', evs) ->
  shrinks d evs d'.
Proof.
  intros Hnd H. destruct (settle_iteration_run env d c d' c' evs Hnd H)
    as (Hsome & -> & -> & ->).
  unfold shrinks. repeat split.
  - intros kv Hkv. apply filter_In in Hkv. tauto.
  - now apply keys_filter_NoDup.
  - apply entries_named_filter.
  - intros k Hk Hk'. apply running_key_observed.
    apply mem_key_iff. destruct (mem_key k (running_keys env c d)) eqn:E; [reflexivity|].
    exfalso. apply Hk'. unfold keys in *. apply in_map_iff in Hk.
    destruct Hk as (kv & <- & Hkv). apply in_map. apply filter_In.
    split; [exact Hkv | now rewrite E].
  - intros Hnamed v Hv k Hin. apply filter_In in Hin. destruct Hin as [Hin Hk].
    simpl in Hk. apply negb_true_iff in Hk.
    assert (In k (running_keys env c d)).
    { apply observed_running_key with (v := v); [split|..]; assumption. }
    apply mem_key_iff in H0. congruence.
Qed.

(** A turn of the waiting loop is one pass and then only logging and
    sleeping; it breaks the loop exactly when nothing is left. *)
Lemma settle_step_ok env N T i d c k d' c' evs :
  settle_step env N T i d c = (Ok (k, d'), c', evs) ->
  exists pass tail,
    settle_iteration env d c = (Ok d', c', pass) /\
    evs = pass ++ tail /\
    filter is_reload tail = [] /\
    (d' = [] -> k = Break /\ tail = []) /\
    (k = Break -> d' = []).
Proof.
  unfold settle_step. intros H. apply bind_inv in H.
  destruct H as [(e & _ & E) | (d1 & c1 & e1 & e2 & Hit & Hk & ->)]; [discriminate E|].
  exists e1, e2. revert Hk. unfold bind, log, emit, sleep, ret, raise.
  destruct d1 as [|kv d1]; simpl.
  - intros [= <- <- <- <-]. repeat split; auto.
  - destruct (i + 1 <? N); simpl; [destruct (T <? 0); simpl; [|destruct (T <=? sleep_max); simpl]|];
      intros [= <- <- <- <-]; repeat split; auto; discriminate.
Qed.

(** Whatever the number of turns, the waiting loop only shrinks the
    dictionary. *)
Lemma settle_loop_shrinks env N T turns : forall d c d' c' evs,
  NoDup (keys d) ->
  for_loop turns (settle_step env N T) d c = (Ok d', c', evs) ->
  shrinks d evs d'.
Proof.
  induction turns as [|i turns IH]; intros d c d' c' evs Hnd H.
  - injection H as <- <- <-. now apply shrinks_quiet.
  - apply for_loop_inv in H.
    destruct H as [(e & _ & E) | [(s' & Hb & E) | (d1 & c1 & e1 & e2 & Hb & Hl & ->)]].
    + discriminate E.
    + injection E as <-. apply settle_step_ok in Hb.
      destruct Hb as (pass & tail & Hit & -> & Htail & _).
      apply shrinks_trans with (d1 := d').
      * eapply settle_iteration_shrinks; eassumption.
      * apply shrinks_quiet; [|exact Htail].
        eapply settle_iteration_shrinks; eassumption.
    + apply settle_step_ok in Hb.
      destruct Hb as (pass & tail & Hit & -> & Htail & _).
      pose proof (settle_iteration_shrinks env d c d1 c1 pass Hnd Hit) as Hs.
      assert (Hnd1 : NoDup (keys d1)) by apply Hs.
      apply shrinks_trans with (d1 := d1).
      * apply shrinks_trans with (d1 := d1); [exact Hs | now apply shrinks_quiet].
      * eapply IH; eassumption.
Qed.

Lemma settle_containers_shrinks env d N T c d' c' evs :
  NoDup (keys d) ->
  settle_containers env d N T c = (Ok d', c', evs) ->
  shrinks d evs d'.
Proof. unfold settle_containers. apply settle_loop_shrinks. Qed.

(** Every [start] of the start loop goes to a container of the dictionary. *)
Lemma start_events_member env d : forall c v r,
  In (Start v r) (events (start_containers env d c)) -> exists k, In (k, Some v) d.
Proof.
  unfold start_containers.
  induction d as [|[k0 v0] d IH]; intros c v r H; [contradiction|].
  assert (Hbody : forall res c1 e1,
            start_container env (k0, v0) tt c = (res, c1, e1) ->
            In (Start v r) e1 -> v0 = Some v).
  { unfold start_container, try_except, call, bind, log, emit, ret, raise. simpl.
    intros res c1 e1. destruct v0 as [v0|]; simpl.
    - destruct (env_start env c v0) as [[] | e]; simpl;
        [|destruct e; simpl]; intros [= <- <- <-] Hin; simpl in Hin;
        repeat (destruct Hin as [Hin | Hin]; try discriminate Hin; try contradiction);
        injection Hin as -> _; reflexivity.
    - intros [= <- <- <-] Hin. simpl in Hin.
      repeat (destruct Hin as [Hin | Hin]; try discriminate Hin; try contradiction). }
  destruct (for_loop ((k0, v0) :: d) (start_container env) tt c)
    as [[res c'] evs] eqn:Hrun.
  unfold events in H. simpl in H. apply for_loop_inv in Hrun.
  destruct Hrun as [(e & Hb & _) | [(s' & Hb & _) | (s' & c1 & e1 & e2 & Hb & Hl & ->)]].
  - exists k0. left. f_equal. eapply Hbody; eassumption.
  - exists k0. left. f_equal. eapply Hbody; eassumption.
  - apply in_app_or in H. destruct H as [H | H].
    + exists k0. left. f_equal. eapply Hbody; eassumption.
    + destruct s'. specialize (IH c1 v r). rewrite Hl in IH.
      destruct (IH H) as (k & Hk). exists k. now right.
Qed.

Lemma keys_functional (d : dict) k v1 v2 :
  NoDup (keys d) -> In (k, v1) d -> In (k, v2) d -> v1 = v2.
Proof.
  induction d as [|[k0 v0] d IH]; simpl; [tauto|].
  intros H. inversion H as [|x xs Hk Hd]; subst.
  intros [[= -> ->] | H1] [[= E] | H2]; auto.
  - exfalso. apply Hk. apply (in_map fst) in H2. exact H2.
  - subst. exfalso. apply Hk. apply (in_map fst) in H1. exact H1.
Qed.

Lemma reloads_cover env d : forall c k v,
  In (k, Some v) d -> exists r, In (Reload v r) (reloads env c d).
Proof.
  induction d as [|[k0 [v0|]] d IH]; simpl; intros c k v H.
  - contradiction.
  - destruct H as [[= -> ->] | H]; [eauto|]. destruct (IH (S c) _ _ H); eauto.
  - destruct H as [[=] | H]. destruct (IH c _ _ H); eauto.
Qed.

(** C7.  After resolution the dictionary of monitored containers only
    shrinks: cleaning it up adds no key; after a pass of the waiting loop,
    and after the whole loop, every entry is an entry that was there
    before, so the keys are among the keys before, and a key that is gone
    belongs to a container that was seen running; and the start loop sends
    its commands to containers of the dictionary it is given. *)
Theorem target_set_never_grows env (N T : Z) :
  (forall d, incl (keys (dict_remove_none d)) (keys d)) /\
  (forall d c d' c' evs,
     NoDup (keys d) ->
     settle_iteration env d c = (Ok d', c', evs) ->
     incl (keys d') (keys d) /\
     (forall kv, In kv d' -> In kv d) /\
     (forall k, In k (keys d) -> ~ In k (keys d') ->
        exists v, In (k, Some v) d /\ In (Reload v (Ok "running")) evs)) /\
  (forall d c d' c' evs,
     NoDup (keys d) ->
     settle_containers env d N T c = (Ok d', c', evs) ->
     incl (keys d') (keys d) /\
     (forall kv, In kv d' -> In kv d) /\
     (forall k, In k (keys d) -> ~ In k (keys d') ->
        exists v, In (k, Some v) d /\ In (Reload v (Ok "running")) evs)) /\
  (forall d c v r,
     In (Start v r) (events (start_containers env d c)) ->
     exists k, In (k, Some v) d).
Proof.
  assert (Hincl : forall d d' : dict,
            (forall kv, In kv d' -> In kv d) -> incl (keys d') (keys d)).
  { intros d d' H k Hk. unfold keys in *. apply in_map_iff in Hk.
    destruct Hk as (kv & <- & Hkv). apply in_map. auto. }
  split; [|split; [|split]].
  - intros d. apply keys_filter_incl.
  - intros d c d' c' evs Hnd H.
    pose proof (settle_iteration_shrinks env d c d' c' evs Hnd H)
      as (S1 & _ & _ & S4 & _). auto.
  - intros d c d' c' evs Hnd H.
    pose proof (settle_containers_shrinks env d N T c d' c' evs Hnd H)
      as (S1 & _ & _ & S4 & _). auto.
  - apply start_events_member.
Qed.

(** The theorem at work on the same three passes. *)
Lemma target_set_never_grows_witness :
  incl (keys [("web", Some web)]) (keys [("web", Some web); ("db", Some db)]) /\
  exists v,
    In ("db", Some v) [("web", Some web); ("db", Some db)] /\
    In (Reload v (Ok "running"))
      (events (settle_containers two_containers
                 [("web", Some web); ("db", Some db)] 3 30 4%nat)).
Proof.
  destruct (target_set_never_grows two_containers 3 30) as (_ & _ & H & _).
  destruct (H [("web", Some web); ("db", Some db)] 4%nat [("web", Some web)] 9%nat
              (events (settle_containers two_containers
                         [("web", Some web); ("db", Some db)] 3 30 4%nat)))
    as (Ha & _ & Hb).
  - repeat constructor; simpl; intuition discriminate.
  - reflexivity.
  - split; [exact Ha|]. apply Hb.
    + simpl. auto.
    + simpl. intros [E | []]. discriminate E.
Defined.

(** ** Resolution *)

(** A property of the loop variables and of the events so far that every
    turn keeps holds when the loop ends. *)
Lemma for_loop_invariant {A S} (body : A -> S -> M (ctl * S))
    (I : S -> list event -> Prop) xs :
  (forall x s c k s' c' e1 evs,
     In x xs -> I s evs -> body x s c = (Ok (k, s'), c', e1) -> I s' (evs ++ e1)) ->
  forall s c s' c' evs0 evs,
    I s evs0 ->
    for_loop xs body s c = (Ok s', c', evs) ->
    I s' (evs0 ++ evs).
Proof.
  induction xs as [|x xs IH]; intros Hstep s c s' c' evs0 evs HI H.
  - injection H as <- <- <-. now rewrite app_nil_r.
  - apply for_loop_inv in H.
    destruct H as [(e & _ & E) | [(s1 & Hb & E) | (s1 & c1 & e1 & e2 & Hb & Hl & ->)]].
    + discriminate E.
    + injection E as <-. eapply Hstep; [left; reflexivity | exact HI | exact Hb].
    + rewrite app_assoc. eapply IH; [| |exact Hl].
      * intros x0 s0 c0 k0 s0' c0' e0 evs1 Hin. apply Hstep. now right.
      * eapply Hstep; [left; reflexivity | exact HI | exact Hb].
Qed.

Lemma covers_app d d' evs e1 :
  covers d evs ->
  (forall k, In k (keys d) -> In k (keys d')) ->
  covers d' e1 ->
  covers d' (evs ++ e1).
Proof.
  intros [C1 C2] Hkeys [D1 D2]. split.
  - intros name v H. apply in_app_or in H. destruct H as [H | H]; eauto.
  - intros name vs v H Hv. apply in_app_or in H. destruct H as [H | H]; eauto.
Qed.

Lemma failures_logged_app evs e1 :
  failures_logged evs -> failures_logged e1 -> failures_logged (evs ++ e1).
Proof.
  intros [C1 C2] [D1 D2]. split; intros name e H; apply in_app_or in H;
    (destruct H as [H | H];
     [destruct (C1 _ _ H) as (l & f & a & Hl) || destruct (C2 _ _ H) as (l & f & a & Hl)
     |destruct (D1 _ _ H) as (l & f & a & Hl) || destruct (D2 _ _ H) as (l & f & a & Hl)]);
    exists l, f, a; apply in_or_app; auto.
Qed.

(** What a turn of the loop over the exact names does. *)
Lemma get_container_ok env dc i d c k d' c' evs :
  get_container env dc i d c = (Ok (k, d'), c', evs) ->
  k = Continue /\ c' = S c /\
  filter is_lookup evs = [Get i (env_get env c i)] /\
  failures_logged evs /\
  ((exists v, env_get env c i = Ok v /\ d' = dict_set d (cname v) (Some v) /\
              evs = [Get i (Ok v)]) \/
   (d' = d /\ exists e, env_get env c i = Raise e /\ forall d0, covers d0 evs)).
Proof.
  unfold get_container, try_except, with_client, call, bind, log, emit, ret, raise.
  destruct dc; [|discriminate].
  destruct (env_get env c i) as [v | e] eqn:E; simpl.
  - intros [= <- <- <- <-]. repeat split; try (intros ? ? [[=] | []]).
    left. exists v. auto.
  - destruct e; simpl; try discriminate; intros [= <- <- <- <-];
      (repeat split;
       [ intros name e [[= <- <-] | H];
         [ do 3 eexists; right; left; reflexivity
         | repeat (destruct H as [H | H]; try discriminate H); contradiction ]
       | intros name e H;
         repeat (destruct H as [H | H]; try discriminate H); contradiction
       | right; split; [reflexivity|]; eexists; split; [reflexivity|];
         intros dd; split; [intros name v H | intros name vs v H];
         repeat (destruct H as [H | H]; try discriminate H); contradiction ]).
Qed.

Lemma add_containers_keys vs : forall d k,
  In k (keys d) -> In k (keys (add_containers vs d)).
Proof.
  unfold add_containers.
  induction vs as [|v vs IH]; intros d k H; simpl; [exact H|].
  apply IH. now apply dict_set_keeps_keys.
Qed.

Lemma add_containers_covers vs : forall d v,
  In v vs -> In (cname v) (keys (add_containers vs d)).
Proof.
  unfold add_containers.
  induction vs as [|v0 vs IH]; intros d v H; simpl; [contradiction|].
  destruct H as [-> | H]; [|now apply IH].
  apply (add_containers_keys vs). apply dict_set_has_key.
Qed.

Lemma add_containers_well_formed vs : forall d,
  well_formed d -> well_formed (add_containers vs d).
Proof.
  unfold add_containers.
  induction vs as [|v vs IH]; intros d H; simpl; [exact H|].
  apply IH. destruct H as [H1 H2].
  split; [now apply dict_set_NoDup | now apply dict_set_entries_named].
Qed.

(** What a turn of the loop over the name filters does. *)
Lemma list_containers_ok env dc i d c k d' c' evs :
  list_containers env dc i d c = (Ok (k, d'), c', evs) ->
  k = Continue /\ c' = S c /\
  filter is_lookup evs = [ListContainers i (env_list env c i)] /\
  failures_logged evs /\
  ((exists vs, env_list env c i = Ok vs /\ d' = add_containers vs d /\
               (forall name ws, In (ListContainers name (Ok ws)) evs -> ws = vs) /\
               (forall name v, ~ In (Get name (Ok v)) evs)) \/
   (d' = d /\ exists e, env_list env c i = Raise e /\ forall d0, covers d0 evs)).
Proof.
  unfold list_containers, try_except, with_client, call, bind, log, emit, ret, raise.
  destruct dc; [|discriminate].
  destruct (env_list env c i) as [vs | e] eqn:E; simpl.
  - destruct (List.length vs =? 0)%nat; simpl; intros [= <- <- <- <-];
      (repeat split;
       [ intros name e H;
         repeat (destruct H as [H | H]; try discriminate H); contradiction
       | intros name e H;
         repeat (destruct H as [H | H]; try discriminate H); contradiction
       | left; exists vs; repeat split; intros name ws H;
         repeat (destruct H as [H | H]; try discriminate H); try contradiction;
         now injection H as _ -> ]).
  - destruct e; simpl; try discriminate; intros [= <- <- <- <-];
      (repeat split;
       [ intros name e H;
         repeat (destruct H as [H | H]; try discriminate H); contradiction
       | intros name e [[= <- <-] | H];
         [ do 3 eexists; right; left; reflexivity
         | repeat (destruct H as [H | H]; try discriminate H); contradiction ]
       | right; split; [reflexivity|]; eexists; split; [reflexivity|];
         intros dd; split; [intros name v H | intros name vs v H];
         repeat (destruct H as [H | H]; try discriminate H); contradiction ]).
Qed.

Lemma get_container_step env dc i d c k d' c' e1 evs :
  resolved d evs ->
  get_container env dc i d c = (Ok (k, d'), c', e1) ->
  resolved d' (evs ++ e1).
Proof.
  intros (Hwf & Hcov & Hlog) H. apply get_container_ok in H.
  destruct H as (_ & _ & _ & Hlog1 & [(v & E & -> & ->) | (-> & e & E & Hno)]).
  - split; [|split].
    + destruct Hwf. split; [now apply dict_set_NoDup | now apply dict_set_entries_named].
    + apply covers_app with (d := d); [exact Hcov | intros k0; apply dict_set_keeps_keys |].
      split.
      * intros name v0 [[= _ <-] | []]. apply dict_set_has_key.
      * intros name vs v0 [[=] | []].
    + now apply failures_logged_app.
  - split; [exact Hwf | split; [|now apply failures_logged_app]].
    apply covers_app with (d := d); auto.
Qed.

Lemma list_containers_step env dc i d c k d' c' e1 evs :
  resolved d evs ->
  list_containers env dc i d c = (Ok (k, d'), c', e1) ->
  resolved d' (evs ++ e1).
Proof.
  intros (Hwf & Hcov & Hlog) H. apply list_containers_ok in H.
  destruct H as (_ & _ & _ & Hlog1 &
                 [(vs & E & -> & Hvs & Hnoget) | (-> & e & E & Hno)]).
  - split; [|split].
    + now apply add_containers_well_formed.
    + apply covers_app with (d := d); [exact Hcov | apply add_containers_keys |].
      split.
      * intros name v0 H. now apply Hnoget in H.
      * intros name ws v0 H Hv0. apply Hvs in H. subst ws.
        now apply add_containers_covers.
    + now apply failures_logged_app.
  - split; [exact Hwf | split; [|now apply failures_logged_app]].
    apply covers_app with (d := d); auto.
Qed.

(** When the resolution ends, its dictionary is well formed, holds every
    container a lookup returned, and every failed lookup is in the log. *)
Lemma resolve_containers_resolved env dc names filters c d c' evs :
  resolve_containers env dc names filters c = (Ok d, c', evs) ->
  resolved d evs.
Proof.
  unfold resolve_containers. intros H. apply bind_inv in H.
  destruct H as [(e & _ & E) | (d1 & c1 & e1 & e23 & H1 & H & ->)]; [discriminate E|].
  apply bind_inv in H.
  destruct H as [(e & _ & E) | (d2 & c2 & e2 & e3 & H2 & H3 & ->)]; [discriminate E|].
  assert (R0 : resolved [] []).
  { split; [split; constructor | split; split; intros; contradiction]. }
  pose proof (for_loop_invariant (get_container env dc) resolved names
                (fun x s c0 k s' c0' e0 evs0 _ HI Hb =>
                   get_container_step env dc x s c0 k s' c0' e0 evs0 HI Hb)
                _ _ _ _ _ _ R0 H1) as R1.
  pose proof (for_loop_invariant (list_containers env dc) resolved filters
                (fun x s c0 k s' c0' e0 evs0 _ HI Hb =>
                   list_containers_step env dc x s c0 k s' c0' e0 evs0 HI Hb)
                _ _ _ _ _ _ R1 H2) as R2.
  simpl in R2. destruct R2 as (Hwf & Hcov & Hlog).
  assert (Hd2 : dict_remove_none d2 = d2).
  { apply all_some_remove_none, entries_named_all_some, Hwf. }
  rewrite Hd2 in H3. unfold bind, log, emit, ret in H3. injection H3 as <- <- <-.
  rewrite app_assoc. split; [exact Hwf | split].
  - apply covers_app with (d := d2); [exact Hcov | auto |].
    split; [intros name v [[=] | []] | intros name vs v [[=] | []]].
  - apply failures_logged_app; [exact Hlog|].
    split; intros name e [[=] | []].
Qed.

(** ** From the waiting loop to the start loop in a whole run *)

Lemma connect_no_reload_or_start env N T :
  silent is_reload_or_start (connect_docker_service env N T).
Proof. unfold connect_docker_service, connect_attempt, get_docker_version. silence. Qed.

Lemma verify_no_reload_or_start env dc restart :
  silent is_reload_or_start (verify_docker_client env dc restart).
Proof. unfold verify_docker_client, restart_docker. silence. Qed.

Lemma health_no_reload_or_start env dc N T :
  silent is_reload_or_start (check_daemon_health env dc N T).
Proof.
  unfold check_daemon_health, health_check_loop, health_check, daemon_started,
    failed_to_start, py_gt0, restart_path, restart_docker, connect_docker_service,
    connect_attempt, get_docker_version, verify_docker_client.
  silence.
Qed.

Lemma resolve_no_reload_or_start env dc names filters :
  silent is_reload_or_start (resolve_containers env dc names filters).
Proof. unfold resolve_containers, get_container, list_containers. silence. Qed.

Lemma settle_no_start env d N T : silent is_start (settle_containers env d N T).
Proof.
  unfold settle_containers, settle_step, settle_iteration, check_status. silence.
Qed.

Lemma start_no_reload env d : silent is_reload (start_containers env d).
Proof. unfold start_containers, start_container. silence. Qed.

(** The events of a whole run: a stretch without any [reload] or [start],
    and after it, when resolution has ended well, the waiting loop and the
    start loop on the resolved dictionary. *)
Lemma main_tail env N T names filters c :
  exists pre,
    filter is_reload_or_start pre = [] /\
    (events (main env N T names filters c) = pre \/
     exists dc c3 e d0 c4,
       resolve_containers env dc names filters c3 = (Ok d0, c4, e) /\
       events (main env N T names filters c)
       = pre ++ events (bind (settle_containers env d0 N T)
                          (start_containers env) c4)).
Proof.
  remember (events (main env N T names filters c)) as evs eqn:Hevs.
  rewrite main_steps in Hevs.
  pose proof (connect_no_reload_or_start env N T c) as S1.
  unfold bind at 1 in Hevs.
  destruct (connect_docker_service env N T c) as [[[dc | e1x] c1] e1];
    unfold events in S1; simpl in S1; [|exists e1; subst evs; auto].
  pose proof (verify_no_reload_or_start env dc true c1) as S2.
  unfold bind at 1 in Hevs.
  destruct (verify_docker_client env dc true c1) as [[[[] | e2x] c2] e2];
    unfold events in S2; simpl in S2;
    [|exists (e1 ++ e2); subst evs; split; [now rewrite filter_app, S1, S2 | auto]].
  pose proof (health_no_reload_or_start env dc N T c2) as S3.
  unfold bind at 1 in Hevs.
  destruct (check_daemon_health env dc N T c2) as [[[dc' | e3x] c3] e3];
    unfold events in S3; simpl in S3;
    [|exists (e1 ++ e2 ++ e3); subst evs; split;
      [now rewrite !filter_app, S1, S2, S3 | auto]].
  pose proof (resolve_no_reload_or_start env dc' names filters c3) as S4.
  unfold bind at 1 in Hevs.
  destruct (resolve_containers env dc' names filters c3) as [[[d0 | e4x] c4] e4] eqn:Hres;
    unfold events in S4; simpl in S4;
    [|exists (e1 ++ e2 ++ e3 ++ e4); subst evs; split;
      [now rewrite !filter_app, S1, S2, S3, S4 | auto]].
  exists (e1 ++ e2 ++ e3 ++ e4). split; [now rewrite !filter_app, S1, S2, S3, S4|].
  right. exists dc', c3, e4, d0, c4. split; [exact Hres|]. subst evs.
  destruct (bind (settle_containers env d0 N T) (start_containers env) c4)
    as [[r5 c5] e5].
  unfold events. simpl. now norm_app.
Qed.

(** In a whole run, a container seen running by a [reload] gets no
    [start]. *)
Lemma main_running_not_started env N T names filters c v r :
  In (Reload v (Ok "running")) (events (main env N T names filters c)) ->
  ~ In (Start v r) (events (main env N T names filters c)).
Proof.
  destruct (main_tail env N T names filters c)
    as (pre & Hpre & [-> | (dc & c3 & e & d0 & c4 & Hres & ->)]).
  - intros H. exfalso.
    assert (Hf : In (Reload v (Ok "running")) (filter is_reload_or_start pre))
      by (apply filter_In; auto).
    now rewrite Hpre in Hf.
  - assert (Hno : forall x, is_reload_or_start x = true -> ~ In x pre).
    { intros x Hx Hin.
      assert (Hf : In x (filter is_reload_or_start pre)) by (apply filter_In; auto).
      now rewrite Hpre in Hf. }
    intros Hrel Hst.
    apply in_app_or in Hrel. destruct Hrel as [Hrel | Hrel];
      [now apply (Hno (Reload v (Ok "running")) eq_refl) in Hrel|].
    apply in_app_or in Hst. destruct Hst as [Hst | Hst];
      [now apply (Hno (Start v r) eq_refl) in Hst|].
    apply resolve_containers_resolved in Hres. destruct Hres as ((Hnd & Hnamed) & _).
    pose proof (settle_no_start env d0 N T c4) as Hss.
    unfold bind, events in Hrel, Hst, Hss.
    destruct (settle_containers env d0 N T c4) as [[[d' | ex] c5] e5] eqn:Hset;
      simpl in Hrel, Hst, Hss.
    + pose proof (start_no_reload env d' c5) as Hsr.
      pose proof (start_events_member env d' c5 v r) as Hmem.
      unfold events in Hsr, Hmem.
      destruct (start_containers env d' c5) as [[r6 c6] e6]. simpl in *.
      apply in_app_or in Hrel. destruct Hrel as [Hrel | Hrel].
      * apply in_app_or in Hst. destruct Hst as [Hst | Hst].
        -- assert (Hf : In (Start v r) (filter is_start e5)) by (apply filter_In; auto).
           now rewrite Hss in Hf.
        -- destruct (Hmem Hst) as (k & Hk).
           pose proof (settle_containers_shrinks env d0 N T c4 d' c5 e5 Hnd Hset)
             as (_ & _ & _ & _ & S5).
           apply (S5 Hnamed v Hrel k Hk).
      * assert (Hf : In (Reload v (Ok "running")) (filter is_reload e6))
          by (apply filter_In; auto).
        now rewrite Hsr in Hf.
    + assert (Hf : In (Start v r) (filter is_start e5)) by (apply filter_In; auto).
      now rewrite Hss in Hf.
Qed.

(** C5.  The waiting loop makes no turn on an empty dictionary; a pass
    over a well-formed dictionary reloads every entry, in order, and keeps
    exactly the entries whose container was not seen running; the loop
    ends with the pass that leaves nothing, whatever turns remain and
    without a sleep; and a container seen running in any pass of the
    waiting loop gets no start command in the start loop that follows,
    which holds of every whole run of the script as well. *)
Theorem settle_phase_drops_running env (N T : Z) :
  (forall c, settle_containers env [] N T c = (Ok [], c, [])) /\
  (forall d c d' c' evs,
     well_formed d ->
     settle_iteration env d c = (Ok d', c', evs) ->
     evs = reloads env c d /\
     c' = (c + List.length d)%nat /\
     (forall k v, In (k, Some v) d -> exists r, In (Reload v r) evs) /\
     (forall k v,
        In (k, Some v) d' <->
        In (k, Some v) d /\ ~ In (Reload v (Ok "running")) evs)) /\
  (forall d c c' evs,
     settle_iteration env d c = (Ok [], c', evs) ->
     (forall i turns,
        for_loop (i :: turns) (settle_step env N T) d c = (Ok [], c', evs)) /\
     (d <> [] -> 1 <= N -> settle_containers env d N T c = (Ok [], c', evs))) /\
  (forall d c d' c' evs,
     well_formed d ->
     settle_containers env d N T c = (Ok d', c', evs) ->
     forall v, In (Reload v (Ok "running")) evs ->
     forall r, ~ In (Start v r) (events (start_containers env d' c'))) /\
  (forall names filters c v,
     In (Reload v (Ok "running")) (events (main env N T names filters c)) ->
     forall r, ~ In (Start v r) (events (main env N T names filters c))).
Proof.
  split; [|split; [|split; [|split]]].
  - intros c. reflexivity.
  - intros d c d' c' evs [Hnd Hnamed] H.
    pose proof (settle_iteration_shrinks env d c d' c' evs Hnd H)
      as (S1 & S2 & S3 & S4 & S5).
    destruct (settle_iteration_run env d c d' c' evs Hnd H) as (Hsome & Hd' & -> & ->).
    repeat split.
    + intros k v Hin. eapply reloads_cover; eassumption.
    + auto.
    + intros Hev. apply (S5 Hnamed v Hev k). assumption.
    + intros [Hin Hev]. rewrite Hd'. apply filter_In. split; [exact Hin|].
      simpl. apply negb_true_iff.
      destruct (mem_key k (running_keys env c d)) eqn:E; [|reflexivity].
      exfalso. apply Hev. apply mem_key_iff in E.
      destruct (running_key_observed env d c k E) as (v' & Hin' & Hev').
      assert (Some v' = Some v) by exact (keys_functional d k _ _ Hnd Hin' Hin).
      congruence.
  - intros d c c' evs H.
    assert (Hstep : forall i, settle_step env N T i d c = (Ok (Break, []), c', evs)).
    { intros i. unfold settle_step. rewrite (bind_run _ _ _ _ _ _ H). simpl.
      now rewrite app_nil_r. }
    split.
    + intros i turns. apply for_loop_break. apply Hstep.
    + intros Hd HN. unfold settle_containers.
      destruct d as [|kv d]; [congruence|].
      change (for_loop (range N) (settle_step env N T) (kv :: d) c = (Ok [], c', evs)).
      unfold range. destruct (Z.to_nat N) as [|n] eqn:E; [lia|].
      simpl. apply for_loop_break. apply Hstep.
  - intros d c d' c' evs [Hnd Hnamed] H v Hev r Hstart.
    pose proof (settle_containers_shrinks env d N T c d' c' evs Hnd H)
      as (_ & _ & _ & _ & S5).
    destruct (start_events_member env d' c' v r Hstart) as (k & Hk).
    apply (S5 Hnamed v Hev k Hk).
  - intros names filters c v Hev r. now apply main_running_not_started.
Qed.

(** The theorem at work: [db] is seen running in the second of three
    passes, so only [web] is started. *)
Lemma settle_phase_drops_running_witness :
  settle_containers two_containers [("web", Some web); ("db", Some db)] 3 30 4%nat
    = (Ok [("web", Some web)], 9%nat,
       events (settle_containers two_containers
                 [("web", Some web); ("db", Some db)] 3 30 4%nat)) /\
  ~ In (Start db (Raise (APIError "500 Server Error")))
      (events (start_containers two_containers [("web", Some web)] 9%nat)).
Proof.
  split; [reflexivity|].
  destruct (settle_phase_drops_running two_containers 3 30) as (_ & _ & _ & H & _).
  apply (H [("web", Some web); ("db", Some db)] 4%nat [("web", Some web)] 9%nat
           (events (settle_containers two_containers
                      [("web", Some web); ("db", Some db)] 3 30 4%nat))).
  - split.
    + repeat constructor; simpl; intuition discriminate.
    + apply Forall_cons; [exists web; reflexivity|].
      apply Forall_cons; [exists db; reflexivity|]. constructor.
  - reflexivity.
  - simpl. repeat first [left; reflexivity | right].
Defined.

(** C6.  The dictionary that resolution builds is keyed by container name
    without repetition, every entry standing under the name of its own
    container, so two entries never hold containers of one name; and a
    container returned by a lookup, by exact name or by filter and by
    however many of them, has exactly one entry under its name. *)
Theorem resolution_deduplicates env dc names filters c d c' evs :
  resolve_containers env dc names filters c = (Ok d, c', evs) ->
  NoDup (keys d) /\
  entries_named d /\
  (forall k1 v1 k2 v2,
     In (k1, Some v1) d -> In (k2, Some v2) d -> cname v1 = cname v2 ->
     (k1, v1) = (k2, v2)) /\
  (forall name v,
     In (Get name (Ok v)) evs -> count_occ string_dec (keys d) (cname v) = 1%nat) /\
  (forall name vs v,
     In (ListContainers name (Ok vs)) evs -> In v vs ->
     count_occ string_dec (keys d) (cname v) = 1%nat).
Proof.
  intros H. apply resolve_containers_resolved in H.
  destruct H as ((Hnd & Hnamed) & (Hget & Hlist) & _).
  split; [exact Hnd | split; [exact Hnamed | split; [|split]]].
  - intros k1 v1 k2 v2 H1 H2 E.
    unfold entries_named in Hnamed. rewrite Forall_forall in Hnamed.
    destruct (Hnamed _ H1) as (w1 & [= -> ->]).
    destruct (Hnamed _ H2) as (w2 & [= -> ->]).
    rewrite E in H1.
    pose proof (keys_functional d _ _ _ Hnd H1 H2) as [= ->]. reflexivity.
  - intros name v Hin. apply NoDup_count_occ'; eauto.
  - intros name vs v Hin Hv. apply NoDup_count_occ'; eauto.
Qed.

(** The theorem at work: [web] is matched by the exact name [web] and by
    the filter [we], and is monitored once. *)
Lemma resolution_deduplicates_witness :
  resolve_containers two_containers (Some from_env_client) ["web"] ["we"] 2%nat
    = (Ok [("web", Some web)], 4%nat,
       events (resolve_containers two_containers (Some from_env_client)
                 ["web"] ["we"] 2%nat)) /\
  count_occ string_dec (keys [("web", Some web)]) "web" = 1%nat.
Proof.
  split; [reflexivity|].
  destruct (resolution_deduplicates two_containers (Some from_env_client)
              ["web"] ["we"] 2%nat [("web", Some web)] 4%nat
              (events (resolve_containers two_containers (Some from_env_client)
                         ["web"] ["we"] 2%nat)) eq_refl)
    as (_ & _ & _ & H & _).
  apply (H "web" web). simpl. left. reflexivity.
Defined.

Lemma get_container_handled env client i d c :
  lookup_handled (env_get env c i) ->
  exists d' evs,
    get_container env (Some client) i d c = (Ok (Continue, d'), S c, evs).
Proof.
  unfold get_container, try_except, with_client, call, bind, log, emit, ret, raise.
  destruct (env_get env c i) as [v | e]; simpl; [eauto|].
  destruct e; simpl; try contradiction; eauto.
Qed.

Lemma list_containers_handled env client i d c :
  lookup_handled (env_list env c i) ->
  exists d' evs,
    list_containers env (Some client) i d c = (Ok (Continue, d'), S c, evs).
Proof.
  unfold list_containers, try_except, with_client, call, bind, log, emit, ret, raise.
  destruct (env_list env c i) as [vs | e]; simpl.
  - destruct (List.length vs =? 0)%nat; simpl; eauto.
  - destruct e; simpl; try contradiction; eauto.
Qed.

(** With answers it copes with, the loop over the exact names looks every
    name up. *)
Lemma get_loop_total env client names :
  (forall t i, lookup_handled (env_get env t i)) ->
  forall d c, exists d' evs,
    for_loop names (get_container env (Some client)) d c
      = (Ok d', (c + List.length names)%nat, evs) /\
    filter is_lookup evs = gets env c names.
Proof.
  intros Hh. induction names as [|i names IH]; intros d c.
  - exists d, []. rewrite Nat.add_0_r. auto.
  - destruct (get_container_handled env client i d c (Hh c i)) as (d1 & e1 & Hb).
    destruct (IH d1 (S c)) as (d' & e2 & Hl & Hv).
    exists d', (e1 ++ e2). split.
    + replace (c + List.length (i :: names))%nat
        with (S c + List.length names)%nat by (simpl; lia).
      eapply for_loop_continue; eassumption.
    + apply get_container_ok in Hb. destruct Hb as (_ & _ & Hv1 & _).
      rewrite filter_app, Hv1, Hv. reflexivity.
Qed.

Lemma list_loop_total env client filters :
  (forall t i, lookup_handled (env_list env t i)) ->
  forall d c, exists d' evs,
    for_loop filters (list_containers env (Some client)) d c
      = (Ok d', (c + List.length filters)%nat, evs) /\
    filter is_lookup evs = lists env c filters.
Proof.
  intros Hh. induction filters as [|i filters IH]; intros d c.
  - exists d, []. rewrite Nat.add_0_r. auto.
  - destruct (list_containers_handled env client i d c (Hh c i)) as (d1 & e1 & Hb).
    destruct (IH d1 (S c)) as (d' & e2 & Hl & Hv).
    exists d', (e1 ++ e2). split.
    + replace (c + List.length (i :: filters))%nat
        with (S c + List.length filters)%nat by (simpl; lia).
      eapply for_loop_continue; eassumption.
    + apply list_containers_ok in Hb. destruct Hb as (_ & _ & Hv1 & _).
      rewrite filter_app, Hv1, Hv. reflexivity.
Qed.

(** With answers it copes with, the start loop sends a start to every
    entry and logs every refusal. *)
Lemma start_loop_total env :
  (forall t v, start_handled (env_start env t v)) ->
  forall d c,
    all_some d ->
    exists evs,
      start_containers env d c = (Ok tt, (c + List.length d)%nat, evs) /\
      filter is_start evs = starts env c d /\
      (forall v e,
         In (Start v (Raise e)) evs ->
         exists k,
           In (Log ERROR "Can't start container, name: %s, error: %s"
                 [AStr k; AExn e]) evs).
Proof.
  intros Hh. unfold start_containers.
  induction d as [|[k0 v0] d IH]; intros c Hsome.
  - exists []. rewrite Nat.add_0_r. repeat split. intros v e [].
  - inversion Hsome as [|x xs Hv0 Hd]; subst.
    destruct v0 as [v0|]; [|discriminate Hv0].
    destruct (IH (S c) Hd) as (e2 & Hl & Hv & Hlog).
    assert (Hb : exists e1,
               start_container env (k0, Some v0) tt c = (Ok (Continue, tt), S c, e1) /\
               filter is_start e1 = [Start v0 (env_start env c v0)] /\
               (forall v e,
                  In (Start v (Raise e)) e1 ->
                  In (Log ERROR "Can't start container, name: %s, error: %s"
                        [AStr k0; AExn e]) e1)).
    { unfold start_container, try_except, call, bind, log, emit, ret. simpl.
      destruct (Hh c v0) as [E | (msg & [E | E])]; rewrite E; simpl;
        eexists; (split; [reflexivity|]); (split; [reflexivity|]);
        intros v e H;
        repeat (destruct H as [H | H]; try discriminate H); try contradiction;
        injection H as _ <-; simpl; auto. }
    destruct Hb as (e1 & Hb & Hv1 & Hlog1).
    exists (e1 ++ e2). split; [|split].
    + replace (c + List.length ((k0, Some v0) :: d))%nat
        with (S c + List.length d)%nat by (simpl; lia).
      eapply for_loop_continue; eassumption.
    + rewrite filter_app, Hv1, Hv. reflexivity.
    + intros v e H. apply in_app_or in H. destruct H as [H | H].
      * exists k0. apply in_or_app. left. exact (Hlog1 v e H).
      * destruct (Hlog v e H) as (k & Hk). exists k. apply in_or_app. now right.
Qed.

(** C8.  When the lookups raise nothing but [NotFound] and [APIError],
    resolution looks up every selector, one after the other, whatever the
    lookups before it gave; each lookup that raised is followed by a log
    record for its selector, and every container that a lookup returned is
    in the dictionary.  When [start] raises nothing but API errors, the
    start loop sends a start to every container of the dictionary, in
    order, and logs each refusal. *)
Theorem failures_are_isolated env :
  (forall client names filters c,
     (forall t i, lookup_handled (env_get env t i)) ->
     (forall t i, lookup_handled (env_list env t i)) ->
     exists d evs,
       resolve_containers env (Some client) names filters c
         = (Ok d, (c + List.length names + List.length filters)%nat, evs) /\
       filter is_lookup evs
         = gets env c names ++ lists env (c + List.length names) filters /\
       covers d evs /\
       failures_logged evs) /\
  (forall d c,
     all_some d ->
     (forall t v, start_handled (env_start env t v)) ->
     exists evs,
       start_containers env d c = (Ok tt, (c + List.length d)%nat, evs) /\
       filter is_start evs = starts env c d /\
       (forall v e,
          In (Start v (Raise e)) evs ->
          exists k,
            In (Log ERROR "Can't start container, name: %s, error: %s"
                  [AStr k; AExn e]) evs)).
Proof.
  split.
  - intros client names filters c Hget Hlist.
    destruct (get_loop_total env client names Hget [] c) as (d1 & e1 & H1 & V1).
    destruct (list_loop_total env client filters Hlist d1 (c + List.length names)%nat)
      as (d2 & e2 & H2 & V2).
    assert (Hrun : resolve_containers env (Some client) names filters c
                   = (Ok (dict_remove_none d2),
                      (c + List.length names + List.length filters)%nat,
                      e1 ++ e2
                        ++ [Log INFO "Monitored containers: %s"
                              [AKeys (keys (dict_remove_none d2))]])).
    { unfold resolve_containers.
      rewrite (bind_run _ _ _ _ _ _ H1), (bind_run _ _ _ _ _ _ H2). reflexivity. }
    eexists _, _. split; [exact Hrun|].
    pose proof (resolve_containers_resolved _ _ _ _ _ _ _ _ Hrun) as (_ & Hcov & Hlog).
    split; [|split; assumption].
    rewrite !filter_app, V1, V2. simpl. now rewrite app_nil_r.
  - intros d c Hsome Hh. now apply start_loop_total.
Qed.

(** The theorem at work: of four names and three filters two fail and one
    is unknown, and all seven are looked up; the one start is refused and
    logged. *)
Lemma failures_are_isolated_witness :
  (exists d evs,
     resolve_containers two_containers (Some from_env_client)
       ["nope"; "broken"; "web"; "db"] ["broken"; "zz"; "we"] 2%nat
       = (Ok d, 9%nat, evs) /\
     count is_lookup evs = 7%nat /\
     covers d evs) /\
  (exists evs,
     start_containers two_containers [("web", Some web)] 9%nat = (Ok tt, 10%nat, evs) /\
     filter is_start evs = [Start web (Raise (APIError "500 Server Error"))]).
Proof.
  destruct (failures_are_isolated two_containers) as [H1 H2]. split.
  - destruct (H1 from_env_client ["nope"; "broken"; "web"; "db"]
                ["broken"; "zz"; "we"] 2%nat) as (d & evs & Hrun & Hv & Hcov & _).
    + intros t i. simpl.
      destruct (String.eqb i "web"); [exact I|].
      destruct (String.eqb i "db"); [exact I|].
      destruct (String.eqb i "broken"); exact I.
    + intros t i. simpl.
      destruct (String.eqb i "we"); [exact I|].
      destruct (String.eqb i "broken"); exact I.
    + exists d, evs. split; [exact Hrun|]. split; [|exact Hcov].
      unfold count. rewrite Hv. reflexivity.
  - destruct (H2 [("web", Some web)] 9%nat) as (evs & Hrun & Hv & _).
    + repeat constructor.
    + intros t v. right. exists "500 Server Error". left. reflexivity.
    + exists evs. split; [exact Hrun | exact Hv].
Defined.

(** ** How the process ends *)

(** What the script hands to the start loop is well formed. *)
Lemma monitor_well_formed env N T names filters c d c' evs :
  monitor env N T names filters c = (Ok d, c', evs) -> well_formed d.
Proof.
  unfold monitor. intros H.
  apply bind_inv in H.
  destruct H as [(e & _ & E) | (dc & c1 & e1 & e1' & _ & H & _)]; [discriminate E|].
  apply bind_inv in H.
  destruct H as [(e & _ & E) | (u & c2 & e2 & e2' & _ & H & _)]; [discriminate E|].
  apply bind_inv in H.
  destruct H as [(e & _ & E) | (dc' & c3 & e3 & e3' & _ & H & _)]; [discriminate E|].
  apply bind_inv in H.
  destruct H as [(e & _ & E) | (d0 & c4 & e4 & e4' & Hres & Hset & _)]; [discriminate E|].
  apply resolve_containers_resolved in Hres. destruct Hres as ((Hnd & Hnamed) & _).
  pose proof (settle_containers_shrinks env d0 N T c4 d c' e4' Hnd Hset)
    as (_ & S2 & S3 & _).
  split; auto.
Qed.

Lemma monitor_no_start env N T names filters :
  silent is_start (monitor env N T names filters).
Proof.
  unfold monitor, connect_docker_service, connect_attempt, get_docker_version,
    verify_docker_client, restart_docker, check_daemon_health, health_check_loop,
    health_check, daemon_started, failed_to_start, py_gt0, restart_path,
    connect_docker_service, connect_attempt, get_docker_version,
    verify_docker_client, resolve_containers, get_container, list_containers,
    settle_containers, settle_step, settle_iteration, check_status.
  silence.
Qed.

(** C4, as the script has it.  When no client can be obtained at the
    first connection, the script runs [restart_docker]; when that returns
    (the [dbus] modules are there and the bus answers or raises a
    [DBusException]) the process ends through [exit()] without an
    argument, that is with exit status 0, and when it raises, that
    exception ends the process, with exit status 1 as for every uncaught
    exception other than [SystemExit].  When no client can be
    obtained at the connection after the restart of a degraded daemon, the
    process ends at once through [exit()] with exit status 0.  When the
    script reaches the start loop, it runs to its end with exit status 0
    and sends every start, even if starts are refused with API errors. *)
Theorem exit_status_of_main env (N T : Z) names filters c :
  let run := main env N T names filters c in
  (forall c1 e1,
     connect_docker_service env N T c = (Ok None, c1, e1) ->
     (restart_handled env c1 ->
      outcome run = Raise (SystemExit None) /\
      exit_status (outcome run) = 0) /\
     (forall e,
        outcome (restart_docker env c1) = Raise e ->
        outcome run = Raise e /\
        ((forall code, e <> SystemExit code) -> exit_status (outcome run) = 1)) /\
     (restart_handled env c1 \/ exists e, outcome (restart_docker env c1) = Raise e) /\
     calls run = calls (restart_docker env c1)) /\
  (forall client c1 e1 total c2 health c3 e3,
     connect_docker_service env N T c = (Ok (Some client), c1, e1) ->
     health_check_loop env (Some client) N T c1
       = (Ok (Some total, Some 0), c2, health) ->
     0 < total ->
     restart_docker env c2 = (Ok tt, c3, e3) ->
     outcome (connect_docker_service env N T c3) = Ok None ->
     outcome run = Raise (SystemExit None) /\
     exit_status (outcome run) = 0 /\
     calls run = calls (connect_docker_service env N T c3)) /\
  (forall d c3 e3,
     monitor env N T names filters c = (Ok d, c3, e3) ->
     (forall t v, start_handled (env_start env t v)) ->
     outcome run = Ok tt /\
     exit_status (outcome run) = 0 /\
     calls run = (c3 + List.length d)%nat /\
     filter is_start (events run) = starts env c3 d).
Proof.
  intros run. subst run. split; [|split].
  - intros c1 e1 Hconnect.
    rewrite (main_unavailable_run env N T names filters c c1 e1 Hconnect).
    pose proof (restart_docker_handled env c1) as Hiff.
    unfold outcome, calls in *. simpl.
    destruct (restart_docker env c1) as [[[[] | e0] rc] e3]; simpl in *.
    + split; [intros _; split; reflexivity|].
      split; [intros e E; discriminate E|].
      split; [left; now apply Hiff | reflexivity].
    + split.
      { intros H. apply Hiff in H. discriminate H. }
      split; [|split; [right; eauto | reflexivity]].
      intros e [= ->]. split; [reflexivity|].
      intros Hne. destruct e; try reflexivity. now destruct (Hne code).
  - intros client c1 e1 total c2 health c3 e3 Hconnect Hloop Hq Hr Hagain.
    destruct (connect_docker_service env N T c3) as [[r4 c4] e4] eqn:Ha.
    unfold outcome in Hagain. simpl in Hagain. subst r4.
    rewrite (main_degraded_run env N T names filters c client c1 e1 total c2 health
               c3 e3 _ c4 e4 Hconnect Hloop Hq Hr Ha).
    repeat split.
  - intros d c3 e3 Hmon Hstart.
    destruct (start_loop_total env Hstart d c3) as (evs & Hrun & Hv & _).
    { apply entries_named_all_some. now apply (monitor_well_formed _ _ _ _ _ _ _ _ _ Hmon). }
    unfold main. rewrite (bind_run _ _ _ _ _ _ Hmon), Hrun.
    unfold outcome, calls, events. simpl. repeat split.
    rewrite filter_app, Hv.
    pose proof (monitor_no_start env N T names filters c) as Hs.
    rewrite Hmon in Hs. unfold events in Hs. simpl in Hs. now rewrite Hs.
Qed.

(** The theorem at work: a daemon that is down, with [dbus] at hand and
    without it, a degraded daemon that does not come back, and a run in
    which the one start is refused. *)
Lemma exit_status_of_main_witness :
  exit_status (outcome (main daemon_down 3 30 [] [] 0%nat)) = 0 /\
  exit_status (outcome (main dbus_missing 3 30 [] [] 0%nat)) = 1 /\
  exit_status (outcome (main daemon_degraded 3 30 [] [] 0%nat)) = 0 /\
  outcome (main two_containers 3 30 ["web"] [] 0%nat) = Ok tt.
Proof.
  split; [|split; [|split]].
  - destruct (exit_status_of_main daemon_down 3 30 [] [] 0%nat) as (H & _ & _).
    destruct (H 3%nat (events (connect_docker_service daemon_down 3 30 0%nat)) eq_refl)
      as (Hs & _).
    apply Hs. split; [reflexivity|]. right. split; [reflexivity|].
    right. exists "Unit docker.service not found". reflexivity.
  - destruct (exit_status_of_main dbus_missing 3 30 [] [] 0%nat) as (H & _ & _).
    destruct (H 3%nat (events (connect_docker_service dbus_missing 3 30 0%nat)) eq_refl)
      as (_ & Hs & _).
    destruct (Hs (ImportError "No module named 'dbus'") eq_refl) as (_ & Hone).
    apply Hone. intros code. discriminate.
  - destruct (exit_status_of_main daemon_degraded 3 30 [] [] 0%nat) as (_ & H & _).
    destruct (H from_env_client 1%nat
                (events (connect_docker_service daemon_degraded 3 30 0%nat))
                5 4%nat
                (events (health_check_loop daemon_degraded (Some from_env_client)
                           3 30 1%nat))
                7%nat (events (restart_docker daemon_degraded 4%nat))
                eq_refl eq_refl) as (_ & Hs & _);
      [lia | reflexivity | reflexivity | exact Hs].
  - destruct (exit_status_of_main two_containers 3 30 ["web"] [] 0%nat) as (_ & _ & H).
    destruct (H [("web", Some web)] 6%nat
                (events (monitor two_containers 3 30 ["web"] [] 0%nat)) eq_refl)
      as (Ho & _); [|exact Ho].
    intros t v. right. exists "500 Server Error". left. reflexivity.
Defined.

(** C4 as the specification words it fails: against a daemon that never
    answers no client is obtained, and the exit status is 0. *)
Lemma nonzero_exit_status_counterexample :
  ~ (outcome (connect_docker_service daemon_down 3 30 0%nat) = Ok None ->
     exit_status (outcome (main daemon_down 3 30 [] [] 0%nat)) <> 0).
Proof.
  intros H. apply H; reflexivity.
Qed.

(** C9 at a failing input: the daemon answers the version query and
    raises an API error on [info]; the script catches nothing there, the
    exception ends the process and the last event is the failed call, with
    no log record of the failure.  The same holds for a [reload] that
    raises in the waiting loop. *)
Theorem info_and_reload_failures_escape :
  (outcome (main info_fails 3 30 [] [] 0%nat) = Raise (APIError "500 Server Error") /\
   last (events (main info_fails 3 30 [] [] 0%nat)) FromEnv
     = Info (Raise (APIError "500 Server Error")) /\
   exit_status (outcome (main info_fails 3 30 [] [] 0%nat)) = 1) /\
  (outcome (main reload_fails 3 30 ["web"] [] 0%nat)
     = Raise (APIError "500 Server Error") /\
   last (events (main reload_fails 3 30 ["web"] [] 0%nat)) FromEnv
     = Reload web (Raise (APIError "500 Server Error")) /\
   exit_status (outcome (main reload_fails 3 30 ["web"] [] 0%nat)) = 1).
Proof.
  repeat split; reflexivity.
Qed.

(** ** Bounds that hold of every run *)

Lemma first_true_or_none (f : nat -> bool) c n :
  (forall t, (c <= t < c + n)%nat -> f t = false) \/
  (exists j, (j < n)%nat /\
             (forall t, (c <= t < c + j)%nat -> f t = false) /\
             f (c + j)%nat = true).
Proof.
  induction n as [|n IH].
  - left. intros t Ht. lia.
  - destruct IH as [Hnone | (j & Hj & Hbefore & Hat)].
    + destruct (f (c + n)%nat) eqn:E.
      * right. exists n. repeat split; [lia | exact Hnone | exact E].
      * left. intros t Ht.
        destruct (Nat.eq_dec t (c + n)) as [-> | Hne]; [exact E | apply Hnone; lia].
    + right. exists j. repeat split; [lia | exact Hbefore | exact Hat].
Qed.

(** Events of a kind that every turn produces at most so often are
    produced by the loop at most as often as the turns allow together,
    however the loop ends. *)
Lemma for_loop_count_le {A St} p (body : A -> St -> M (ctl * St)) (bound : A -> nat) xs :
  (forall x s c, (count p (events (body x s c)) <= bound x)%nat) ->
  forall s c,
    (count p (events (for_loop xs body s c)) <= list_sum (map bound xs))%nat.
Proof.
  intros Hb. induction xs as [|x xs IH]; intros s c; [unfold count; simpl; lia|].
  simpl for_loop. rewrite count_bind. specialize (Hb x s c). simpl list_sum.
  destruct (outcome (body x s c)) as [[[|] s'] | e].
  - specialize (IH s' (calls (body x s c))). lia.
  - change (count p (events (ret s' (calls (body x s c))))) with 0%nat. lia.
  - lia.
Qed.

Lemma sleep_bound_sum n : forall a m,
  (a + m = n)%nat ->
  list_sum (map (sleep_bound (Z.of_nat n)) (map Z.of_nat (seq a m))) = (m - 1)%nat.
Proof.
  intros a m. revert a. induction m as [|m IH]; intros a H; [reflexivity|].
  simpl. rewrite (IH (S a)) by lia. unfold sleep_bound.
  destruct (Z.of_nat a + 1 <? Z.of_nat n) eqn:E.
  - apply Z.ltb_lt in E. lia.
  - apply Z.ltb_ge in E. lia.
Qed.

Lemma range_length N : List.length (range N) = Z.to_nat N.
Proof. unfold range. now rewrite length_map, length_seq. Qed.

Lemma list_sum_ones {A} (xs : list A) : list_sum (map (fun _ => 1%nat) xs) = List.length xs.
Proof. induction xs as [|x xs IH]; simpl; [reflexivity | now rewrite IH]. Qed.

(** The sleeps that the turns of a loop over [range N] allow together. *)
Lemma sleep_bound_range N :
  list_sum (map (sleep_bound N) (range N)) = (Z.to_nat N - 1)%nat.
Proof.
  destruct (Z_le_gt_dec N 0) as [H | H].
  - unfold range. replace (Z.to_nat N) with 0%nat by lia. reflexivity.
  - unfold range.
    replace (sleep_bound N) with (sleep_bound (Z.of_nat (Z.to_nat N)))
      by (now rewrite Z2Nat.id by lia).
    apply sleep_bound_sum. lia.
Qed.

Lemma connect_attempt_counts env N T client i s c :
  (count is_version (events (connect_attempt env N T client i s c)) <= 1)%nat /\
  (count is_sleep (events (connect_attempt env N T client i s c)) <= sleep_bound N i)%nat.
Proof.
  unfold connect_attempt, get_docker_version, try_except, call, bind, log, emit,
    sleep, ret, raise, sleep_bound, count, events.
  destruct (env_version env c) as [v | e]; simpl;
    try destruct (truthy v); simpl;
    destruct (i + 1 <? N); simpl; try destruct (T <? 0); simpl; try destruct (T <=? sleep_max); simpl; lia.
Qed.

Lemma health_check_counts env dc N T i s c :
  (count is_info (events (health_check env dc N T i s c)) <= 1)%nat /\
  (count is_sleep (events (health_check env dc N T i s c)) <= sleep_bound N i)%nat.
Proof.
  unfold health_check, with_client, daemon_started, py_eq0, py_gt0, call, bind,
    log, emit, sleep, ret, raise, sleep_bound, count, events.
  destruct dc; [|simpl; destruct (i + 1 <? N); lia].
  destruct (env_info env c) as [[[q|] [r|]] | e]; simpl;
    repeat match goal with
      | |- context [if ?b then _ else _] => destruct b; simpl
      end; lia.
Qed.

Lemma settle_step_sleeps env N T i d c :
  (count is_sleep (events (settle_step env N T i d c)) <= sleep_bound N i)%nat.
Proof.
  unfold settle_step. rewrite count_bind.
  assert (H : silent is_sleep (settle_iteration env d)).
  { unfold settle_iteration, check_status. silence. }
  rewrite (silent_count _ _ _ H). simpl.
  destruct (outcome (settle_iteration env d c)) as [d'|e]; [|lia].
  unfold bind, log, emit, sleep, ret, raise, sleep_bound, count, events.
  destruct d' as [|kv d']; simpl; [lia|].
  destruct (i + 1 <? N); simpl; [destruct (T <? 0); [|destruct (T <=? sleep_max)]|]; simpl; lia.
Qed.

Lemma connect_bounds env (N T : Z) (c : nat) :
  (count is_version (events (connect_docker_service env N T c)) <= Z.to_nat N)%nat /\
  (count is_sleep (events (connect_docker_service env N T c)) <= Z.to_nat N - 1)%nat.
Proof.
  assert (Hconnect : forall p,
    count p (events (connect_docker_service env N T c))
    = (count p [FromEnv]
       + count p (events (for_loop (range N)
                            (connect_attempt env N T from_env_client) None c))
       + match outcome (for_loop (range N)
                          (connect_attempt env N T from_env_client) None c) with
         | Ok v =>
             count p (if truthy v
                      then [Log INFO "Docker version: %s"
                              [match v with Some s => AStr s | None => ANone end]]
                      else [Log ERROR "Can't get Docker version" []])
         | Raise _ => 0
         end)%nat).
  { intros p. unfold connect_docker_service. rewrite count_bind.
    change (outcome (emit FromEnv c)) with (@Ok unit tt). cbv iota.
    change (calls (emit FromEnv c)) with c.
    change (events (emit FromEnv c)) with [FromEnv].
    rewrite count_bind. rewrite <- Nat.add_assoc. do 2 f_equal.
    destruct (outcome _) as [v|e]; [|reflexivity].
    destruct (truthy v); reflexivity. }
  split.
  - rewrite Hconnect.
    pose proof (for_loop_count_le is_version
                  (connect_attempt env N T from_env_client) (fun _ => 1%nat) (range N)
                  (fun x s c0 => proj1 (connect_attempt_counts env N T _ x s c0))
                  None c) as H.
    rewrite list_sum_ones, range_length in H.
    destruct (outcome _) as [v|e]; [destruct (truthy v)|]; unfold count in *; simpl; lia.
  - rewrite Hconnect.
    pose proof (for_loop_count_le is_sleep
                  (connect_attempt env N T from_env_client) (sleep_bound N) (range N)
                  (fun x s c0 => proj2 (connect_attempt_counts env N T _ x s c0))
                  None c) as H.
    rewrite sleep_bound_range in H.
    destruct (outcome _) as [v|e]; [destruct (truthy v)|]; unfold count in *; simpl; lia.
Qed.

Lemma health_loop_bounds env dc (N T : Z) (c : nat) :
  (count is_info (events (health_check_loop env dc N T c)) <= Z.to_nat N)%nat /\
  (count is_sleep (events (health_check_loop env dc N T c)) <= Z.to_nat N - 1)%nat.
Proof.
  split.
  - pose proof (for_loop_count_le is_info
                  (health_check env dc N T) (fun _ => 1%nat) (range N)
                  (fun x s c0 => proj1 (health_check_counts env dc N T x s c0))
                  (None, None) c) as H.
    now rewrite list_sum_ones, range_length in H.
  - pose proof (for_loop_count_le is_sleep
                  (health_check env dc N T) (sleep_bound N) (range N)
                  (fun x s c0 => proj2 (health_check_counts env dc N T x s c0))
                  (None, None) c) as H.
    now rewrite sleep_bound_range in H.
Qed.

Lemma settle_sleep_bound env d (N T : Z) (c : nat) :
  (count is_sleep (events (settle_containers env d N T c)) <= Z.to_nat N - 1)%nat.
Proof.
  unfold settle_containers.
  destruct (0 <? List.length d)%nat.
  - pose proof (for_loop_count_le is_sleep
                  (settle_step env N T) (sleep_bound N) (range N)
                  (settle_step_sleeps env N T) d c) as H.
    now rewrite sleep_bound_range in H.
  - simpl. unfold count. simpl. lia.
Qed.

(** X1.  Whatever the daemon answers and whatever is raised, each loop
    makes at most [attempts_qty] turns: a run of [connect_docker_service]
    holds at most [N] version queries, the health loop at most [N] [info]
    queries, and each of them and the waiting loop sleeps at most [N - 1]
    times. *)
Theorem loops_are_bounded env dc d (N T : Z) (c : nat) :
  (count is_version (events (connect_docker_service env N T c)) <= Z.to_nat N)%nat /\
  (count is_sleep (events (connect_docker_service env N T c)) <= Z.to_nat N - 1)%nat /\
  (count is_info (events (health_check_loop env dc N T c)) <= Z.to_nat N)%nat /\
  (count is_sleep (events (health_check_loop env dc N T c)) <= Z.to_nat N - 1)%nat /\
  (count is_sleep (events (settle_containers env d N T c)) <= Z.to_nat N - 1)%nat.
Proof.
  pose proof (connect_bounds env N T c) as [H1 H2].
  pose proof (health_loop_bounds env dc N T c) as [H3 H4].
  pose proof (settle_sleep_bound env d N T c) as H5.
  auto.
Qed.

Lemma reconcile_no_version env dc names filters N T :
  silent is_version
    (bind (resolve_containers env dc names filters) (fun d =>
     bind (settle_containers env d N T) (start_containers env))).
Proof.
  unfold resolve_containers, get_container, list_containers, settle_containers,
    settle_step, settle_iteration, check_status, start_containers, start_container.
  silence.
Qed.

Lemma reconcile_no_info env dc names filters N T :
  silent is_info
    (bind (resolve_containers env dc names filters) (fun d =>
     bind (settle_containers env d N T) (start_containers env))).
Proof.
  unfold resolve_containers, get_container, list_containers, settle_containers,
    settle_step, settle_iteration, check_status, start_containers, start_container.
  silence.
Qed.

(** How often a whole run produces events of a kind that only the
    connection, the health loop and the restart produce. *)
Lemma main_count_le p env N T names filters c (a b r : nat) :
  (forall fmt, p (Log ERROR fmt []) = false) ->
  (forall c0, (count p (events (connect_docker_service env N T c0)) <= a)%nat) ->
  (forall dc c0, (count p (events (health_check_loop env dc N T c0)) <= b)%nat) ->
  (forall c0, (count p (events (restart_docker env c0)) <= r)%nat) ->
  (forall dc,
     silent p
       (bind (resolve_containers env dc names filters) (fun d =>
        bind (settle_containers env d N T) (start_containers env)))) ->
  (count p (events (main env N T names filters c)) <= a + b + r + a)%nat.
Proof.
  intros Hlog Ha Hb Hr Hrest.
  assert (Hl : forall fmt c0, count p (events (log ERROR fmt [] c0)) = 0%nat).
  { intros. unfold count, log, emit, events. simpl. now rewrite Hlog. }
  assert (Hverify : forall dc c0,
            (count p (events (verify_docker_client env dc false c0)) = 0)%nat).
  { intros [cl|] c0; [reflexivity|].
    unfold verify_docker_client. rewrite count_bind, Hl. reflexivity. }
  assert (Hpath : forall c0,
            (count p (events (restart_path env N T c0)) <= r + a)%nat).
  { intros c0. unfold restart_path. rewrite count_bind, Hl. simpl.
    rewrite count_bind. specialize (Hr (calls (log ERROR "Docker failed to start containers" [] c0))).
    destruct (outcome (restart_docker env _)); [|lia].
    rewrite count_bind.
    match goal with
    | |- context [connect_docker_service env N T ?c1] => specialize (Ha c1)
    end.
    destruct (outcome (connect_docker_service env N T _)) as [dc|e]; [|lia].
    rewrite count_bind, Hverify.
    destruct (outcome (verify_docker_client env dc false _)); [|lia].
    change (count p (events (ret dc _))) with 0%nat. lia. }
  assert (Hhealth : forall dc c0,
            (count p (events (check_daemon_health env dc N T c0)) <= b + r + a)%nat).
  { intros dc c0. unfold check_daemon_health. rewrite count_bind.
    specialize (Hb dc c0).
    destruct (outcome (health_check_loop env dc N T c0)) as [sample|e]; [|lia].
    rewrite count_bind.
    assert (Hf : forall c1, count p (events (failed_to_start sample c1)) = 0%nat).
    { intros c1. unfold failed_to_start, py_gt0. destruct (fst sample); reflexivity. }
    rewrite Hf.
    destruct (outcome (failed_to_start sample _)) as [[|]|e]; [| |lia].
    - match goal with
      | |- context [restart_path env N T ?c1] => specialize (Hpath c1)
      end. lia.
    - change (count p (events (ret dc _))) with 0%nat. lia. }
  rewrite main_steps, count_bind. specialize (Ha c).
  destruct (outcome (connect_docker_service env N T c)) as [dc|e]; [|lia].
  rewrite count_bind.
  destruct dc as [cl|].
  - change (count p (events (verify_docker_client env (Some cl) true _))) with 0%nat.
    change (outcome (verify_docker_client env (Some cl) true
                       (calls (connect_docker_service env N T c))))
      with (@Ok unit tt).
    cbv iota. rewrite count_bind.
    match goal with
    | |- context [check_daemon_health env ?d N T ?c1] => specialize (Hhealth d c1)
    end.
    destruct (outcome (check_daemon_health env _ N T _)) as [dc'|e]; [|lia].
    rewrite (silent_count _ _ _ (Hrest dc')). lia.
  - assert (Hv : forall c0,
              (count p (events (verify_docker_client env None true c0)) <= r)%nat /\
              exists e, outcome (verify_docker_client env None true c0) = Raise e).
    { intros c0. specialize (Hr c0). clear - Hr Hlog.
      unfold verify_docker_client, bind, outcome, events, calls, raise, log, emit, count
        in *.
      simpl.
      destruct (restart_docker env c0) as [[[[]|e] c1] e1]; simpl in *;
        rewrite Hlog; (split; [rewrite ?app_nil_r; lia | eauto]). }
    destruct (Hv (calls (connect_docker_service env N T c))) as (Hv1 & e & Hv2).
    rewrite Hv2. lia.
Qed.

Lemma connect_no_info env N T : silent is_info (connect_docker_service env N T).
Proof. unfold connect_docker_service, connect_attempt, get_docker_version. silence. Qed.

Lemma restart_docker_quiet env :
  silent is_version (restart_docker env) /\ silent is_info (restart_docker env).
Proof. unfold restart_docker. split; silence. Qed.

(** X2.  In every run of the script, whatever the daemon and systemd
    answer and however the run ends, [restart_docker] is run at most
    once and systemd is asked for a restart at most once, the daemon is
    asked for its version at most [2 N] times and for its container counts
    at most [N] times. *)
Theorem main_is_bounded env (N T : Z) names filters c :
  (count is_restart (events (main env N T names filters c)) <= 1)%nat /\
  (count is_version (events (main env N T names filters c)) <= 2 * Z.to_nat N)%nat /\
  (count is_info (events (main env N T names filters c)) <= Z.to_nat N)%nat /\
  (count is_restart_unit (events (main env N T names filters c)) <= 1)%nat.
Proof.
  split; [|split; [|split]]; cycle 3.
  - apply (main_count_le is_restart_unit env N T names filters c 0 0 1).
    + reflexivity.
    + intros c0. now rewrite (silent_count _ _ _ (connect_no_restart_unit env N T)).
    + intros dc c0.
      now rewrite (silent_count _ _ _ (health_loop_no_restart_unit env dc N T)).
    + intros c0. apply (restart_docker_requests env c0).
    + intros dc. apply reconcile_no_restart_unit.
  - apply (main_count_le is_restart env N T names filters c 0 0 1).
    + reflexivity.
    + intros c0. now rewrite (silent_count _ _ _ (connect_no_restart env N T)).
    + intros dc c0. now rewrite (silent_count _ _ _ (health_loop_no_restart env dc N T)).
    + intros c0. now rewrite restart_docker_once.
    + intros dc. apply reconcile_no_restart.
  - pose proof (main_count_le is_version env N T names filters c
                  (Z.to_nat N) 0 0) as H.
    rewrite Nat.add_0_r, Nat.add_0_r in H.
    replace (2 * Z.to_nat N)%nat with (Z.to_nat N + Z.to_nat N)%nat by lia.
    apply H.
    + reflexivity.
    + intros c0. apply (connect_bounds env N T c0).
    + intros dc c0.
      assert (Hs : silent is_version (health_check_loop env dc N T)).
      { unfold health_check_loop, health_check, daemon_started, py_gt0. silence. }
      now rewrite (silent_count _ _ _ Hs).
    + intros c0. now rewrite (silent_count _ _ _ (proj1 (restart_docker_quiet env))).
    + intros dc. apply reconcile_no_version.
  - pose proof (main_count_le is_info env N T names filters c
                  0 (Z.to_nat N) 0) as H.
    simpl in H. rewrite Nat.add_0_r, Nat.add_0_r in H. apply H.
    + reflexivity.
    + intros c0. now rewrite (silent_count _ _ _ (connect_no_info env N T)).
    + intros dc c0. apply (health_loop_bounds env dc N T c0).
    + intros c0. now rewrite (silent_count _ _ _ (proj2 (restart_docker_quiet env))).
    + intros dc. apply reconcile_no_info.
Qed.

(** ** The connection at the edges of its inputs *)

Lemma range_nonpositive N : N <= 0 -> range N = [].
Proof. intros H. unfold range. replace (Z.to_nat N) with 0%nat by lia. reflexivity. Qed.

Lemma connect_run_counts env T c n evs :
  filter is_version_or_sleep evs = intersperse (Sleep T) (version_queries env c n) ->
  count is_version evs = n /\ count is_sleep evs = (n - 1)%nat.
Proof.
  intros H. destruct (version_view_counts env T c n evs H) as (H1 & H2 & _).
  split; [exact H1|]. unfold count. now rewrite H2, repeat_length.
Qed.

(** X3.  [connect_docker_service] with [attempts_qty <= 0] makes no turn
    of its loop: it creates the client, asks the daemon nothing, logs the
    error and returns [None].  The command line does not get there:
    [--attempts-qty] is restricted to [range(1,6)]; with any other value
    the script ends in [parse_args] with exit status 2 before anything is
    called, and with one of the five values it is its [__main__] block. *)
Theorem connect_without_attempts env (N T : Z) names filters (c : nat) :
  (N <= 0 ->
   connect_docker_service env N T c
     = (Ok None, c, [FromEnv; Log ERROR "Can't get Docker version" []])) /\
  (N < 1 \/ 5 < N ->
   script env N T names filters c = (Raise (SystemExit (Some 2)), c, []) /\
   exit_status (outcome (script env N T names filters c)) = 2) /\
  (1 <= N <= 5 ->
   script env N T names filters c = main env N T names filters c).
Proof.
  split; [|split].
  - intros HN. unfold connect_docker_service.
    rewrite (range_nonpositive N HN). reflexivity.
  - intros HN.
    assert (E : existsb (Z.eqb N) attempts_qty_choices = false).
    { unfold attempts_qty_choices. simpl.
      repeat (rewrite (proj2 (Z.eqb_neq _ _)) by lia). reflexivity. }
    unfold script. rewrite E. split; reflexivity.
  - intros HN.
    assert (E : existsb (Z.eqb N) attempts_qty_choices = true).
    { apply existsb_exists. exists N. split; [|apply Z.eqb_refl].
      unfold attempts_qty_choices. simpl. lia. }
    unfold script. now rewrite E.
Qed.

Lemma connect_without_attempts_witness :
  connect_docker_service idle_daemon 0 30 0%nat
    = (Ok None, 0%nat, [FromEnv; Log ERROR "Can't get Docker version" []]) /\
  exit_status (outcome (script idle_daemon 0 30 ["web"] [] 0%nat)) = 2 /\
  events (script idle_daemon 6 30 ["web"] [] 0%nat) = [] /\
  script idle_daemon 3 30 ["web"] [] 0%nat = main idle_daemon 3 30 ["web"] [] 0%nat.
Proof.
  destruct (connect_without_attempts idle_daemon 0 30 ["web"] [] 0%nat)
    as (Ha & Hb & _).
  destruct (connect_without_attempts idle_daemon 6 30 ["web"] [] 0%nat)
    as (_ & Hc & _).
  destruct (connect_without_attempts idle_daemon 3 30 ["web"] [] 0%nat)
    as (_ & _ & Hd).
  split; [apply Ha; lia|].
  split; [apply Hb; lia|].
  split; [|apply Hd; lia].
  destruct Hc as (Hc & _); [lia|]. now rewrite Hc.
Defined.





(** ** The restart and the health loop at their edges *)

(** X6.  [restart_docker] imports the [dbus] modules before its [try]: an
    import that fails leaves the function at once, before the bus is
    touched.  Inside the [try], a [DBusException] raised by the bus or by
    [RestartUnit] is logged as an error and swallowed; any other exception
    leaves the function with no error record.  So the function returns
    exactly when the modules are there and nothing other than a
    [DBusException] is raised; a restart request goes out at most once,
    and exactly when the modules are there and the bus gives the object.
    When the function raises after a failed first connection, the script
    ends on that exception instead of [exit()]. *)
Theorem restart_docker_catches_dbus_only env (N T : Z) names filters (c : nat) :
  (count is_restart_unit (events (restart_docker env c)) <= 1)%nat /\
  (restart_sent env c <->
   count is_restart_unit (events (restart_docker env c)) = 1%nat) /\
  (outcome (restart_docker env c) = Ok tt <-> restart_handled env c) /\
  (forall e,
     env_import_dbus env c = Raise e ->
     restart_docker env c
     = (Raise e, S c,
        [Log INFO "Restarting Docker service" []; ImportDBus (Raise e)])) /\
  (forall e,
     env_import_dbus env c = Ok tt ->
     env_get_object env (S c) = Raise e ->
     restart_docker env c
     = if is_dbus_error e
       then (Ok tt, S (S c),
             [Log INFO "Restarting Docker service" []; ImportDBus (Ok tt);
              GetObject (Raise e);
              Log ERROR "Can't restart Docker, error: %s" [AExn e];
              Log DEBUG "Exception" [AExcInfo e]])
       else (Raise e, S (S c),
             [Log INFO "Restarting Docker service" []; ImportDBus (Ok tt);
              GetObject (Raise e)])) /\
  (forall e,
     env_import_dbus env c = Ok tt ->
     env_get_object env (S c) = Ok tt ->
     env_restart env (S (S c)) = Raise e ->
     restart_docker env c
     = if is_dbus_error e
       then (Ok tt, S (S (S c)),
             [Log INFO "Restarting Docker service" []; ImportDBus (Ok tt);
              GetObject (Ok tt); RestartUnit (Raise e);
              Log ERROR "Can't restart Docker, error: %s" [AExn e];
              Log DEBUG "Exception" [AExcInfo e]])
       else (Raise e, S (S (S c)),
             [Log INFO "Restarting Docker service" []; ImportDBus (Ok tt);
              GetObject (Ok tt); RestartUnit (Raise e)])) /\
  (forall e c0 e0,
     outcome (restart_docker env c) = Raise e ->
     connect_docker_service env N T c0 = (Ok None, c, e0) ->
     outcome (main env N T names filters c0) = Raise e /\
     calls (main env N T names filters c0) = calls (restart_docker env c)).
Proof.
  destruct (restart_docker_requests env c) as (H1 & H2 & H3).
  split; [exact H1|]. split; [split; assumption|].
  split; [apply restart_docker_handled|].
  split; [|split; [|split]].
  - intros e E. rewrite restart_docker_run, E. reflexivity.
  - intros e E1 E2. rewrite restart_docker_run, E1, E2. destruct e; reflexivity.
  - intros e E1 E2 E3. rewrite restart_docker_run, E1, E2, E3.
    destruct e; reflexivity.
  - intros e c0 e0 Hr Hconnect.
    rewrite (main_unavailable_run env N T names filters c0 c e0 Hconnect), Hr.
    split; reflexivity.
Qed.

Lemma restart_docker_catches_dbus_only_witness :
  outcome (restart_docker daemon_down 3%nat) = Ok tt /\
  count is_restart_unit (events (restart_docker daemon_down 3%nat)) = 1%nat /\
  restart_docker bus_missing 3%nat
    = (Ok tt, 5%nat,
       [Log INFO "Restarting Docker service" []; ImportDBus (Ok tt);
        GetObject (Raise (DBusException "Failed to connect to socket"));
        Log ERROR "Can't restart Docker, error: %s"
          [AExn (DBusException "Failed to connect to socket")];
        Log DEBUG "Exception"
          [AExcInfo (DBusException "Failed to connect to socket")]]) /\
  outcome (main dbus_missing 3 30 [] [] 0%nat)
    = Raise (ImportError "No module named 'dbus'").
Proof.
  destruct (restart_docker_catches_dbus_only daemon_down 3 30 [] [] 3%nat)
    as (_ & Hu & Ha & _).
  destruct (restart_docker_catches_dbus_only bus_missing 3 30 [] [] 3%nat)
    as (_ & _ & _ & _ & Hg & _).
  destruct (restart_docker_catches_dbus_only dbus_missing 3 30 [] [] 3%nat)
    as (_ & _ & _ & _ & _ & _ & Hb).
  split; [|split; [|split]].
  - apply Ha. split; [reflexivity|]. right. split; [reflexivity|].
    right. exists "Unit docker.service not found". reflexivity.
  - apply Hu. split; reflexivity.
  - exact (Hg (DBusException "Failed to connect to socket") eq_refl eq_refl).
  - apply (Hb (ImportError "No module named 'dbus'") 0%nat
             (events (connect_docker_service dbus_missing 3 30 0%nat)));
      reflexivity.
Defined.

(** X7.  The health loop reads the two counts with [dict.get]: when
    [info()] has no [Containers] entry, or has containers and no
    [ContainersRunning] entry, the comparison of [None] with [0] raises
    [TypeError] at the first turn and the exception leaves the health
    block; with no containers at all the missing [ContainersRunning] is
    never compared and the loop ends at once without a restart. *)
Theorem health_loop_missing_counts env client (N T : Z) (c : nat) :
  1 <= N ->
  (forall running,
     env_info env c = Ok (Info_dict None running) ->
     health_check_loop env (Some client) N T c
     = (Raise TypeError, S c,
        [Info (env_info env c);
         Log INFO "Containers info, qty: %d, running: %d"
           [ANone; arg_of_int running]]) /\
     outcome (check_daemon_health env (Some client) N T c) = Raise TypeError) /\
  (forall total,
     env_info env c = Ok (Info_dict (Some total) None) -> 0 < total ->
     health_check_loop env (Some client) N T c
     = (Raise TypeError, S c,
        [Info (env_info env c);
         Log INFO "Containers info, qty: %d, running: %d" [AInt total; ANone]]) /\
     outcome (check_daemon_health env (Some client) N T c) = Raise TypeError) /\
  (env_info env c = Ok (Info_dict (Some 0) None) ->
   check_daemon_health env (Some client) N T c
   = (Ok (Some client), S c,
      [Info (env_info env c);
       Log INFO "Containers info, qty: %d, running: %d" [AInt 0; ANone]])).
Proof.
  intros HN.
  assert (Hr : exists n, range N = 0 :: map Z.of_nat (seq 1 n)).
  { unfold range. destruct (Z.to_nat N) as [|n] eqn:E; [lia|]. exists n. reflexivity. }
  destruct Hr as (n & Hr).
  split; [|split].
  - intros running E.
    assert (Hl : health_check_loop env (Some client) N T c
                 = (Raise TypeError, S c,
                    [Info (env_info env c);
                     Log INFO "Containers info, qty: %d, running: %d"
                       [ANone; arg_of_int running]])).
    { unfold health_check_loop. rewrite Hr. apply for_loop_raise.
      unfold health_check, with_client, daemon_started, py_eq0, py_gt0, call, bind,
        log, emit, ret, raise.
      rewrite E. reflexivity. }
    split; [exact Hl|]. unfold check_daemon_health.
    now rewrite (bind_raise _ _ _ _ _ _ Hl).
  - intros total E Ht.
    assert (Hl : health_check_loop env (Some client) N T c
                 = (Raise TypeError, S c,
                    [Info (env_info env c);
                     Log INFO "Containers info, qty: %d, running: %d"
                       [AInt total; ANone]])).
    { unfold health_check_loop. rewrite Hr. apply for_loop_raise.
      unfold health_check, with_client, daemon_started, py_eq0, py_gt0, call, bind,
        log, emit, ret, raise.
      rewrite E. simpl.
      assert (E0 : (total =? 0) = false) by (apply Z.eqb_neq; lia).
      assert (E1 : (0 <? total) = true) by (apply Z.ltb_lt; lia).
      rewrite E0. simpl. rewrite E1. reflexivity. }
    split; [exact Hl|]. unfold check_daemon_health.
    now rewrite (bind_raise _ _ _ _ _ _ Hl).
  - intros E.
    assert (Hl : health_check_loop env (Some client) N T c
                 = (Ok (Some 0, None), S c,
                    [Info (env_info env c);
                     Log INFO "Containers info, qty: %d, running: %d"
                       [AInt 0; ANone]])).
    { unfold health_check_loop. rewrite Hr. apply for_loop_break.
      unfold health_check, with_client, daemon_started, py_eq0, py_gt0, call, bind,
        log, emit, ret, raise.
      rewrite E. reflexivity. }
    unfold check_daemon_health. rewrite (bind_run _ _ _ _ _ _ Hl). reflexivity.
Qed.

Lemma health_loop_missing_counts_witness :
  outcome (check_daemon_health info_without_counts (Some from_env_client) 3 30 1%nat)
    = Raise TypeError /\
  outcome (main info_without_counts 3 30 [] [] 0%nat) = Raise TypeError.
Proof.
  assert (H3 : 1 <= 3) by lia.
  destruct (health_loop_missing_counts info_without_counts from_env_client 3 30 1%nat H3)
    as (H & _).
  destruct (H None eq_refl) as (_ & Ha).
  split; [exact Ha | reflexivity].
Defined.

(** X8.  [dict_remove_none] keeps the entries whose value is not [None],
    and they are all it keeps; doing it twice changes nothing, and it
    leaves a dictionary without [None] as it is.  In a dictionary, storing
    [None] under a key and cleaning up, as the waiting loop does, removes
    that key and no other entry. *)
Theorem dict_remove_none_drops_none :
  (forall d, all_some (dict_remove_none d)) /\
  (forall d k v, In (k, v) (dict_remove_none d) <-> In (k, v) d /\ v <> None) /\
  (forall d, dict_remove_none (dict_remove_none d) = dict_remove_none d) /\
  (forall d, all_some d -> dict_remove_none d = d) /\
  (forall d k,
     NoDup (keys d) ->
     NoDup (keys (dict_remove_none (dict_set d k None))) /\
     forall k' v,
       In (k', v) (dict_remove_none (dict_set d k None)) <->
       In (k', v) (dict_remove_none d) /\ k' <> k).
Proof.
  assert (Hall : forall d, all_some (dict_remove_none d)).
  { intros d. unfold all_some, dict_remove_none. apply Forall_forall.
    intros kv H. now apply filter_In in H. }
  split; [exact Hall|]. split; [|split; [|split]].
  - intros d k v. unfold dict_remove_none. rewrite filter_In. simpl.
    destruct v; simpl; split; intros [H1 H2]; split; auto; congruence.
  - intros d. apply all_some_remove_none, Hall.
  - apply all_some_remove_none.
  - intros d k Hnd. split.
    + apply keys_filter_NoDup. now apply dict_set_NoDup.
    + intros k' v. rewrite remove_none_set_none by exact Hnd.
      rewrite filter_In. simpl. rewrite negb_true_iff, String.eqb_neq. tauto.
Qed.

Lemma dict_remove_none_drops_none_witness :
  dict_remove_none (dict_set [("web", Some web); ("db", Some db)] "web" None)
    = [("db", Some db)] /\
  forall k' v,
    In (k', v) (dict_remove_none
                  (dict_set [("web", Some web); ("db", Some db)] "web" None)) <->
    In (k', v) (dict_remove_none [("web", Some web); ("db", Some db)]) /\ k' <> "web".
Proof.
  split; [reflexivity|].
  destruct dict_remove_none_drops_none as (_ & _ & _ & _ & H).
  apply (H [("web", Some web); ("db", Some db)] "web").
  repeat constructor; simpl; intuition discriminate.
Defined.

(** ** Where the monitored containers come from *)

Lemma returned_app evs e1 v : returned evs v \/ returned e1 v -> returned (evs ++ e1) v.
Proof.
  intros [[(name & H) | (name & vs & H & Hv)] | [(name & H) | (name & vs & H & Hv)]].
  - left. exists name. apply in_or_app. auto.
  - right. exists name, vs. split; [apply in_or_app; auto | exact Hv].
  - left. exists name. apply in_or_app. auto.
  - right. exists name, vs. split; [apply in_or_app; auto | exact Hv].
Qed.

Lemma add_containers_entries vs : forall d kv,
  In kv (add_containers vs d) ->
  In kv d \/ exists v, In v vs /\ kv = (cname v, Some v).
Proof.
  unfold add_containers.
  induction vs as [|v vs IH]; intros d kv H; simpl in H; [auto|].
  apply IH in H. destruct H as [H | (w & Hw & ->)].
  - apply dict_set_entries in H. destruct H as [-> | H]; [|auto].
    right. exists v. split; [left; reflexivity | reflexivity].
  - right. exists w. split; [right; exact Hw | reflexivity].
Qed.

Lemma get_container_sourced env dc i d c k d' c' e1 evs :
  sourced d evs ->
  get_container env dc i d c = (Ok (k, d'), c', e1) ->
  sourced d' (evs ++ e1).
Proof.
  intros Hs H. apply get_container_ok in H.
  destruct H as (_ & _ & _ & _ & [(v & E & -> & ->) | (-> & _)]).
  - intros k0 v0 Hin. apply returned_app. apply dict_set_entries in Hin.
    destruct Hin as [[= _ ->] | Hin].
    + right. left. exists i. left. reflexivity.
    + left. eapply Hs. exact Hin.
  - intros k0 v0 Hin. apply returned_app. left. eapply Hs. exact Hin.
Qed.

Lemma list_containers_sourced env dc i d c k d' c' e1 evs :
  sourced d evs ->
  list_containers env dc i d c = (Ok (k, d'), c', e1) ->
  sourced d' (evs ++ e1).
Proof.
  intros Hs H. apply list_containers_ok in H.
  destruct H as (_ & _ & Hview & _ & [(vs & E & -> & _) | (-> & _)]).
  - intros k0 v0 Hin. apply returned_app. apply add_containers_entries in Hin.
    destruct Hin as [Hin | (w & Hw & [= _ ->])].
    + left. eapply Hs. exact Hin.
    + right. right. exists i, vs. split; [|exact Hw].
      assert (Hf : In (ListContainers i (Ok vs)) (filter is_lookup e1)).
      { rewrite Hview, E. left. reflexivity. }
      apply filter_In in Hf. tauto.
  - intros k0 v0 Hin. apply returned_app. left. eapply Hs. exact Hin.
Qed.

Lemma resolve_containers_sourced env dc names filters c d c' evs :
  resolve_containers env dc names filters c = (Ok d, c', evs) ->
  sourced d evs.
Proof.
  unfold resolve_containers. intros H. apply bind_inv in H.
  destruct H as [(e & _ & E) | (d1 & c1 & e1 & e23 & H1 & H & ->)]; [discriminate E|].
  apply bind_inv in H.
  destruct H as [(e & _ & E) | (d2 & c2 & e2 & e3 & H2 & H3 & ->)]; [discriminate E|].
  assert (R0 : sourced [] []) by (intros k v []).
  pose proof (for_loop_invariant (get_container env dc) sourced names
                (fun x s c0 k s' c0' e0 evs0 _ HI Hb =>
                   get_container_sourced env dc x s c0 k s' c0' e0 evs0 HI Hb)
                _ _ _ _ _ _ R0 H1) as R1.
  pose proof (for_loop_invariant (list_containers env dc) sourced filters
                (fun x s c0 k s' c0' e0 evs0 _ HI Hb =>
                   list_containers_sourced env dc x s c0 k s' c0' e0 evs0 HI Hb)
                _ _ _ _ _ _ R1 H2) as R2.
  simpl in R2. unfold bind, log, emit, ret in H3. injection H3 as <- <- <-.
  intros k v Hin. rewrite app_assoc. apply returned_app. left.
  apply (R2 k v). unfold dict_remove_none in Hin. apply filter_In in Hin. tauto.
Qed.

(** X9.  Resolution invents no container: every container of the
    dictionary it builds was returned by one of its lookups, by exact name
    or in the list of a filter.  Hence, when the daemon gives containers
    of one id one name, no two entries hold containers of one id. *)
Theorem resolution_keeps_what_lookups_return env dc names filters c d c' evs :
  resolve_containers env dc names filters c = (Ok d, c', evs) ->
  (forall k v, In (k, Some v) d -> returned evs v) /\
  ((forall v1 v2, returned evs v1 -> returned evs v2 ->
                  cid v1 = cid v2 -> cname v1 = cname v2) ->
   forall k1 v1 k2 v2,
     In (k1, Some v1) d -> In (k2, Some v2) d -> cid v1 = cid v2 ->
     (k1, v1) = (k2, v2)).
Proof.
  intros H. pose proof (resolve_containers_sourced _ _ _ _ _ _ _ _ H) as Hs.
  apply resolve_containers_resolved in H. destruct H as ((Hnd & Hnamed) & _).
  split; [exact Hs|].
  intros Hid k1 v1 k2 v2 H1 H2 E.
  assert (En : cname v1 = cname v2) by (apply Hid; eauto).
  unfold entries_named in Hnamed. rewrite Forall_forall in Hnamed.
  destruct (Hnamed _ H1) as (w1 & [= -> ->]).
  destruct (Hnamed _ H2) as (w2 & [= -> ->]).
  rewrite En in H1.
  pose proof (keys_functional d _ _ _ Hnd H1 H2) as [= ->]. reflexivity.
Qed.

Lemma resolution_keeps_what_lookups_return_witness :
  returned
    (events (resolve_containers two_containers (Some from_env_client)
               ["web"; "db"] ["we"] 2%nat))
    db.
Proof.
  destruct (resolution_keeps_what_lookups_return two_containers (Some from_env_client)
              ["web"; "db"] ["we"] 2%nat
              [("web", Some web); ("db", Some db)] 5%nat
              (events (resolve_containers two_containers (Some from_env_client)
                         ["web"; "db"] ["we"] 2%nat)) eq_refl)
    as (H & _).
  apply (H "db" db). simpl. auto.
Defined.

(** ** Containers that stay down *)

Lemma reloads_all_reload env d : forall c,
  filter is_reload (reloads env c d) = reloads env c d.
Proof.
  induction d as [|[k [v|]] d IH]; intros c; simpl; [reflexivity| |apply IH].
  now rewrite IH.
Qed.

Lemma reloads_no_sleep env d : forall c, filter is_sleep (reloads env c d) = [].
Proof.
  induction d as [|[k [v|]] d IH]; intros c; simpl; [reflexivity | apply IH | apply IH].
Qed.

Lemma reloads_length env d : forall c,
  all_some d -> List.length (reloads env c d) = List.length d.
Proof.
  induction d as [|[k [v|]] d IH]; intros c H; simpl; [reflexivity| |].
  - inversion H; subst. now rewrite IH.
  - inversion H as [|x xs Hx]; subst. discriminate Hx.
Qed.

Lemma running_keys_none env d : forall c,
  never_running env -> running_keys env c d = [].
Proof.
  intros c Hq. revert c.
  induction d as [|[k [v|]] d IH]; intros c; simpl; [reflexivity| |apply IH].
  destruct (Hq c v) as (s & -> & Hs). simpl.
  destruct (String.eqb s "running") eqn:E; [|apply IH].
  apply String.eqb_eq in E. contradiction.
Qed.

(** With answers to every [reload], a pass goes through the whole
    dictionary. *)
Lemma check_status_loop_total env xs :
  all_some xs -> reloads_answer env ->
  forall acc c, exists acc',
    for_loop xs (check_status env) acc c
      = (Ok acc', (c + List.length xs)%nat, reloads env c xs).
Proof.
  intros Hsome Hok. induction Hsome as [|[k v] xs Hv _ IH]; intros acc c.
  - exists acc. rewrite Nat.add_0_r. reflexivity.
  - destruct v as [v|]; [|discriminate Hv].
    destruct (Hok c v) as (s & E).
    assert (Hb : exists acc1,
               check_status env (k, Some v) acc c
               = (Ok (Continue, acc1), S c, [Reload v (env_reload env c v)])).
    { unfold check_status, call, bind, ret. simpl. rewrite E. simpl.
      destruct (String.eqb s "running"); eauto. }
    destruct Hb as (acc1 & Hb). destruct (IH acc1 (S c)) as (acc' & Hl).
    exists acc'.
    replace (c + List.length ((k, Some v) :: xs))%nat
      with (S c + List.length xs)%nat by (simpl; lia).
    change (reloads env c ((k, Some v) :: xs))
      with ([Reload v (env_reload env c v)] ++ reloads env (S c) xs).
    eapply for_loop_continue; eassumption.
Qed.

Lemma settle_iteration_total env d c :
  all_some d -> reloads_answer env ->
  exists d',
    settle_iteration env d c = (Ok d', (c + List.length d)%nat, reloads env c d) /\
    all_some d' /\
    d' = dict_remove_none (blank (running_keys env c d) d).
Proof.
  intros Hsome Hok.
  destruct (check_status_loop_total env d Hsome Hok d c) as (acc' & Hl).
  pose proof (check_status_loop env d d c _ _ _ Hl) as (_ & -> & _).
  exists (dict_remove_none (blank (running_keys env c d) d)).
  split; [|split; [|reflexivity]].
  - unfold settle_iteration. rewrite (bind_run _ _ _ _ _ _ Hl). simpl.
    now rewrite app_nil_r.
  - unfold all_some, dict_remove_none. apply Forall_forall.
    intros kv H. now apply filter_In in H.
Qed.

(** A turn of the waiting loop when no container comes up. *)
Lemma settle_step_quiet env N T i d c :
  0 <= T <= sleep_max -> d <> [] -> all_some d -> never_running env ->
  settle_step env N T i d c
  = (Ok (Continue, d), (c + List.length d)%nat,
     reloads env c d
       ++ Log INFO "Found not running containers, list: %s" [AKeys (keys d)]
       :: (if i + 1 <? N
           then [Log INFO "Wait for %d sec" [AInt T]; Sleep T]
           else [])).
Proof.
  intros HT Hne Hsome Hq.
  assert (Hok : reloads_answer env).
  { intros t v. destruct (Hq t v) as (s & E & _). eauto. }
  destruct (settle_iteration_total env d c Hsome Hok) as (d' & Hit & _ & Hd').
  rewrite (running_keys_none env d c Hq) in Hd'. simpl in Hd'.
  rewrite (all_some_remove_none d Hsome) in Hd'. subst d'.
  unfold settle_step. rewrite (bind_run _ _ _ _ _ _ Hit).
  destruct d as [|kv d]; [congruence|].
  destruct (sleep_tests T HT) as [E E'].
  unfold bind, log, emit, sleep, ret. simpl.
  destruct (i + 1 <? N); rewrite ?E, ?E'; reflexivity.
Qed.

Lemma settle_loop_quiet env n T d :
  0 <= T <= sleep_max -> d <> [] -> all_some d -> never_running env ->
  forall m a c,
    (a + m = n)%nat ->
    exists evs,
      for_loop (map Z.of_nat (seq a m)) (settle_step env (Z.of_nat n) T) d c
        = (Ok d, (c + m * List.length d)%nat, evs) /\
      count is_reload evs = (m * List.length d)%nat /\
      count is_sleep evs = (m - 1)%nat.
Proof.
  intros HT Hne Hsome Hq. induction m as [|m IH]; intros a c Ham.
  - exists []. rewrite Nat.add_0_r. repeat split.
  - destruct (IH (S a) (c + List.length d)%nat) as (e2 & Hl & Hr & Hs); [lia|].
    eexists. split; [|split].
    + change (map Z.of_nat (seq a (S m)))
        with (Z.of_nat a :: map Z.of_nat (seq (S a) m)).
      replace (c + S m * List.length d)%nat
        with (c + List.length d + m * List.length d)%nat by lia.
      eapply for_loop_continue; [apply settle_step_quiet; assumption | exact Hl].
    + rewrite count_app, Hr, count_app. unfold count at 1.
      rewrite reloads_all_reload, (reloads_length env d c Hsome).
      destruct (Z.of_nat a + 1 <? Z.of_nat n); unfold count; simpl; lia.
    + rewrite count_app, Hs, count_app.
      assert (Hz : count is_sleep (reloads env c d) = 0%nat)
        by (unfold count; now rewrite reloads_no_sleep).
      rewrite Hz.
      destruct (Z.of_nat a + 1 <? Z.of_nat n) eqn:E; unfold count; simpl.
      * apply Z.ltb_lt in E. lia.
      * apply Z.ltb_ge in E. lia.
Qed.



(** ** How much the waiting loop asks *)

Lemma dict_set_none_kept d k :
  (List.length (dict_remove_none (dict_set d k None))
   <= List.length (dict_remove_none d))%nat.
Proof.
  unfold dict_remove_none.
  induction d as [|[k' v'] d IH]; simpl; [lia|].
  destruct (String.eqb k' k); simpl.
  - destruct v'; simpl; lia.
  - destruct v'; simpl; lia.
Qed.

Lemma blank_kept ks : forall d,
  (List.length (dict_remove_none (blank ks d)) <= List.length (dict_remove_none d))%nat.
Proof.
  induction ks as [|k ks IH]; intros d; simpl; [lia|].
  specialize (IH (dict_set d k None)). pose proof (dict_set_none_kept d k). lia.
Qed.

(** A pass never leaves more entries than it found. *)
Lemma settle_iteration_length env d c d' c' evs :
  settle_iteration env d c = (Ok d', c', evs) ->
  (List.length d' <= List.length d)%nat.
Proof.
  unfold settle_iteration. intros H. apply bind_inv in H.
  destruct H as [(e & _ & E) | (acc & c1 & e1 & e2 & Hl & Hr & _)]; [discriminate E|].
  injection Hr as <- _ _. apply check_status_loop in Hl. destruct Hl as (_ & -> & _).
  pose proof (blank_kept (running_keys env c d) d).
  pose proof (filter_length_le (fun kv : string * option container => is_some (snd kv)) d).
  unfold dict_remove_none in *. lia.
Qed.

Lemma check_status_reloads env kv acc c :
  (count is_reload (events (check_status env kv acc c)) <= 1)%nat.
Proof.
  unfold check_status, call, bind, ret, raise, count, events.
  destruct (snd kv) as [v|]; simpl; [|lia].
  destruct (env_reload env c v) as [s|e]; simpl; [|lia].
  destruct (String.eqb s "running"); simpl; lia.
Qed.

Lemma settle_step_reloads env N T i d c :
  (count is_reload (events (settle_step env N T i d c)) <= List.length d)%nat /\
  forall k d', outcome (settle_step env N T i d c) = Ok (k, d') ->
               (List.length d' <= List.length d)%nat.
Proof.
  assert (Hit : (count is_reload (events (settle_iteration env d c))
                 <= List.length d)%nat).
  { unfold settle_iteration. rewrite count_bind.
    pose proof (for_loop_count_le is_reload (check_status env) (fun _ => 1%nat) d
                  (check_status_reloads env) d c) as H.
    rewrite list_sum_ones in H.
    destruct (outcome _); [change (count is_reload (events (ret _ _))) with 0%nat|]; lia. }
  unfold settle_step. split.
  - rewrite count_bind.
    destruct (outcome (settle_iteration env d c)) as [d1|e]; [|lia].
    assert (Ht : forall c1,
              count is_reload
                (events ((if (List.length d1 =? 0)%nat then ret (Break, d1)
                          else
                            (log INFO "Found not running containers, list: %s"
                               [AKeys (keys d1)] ;;
                             (if i + 1 <? N
                              then log INFO "Wait for %d sec" [AInt T] ;; sleep T
                              else ret tt) ;;
                             ret (Continue, d1))) c1)) = 0%nat).
    { intros c1. unfold bind, log, emit, sleep, ret, raise, count, events.
      destruct (List.length d1 =? 0)%nat; simpl; [reflexivity|].
      destruct (i + 1 <? N); simpl; [destruct (T <? 0); [|destruct (T <=? sleep_max)]|]; reflexivity. }
    rewrite Ht. lia.
  - intros k d' H.
    destruct (settle_iteration env d c) as [[[d1|e] c1] e1] eqn:E;
      unfold bind, outcome in H; rewrite E in H; simpl in H; [|discriminate H].
    apply settle_iteration_length in E.
    revert H. unfold bind, log, emit, sleep, ret, raise.
    destruct (List.length d1 =? 0)%nat; simpl; [intros [= _ <-]; exact E|].
    destruct (i + 1 <? N); simpl; [destruct (T <? 0); simpl; [|destruct (T <=? sleep_max); simpl]|];
      intros H; try discriminate H; injection H as _ <-; exact E.
Qed.

Lemma settle_loop_reloads env N T turns : forall d c,
  (count is_reload (events (for_loop turns (settle_step env N T) d c))
   <= List.length turns * List.length d)%nat.
Proof.
  induction turns as [|i turns IH]; intros d c; [unfold count; simpl; lia|].
  simpl for_loop. rewrite count_bind.
  destruct (settle_step_reloads env N T i d c) as [H1 H2].
  destruct (outcome (settle_step env N T i d c)) as [[[|] d1] | e] eqn:E.
  - specialize (IH d1 (calls (settle_step env N T i d c))).
    specialize (H2 Continue d1 eq_refl). simpl List.length. nia.
  - change (count is_reload (events (ret d1 _))) with 0%nat. simpl List.length. nia.
  - simpl List.length. nia.
Qed.

(** X11.  Whatever the daemon answers, the waiting loop reloads at most
    [N] times the number of monitored containers. *)
Theorem settle_reloads_are_bounded env (N T : Z) d (c : nat) :
  (count is_reload (events (settle_containers env d N T c))
   <= Z.to_nat N * List.length d)%nat.
Proof.
  unfold settle_containers. destruct (0 <? List.length d)%nat.
  - pose proof (settle_loop_reloads env N T (range N) d c) as H.
    now rewrite range_length in H.
  - unfold count. simpl. lia.
Qed.

(** ** Exceptions that no handler of a loop matches *)

(** The start loop runs the turns that go on and then the rest. *)
Lemma start_loop_prefix env pre :
  all_some pre ->
  (forall t k w, In (k, Some w) pre -> start_handled (env_start env t w)) ->
  forall c, exists e_pre,
    filter is_start e_pre = starts env c pre /\
    forall rest,
      for_loop (pre ++ rest) (start_container env) tt c
      = let '(r, c', e') :=
          for_loop rest (start_container env) tt (c + List.length pre)%nat in
        (r, c', e_pre ++ e').
Proof.
  induction pre as [|[k0 v0] pre IH]; intros Hsome Hh c.
  - exists []. split; [reflexivity|]. intros rest. simpl. rewrite Nat.add_0_r.
    now destruct (for_loop rest (start_container env) tt c) as [[r c'] e'].
  - inversion Hsome as [|x xs Hv0 Hd]; subst.
    destruct v0 as [v0|]; [|discriminate Hv0].
    assert (Hb : exists e1,
               start_container env (k0, Some v0) tt c = (Ok (Continue, tt), S c, e1) /\
               filter is_start e1 = [Start v0 (env_start env c v0)]).
    { unfold start_container, try_except, call, bind, log, emit, ret. simpl.
      destruct (Hh c k0 v0 (or_introl eq_refl)) as [E | (msg & [E | E])];
        rewrite E; simpl; eexists; split; reflexivity. }
    destruct Hb as (e1 & Hb & Hv1).
    destruct (IH Hd (fun t k w H => Hh t k w (or_intror H)) (S c)) as (e2 & Hv2 & Hrest).
    exists (e1 ++ e2). split; [rewrite filter_app, Hv1, Hv2; reflexivity|].
    intros rest. specialize (Hrest rest).
    replace (c + List.length ((k0, Some v0) :: pre))%nat
      with (S c + List.length pre)%nat by (simpl; lia).
    destruct (for_loop rest (start_container env) tt (S c + List.length pre)%nat)
      as [[r c'] e'].
    simpl app. rewrite <- app_assoc. eapply for_loop_continue; eassumption.
Qed.

(** The loop over the exact names runs the turns that go on and then the
    rest. *)
Lemma get_loop_prefix env client pre :
  (forall t i, In i pre -> lookup_handled (env_get env t i)) ->
  forall d c, exists d1 e_pre,
    filter is_lookup e_pre = gets env c pre /\
    forall rest,
      for_loop (pre ++ rest) (get_container env (Some client)) d c
      = let '(r, c', e') :=
          for_loop rest (get_container env (Some client)) d1
            (c + List.length pre)%nat in
        (r, c', e_pre ++ e').
Proof.
  induction pre as [|i pre IH]; intros Hh d c.
  - exists d, []. split; [reflexivity|]. intros rest. simpl. rewrite Nat.add_0_r.
    now destruct (for_loop rest (get_container env (Some client)) d c) as [[r c'] e'].
  - destruct (get_container_handled env client i d c (Hh c i (or_introl eq_refl)))
      as (d0 & e1 & Hb).
    pose proof (get_container_ok _ _ _ _ _ _ _ _ _ Hb) as (_ & _ & Hv1 & _).
    destruct (IH (fun t j H => Hh t j (or_intror H)) d0 (S c))
      as (d1 & e2 & Hv2 & Hrest).
    exists d1, (e1 ++ e2). split; [rewrite filter_app, Hv1, Hv2; reflexivity|].
    intros rest. specialize (Hrest rest).
    replace (c + List.length (i :: pre))%nat
      with (S c + List.length pre)%nat by (simpl; lia).
    destruct (for_loop rest (get_container env (Some client)) d1
                (S c + List.length pre)%nat) as [[r c'] e'].
    simpl app. rewrite <- app_assoc. eapply for_loop_continue; eassumption.
Qed.

(** X12.  The start loop catches API errors only: a [start] that raises
    anything else ends the loop and the script with that exception, after
    the containers before it were started; the containers after it get no
    start. *)
Theorem start_loop_stops_at_other_exception env pre k v post (c : nat) e :
  all_some pre ->
  (forall t k' w, In (k', Some w) pre -> start_handled (env_start env t w)) ->
  env_start env (c + List.length pre) v = Raise e ->
  is_api_error e = false ->
  let run := start_containers env (pre ++ (k, Some v) :: post) c in
  outcome run = Raise e /\
  calls run = S (c + List.length pre) /\
  filter is_start (events run) = starts env c pre ++ [Start v (Raise e)] /\
  last (events run) FromEnv = Start v (Raise e).
Proof.
  intros Hsome Hh E He run. subst run. unfold start_containers.
  destruct (start_loop_prefix env pre Hsome Hh c) as (e_pre & Hv & Hrest).
  rewrite (Hrest ((k, Some v) :: post)).
  assert (Hb : start_container env (k, Some v) tt (c + List.length pre)%nat
               = (Raise e, S (c + List.length pre),
                  [Log INFO "Starting container, name: %s" [AStr k];
                   Start v (Raise e)])).
  { unfold start_container, try_except, call, bind, log, emit, ret. simpl.
    rewrite E. destruct e; try discriminate He; reflexivity. }
  rewrite (for_loop_raise _ _ _ _ _ _ _ _ Hb).
  unfold outcome, calls, events. simpl fst. simpl snd.
  repeat split.
  - rewrite filter_app, Hv. reflexivity.
  - change [Log INFO "Starting container, name: %s" [AStr k]; Start v (Raise e)]
      with ([Log INFO "Starting container, name: %s" [AStr k]] ++ [Start v (Raise e)]).
    rewrite app_assoc. apply last_last.
Qed.

Lemma start_loop_stops_at_other_exception_witness :
  outcome (start_containers connection_lost
             [("web", Some web); ("db", Some db); ("api", Some (Container "77aa01" "api"))]
             4%nat)
    = Raise (OtherException "Connection aborted") /\
  count is_start
    (events (start_containers connection_lost
               [("web", Some web); ("db", Some db);
                ("api", Some (Container "77aa01" "api"))] 4%nat)) = 2%nat.
Proof.
  destruct (start_loop_stops_at_other_exception connection_lost
              [("web", Some web)] "db" db [("api", Some (Container "77aa01" "api"))]
              4%nat (OtherException "Connection aborted"))
    as (Ha & _ & Hb & _).
  - repeat constructor.
  - intros t k' w [[= _ <-] | []]. left. reflexivity.
  - reflexivity.
  - reflexivity.
  - split; [exact Ha|]. unfold count. simpl app in Hb. rewrite Hb. reflexivity.
Defined.

(** X13.  The loop over the exact names catches [NotFound] and other API
    errors only: a lookup that raises anything else ends resolution and
    the script with that exception; the names before it were looked up,
    the names after it and all the filters are not, and the failure is
    not logged. *)
Theorem resolution_stops_at_other_exception env client pre i post filters (c : nat) e :
  (forall t j, In j pre -> lookup_handled (env_get env t j)) ->
  env_get env (c + List.length pre) i = Raise e ->
  is_api_error e = false ->
  let run := resolve_containers env (Some client) (pre ++ i :: post) filters c in
  outcome run = Raise e /\
  calls run = S (c + List.length pre) /\
  filter is_lookup (events run) = gets env c pre ++ [Get i (Raise e)] /\
  last (events run) FromEnv = Get i (Raise e).
Proof.
  intros Hh E He run. subst run. unfold resolve_containers.
  destruct (get_loop_prefix env client pre Hh [] c) as (d1 & e_pre & Hv & Hrest).
  assert (Hb : get_container env (Some client) i d1 (c + List.length pre)%nat
               = (Raise e, S (c + List.length pre), [Get i (Raise e)])).
  { unfold get_container, try_except, with_client, call, bind, log, emit, ret. simpl.
    rewrite E. destruct e; try discriminate He; reflexivity. }
  assert (Hl : for_loop (pre ++ i :: post) (get_container env (Some client)) [] c
               = (Raise e, S (c + List.length pre), e_pre ++ [Get i (Raise e)])).
  { rewrite (Hrest (i :: post)), (for_loop_raise _ _ _ _ _ _ _ _ Hb). reflexivity. }
  rewrite (bind_raise _ _ _ _ _ _ Hl).
  unfold outcome, calls, events. simpl fst. simpl snd.
  repeat split.
  - rewrite filter_app, Hv. reflexivity.
  - apply last_last.
Qed.

Lemma resolution_stops_at_other_exception_witness :
  outcome (resolve_containers connection_lost (Some from_env_client)
             ["web"; "db"; "api"] ["we"] 2%nat)
    = Raise (OtherException "Connection aborted") /\
  count is_lookup
    (events (resolve_containers connection_lost (Some from_env_client)
               ["web"; "db"; "api"] ["we"] 2%nat)) = 2%nat.
Proof.
  destruct (resolution_stops_at_other_exception connection_lost from_env_client
              ["web"] "db" ["api"] ["we"] 2%nat (OtherException "Connection aborted"))
    as (Ha & _ & Hb & _).
  - intros t j [<- | []]. exact I.
  - reflexivity.
  - reflexivity.
  - split; [exact Ha|]. unfold count. simpl app in Hb. rewrite Hb. reflexivity.
Defined.

(** ** Runs in which nothing is left uncaught *)

(** A loop whose every turn ends well, on states that a property picks
    out and every turn keeps, ends well. *)
Lemma for_loop_total {A St} (body : A -> St -> M (ctl * St)) (Inv : St -> Prop) xs :
  (forall x s c, Inv s ->
     exists k s' c' e, body x s c = (Ok (k, s'), c', e) /\ Inv s') ->
  forall s c, Inv s ->
    exists s' c' e, for_loop xs body s c = (Ok s', c', e) /\ Inv s'.
Proof.
  intros Hstep. induction xs as [|x xs IH]; intros s c Hs.
  - exists s, c, []. auto.
  - destruct (Hstep x s c Hs) as (k & s1 & c1 & e1 & Hb & Hs1).
    destruct k.
    + destruct (IH s1 c1 Hs1) as (s' & c' & e2 & Hl & Hs').
      exists s', c', (e1 ++ e2). split; [|exact Hs'].
      eapply for_loop_continue; eassumption.
    + exists s1, c1, e1. split; [|exact Hs1]. now apply for_loop_break.
Qed.

Lemma connect_total env N T c :
  0 <= T <= sleep_max ->
  exists dc c1 e1, connect_docker_service env N T c = (Ok dc, c1, e1).
Proof.
  intros HT. destruct (sleep_tests T HT) as [E E'].
  destruct (for_loop_total (connect_attempt env N T from_env_client)
              (fun _ => True) (range N)) with (s := @None string) (c := c)
    as (v & c1 & e1 & Hl & _); [|exact I|].
  - intros x s c0 _.
    unfold connect_attempt, get_docker_version, try_except, call, bind, log, emit,
      sleep, ret.
    destruct (env_version env c0) as [v|e]; simpl;
      try destruct (truthy v); simpl;
      destruct (x + 1 <? N); simpl; rewrite ?E, ?E'; simpl; eauto 10.
  - unfold connect_docker_service.
    rewrite (bind_run _ _ c tt c [FromEnv] eq_refl), (bind_run _ _ _ _ _ _ Hl).
    destruct (truthy v); simpl; eauto.
Qed.

Lemma health_loop_total env client N T c :
  1 <= N -> 0 <= T <= sleep_max ->
  (forall t, exists total running,
     env_info env t = Ok (Info_dict (Some total) (Some running))) ->
  exists total running c1 e1,
    health_check_loop env (Some client) N T c
      = (Ok (Some total, Some running), c1, e1).
Proof.
  intros HN HT Hinfo.
  destruct (sleep_tests T HT) as [E E'].
  destruct (for_loop_total (health_check env (Some client) N T)
              (fun _ => True) (range N)) with (s := (@None Z, @None Z)) (c := c)
    as (sample & c1 & e1 & Hl & _); [|exact I|].
  - intros x s c0 _. destruct (Hinfo c0) as (q & r & Ei).
    unfold health_check, with_client, daemon_started, py_eq0, py_gt0, call, bind,
      log, emit, sleep, ret.
    rewrite Ei. simpl.
    destruct (q =? 0); simpl; [eauto 10|].
    destruct (0 <? q); simpl; [destruct (0 <? r); simpl|];
      try destruct (x + 1 <? N); simpl; rewrite ?E, ?E'; simpl; eauto 10.
  - pose proof Hl as Hl'. unfold health_check_loop.
    apply health_loop_last in Hl'. destruct Hl' as [(Er & _) | (Hlt & ->)].
    + unfold range in Er. destruct (Z.to_nat N) eqn:En; [lia | discriminate Er].
    + destruct (Hinfo (c1 - 1)%nat) as (q & r & Ei). rewrite Ei in Hl.
      exists q, r, c1, e1. exact Hl.
Qed.

Lemma settle_total env N T d c :
  0 <= T <= sleep_max -> all_some d -> reloads_answer env ->
  exists d' c' e, settle_containers env d N T c = (Ok d', c', e) /\ all_some d'.
Proof.
  intros HT Hsome Hok.
  destruct (sleep_tests T HT) as [E E'].
  unfold settle_containers. apply for_loop_total; [|exact Hsome].
  intros x s c0 Hs.
  destruct (settle_iteration_total env s c0 Hs Hok) as (d' & Hit & Hd' & _).
  unfold settle_step. rewrite (bind_run _ _ _ _ _ _ Hit).
  unfold bind, log, emit, sleep, ret.
  destruct (List.length d' =? 0)%nat; simpl; [eauto 10|].
  destruct (x + 1 <? N); simpl; rewrite ?E, ?E'; simpl; eauto 10.
Qed.

(** The script from resolution on, with a client at hand. *)
Lemma reconcile_total env client N T names filters c :
  0 <= T <= sleep_max -> collaborators_behave env ->
  outcome (bind (resolve_containers env (Some client) names filters) (fun d =>
           bind (settle_containers env d N T) (start_containers env)) c) = Ok tt.
Proof.
  intros HT (_ & _ & Hget & Hlist & Hreload & Hstart).
  destruct (get_loop_total env client names Hget [] c) as (d1 & e1 & H1 & _).
  destruct (list_loop_total env client filters Hlist d1 (c + List.length names)%nat)
    as (d2 & e2 & H2 & _).
  assert (Hres : exists e, resolve_containers env (Some client) names filters c
                   = (Ok (dict_remove_none d2),
                      (c + List.length names + List.length filters)%nat, e)).
  { unfold resolve_containers.
    rewrite (bind_run _ _ _ _ _ _ H1), (bind_run _ _ _ _ _ _ H2). simpl. eauto. }
  destruct Hres as (e & Hres).
  assert (Hsome : all_some (dict_remove_none d2)).
  { unfold all_some, dict_remove_none. apply Forall_forall.
    intros kv H. now apply filter_In in H. }
  destruct (settle_total env N T (dict_remove_none d2)
              (c + List.length names + List.length filters)%nat HT Hsome Hreload)
    as (d' & c' & e' & Hset & Hsome').
  destruct (start_loop_total env Hstart d' c' Hsome') as (e'' & Hst & _).
  rewrite (bind_run _ _ _ _ _ _ Hres), (bind_run _ _ _ _ _ _ Hset), Hst. reflexivity.
Qed.



(** ** Selectors that match nothing *)

Lemma get_loop_nothing env client names :
  (forall t i, exists msg, env_get env t i = Raise (NotFound msg)) ->
  forall c, exists evs,
    for_loop names (get_container env (Some client)) [] c
      = (Ok [], (c + List.length names)%nat, evs) /\
    count is_warning evs = List.length names.
Proof.
  intros Hnf. induction names as [|i names IH]; intros c.
  - exists []. rewrite Nat.add_0_r. split; reflexivity.
  - destruct (Hnf c i) as (msg & E). destruct (IH (S c)) as (e2 & Hl & Hw).
    eexists. split.
    + replace (c + List.length (i :: names))%nat
        with (S c + List.length names)%nat by (simpl; lia).
      eapply for_loop_continue; [|exact Hl].
      unfold get_container, try_except, with_client, call, bind, log, emit, ret.
      rewrite E. reflexivity.
    + rewrite count_app, Hw. reflexivity.
Qed.

Lemma list_loop_nothing env client filters :
  (forall t i, env_list env t i = Ok []) ->
  forall c, exists evs,
    for_loop filters (list_containers env (Some client)) [] c
      = (Ok [], (c + List.length filters)%nat, evs) /\
    count is_warning evs = List.length filters.
Proof.
  intros Hempty. induction filters as [|i filters IH]; intros c.
  - exists []. rewrite Nat.add_0_r. split; reflexivity.
  - destruct (IH (S c)) as (e2 & Hl & Hw).
    eexists. split.
    + replace (c + List.length (i :: filters))%nat
        with (S c + List.length filters)%nat by (simpl; lia).
      eapply for_loop_continue; [|exact Hl].
      unfold list_containers, try_except, with_client, call, bind, log, emit, ret.
      rewrite (Hempty c i). reflexivity.
    + rewrite count_app, Hw. reflexivity.
Qed.

(** X15.  When every exact name is unknown to the daemon and every
    filter matches nothing, resolution looks every selector up, logs one
    warning for each and ends with an empty dictionary; the waiting loop
    and the start loop then do nothing at all, and the script ends
    normally without a reload, a start or a sleep. *)
Theorem nothing_to_monitor env client (N T : Z) names filters (c : nat) :
  (forall t i, exists msg, env_get env t i = Raise (NotFound msg)) ->
  (forall t i, env_list env t i = Ok []) ->
  exists evs,
    resolve_containers env (Some client) names filters c
      = (Ok [], (c + List.length names + List.length filters)%nat, evs) /\
    count is_warning evs = (List.length names + List.length filters)%nat /\
    count is_lookup evs = (List.length names + List.length filters)%nat /\
    bind (resolve_containers env (Some client) names filters) (fun d =>
    bind (settle_containers env d N T) (start_containers env)) c
      = (Ok tt, (c + List.length names + List.length filters)%nat, evs).
Proof.
  intros Hnf Hempty.
  destruct (get_loop_nothing env client names Hnf c) as (e1 & H1 & W1).
  destruct (list_loop_nothing env client filters Hempty (c + List.length names)%nat)
    as (e2 & H2 & W2).
  assert (Hres : resolve_containers env (Some client) names filters c
                 = (Ok [], (c + List.length names + List.length filters)%nat,
                    e1 ++ e2 ++ [Log INFO "Monitored containers: %s" [AKeys []]])).
  { unfold resolve_containers.
    rewrite (bind_run _ _ _ _ _ _ H1), (bind_run _ _ _ _ _ _ H2). reflexivity. }
  eexists. split; [exact Hres|]. split; [|split].
  - rewrite !count_app, W1, W2. unfold count. simpl. lia.
  - assert (Hget : forall t i, lookup_handled (env_get env t i)).
    { intros t i. destruct (Hnf t i) as (msg & ->). exact I. }
    assert (Hlist : forall t i, lookup_handled (env_list env t i)).
    { intros t i. rewrite Hempty. exact I. }
    destruct (get_loop_total env client names Hget [] c) as (d1 & e1' & H1' & V1).
    rewrite H1 in H1'. injection H1' as <- <-.
    destruct (list_loop_total env client filters Hlist [] (c + List.length names)%nat)
      as (d2 & e2' & H2' & V2).
    rewrite H2 in H2'. injection H2' as <- <-.
    unfold count. rewrite !filter_app, V1, V2. simpl. rewrite app_nil_r, length_app.
    f_equal.
    + clear. revert c. induction names as [|i names IH]; intros c; simpl;
        [reflexivity | now rewrite IH].
    + clear. generalize (c + List.length names)%nat.
      induction filters as [|i filters IH]; intros c0; simpl;
        [reflexivity | now rewrite IH].
  - rewrite (bind_run _ _ _ _ _ _ Hres). simpl. now norm_app.
Qed.

Lemma nothing_to_monitor_witness :
  exists evs,
    bind (resolve_containers idle_daemon (Some from_env_client) ["api"] ["zz"]) (fun d =>
    bind (settle_containers idle_daemon d 3 30) (start_containers idle_daemon)) 2%nat
      = (Ok tt, 4%nat, evs) /\
    count is_warning evs = 2%nat.
Proof.
  destruct (nothing_to_monitor idle_daemon from_env_client 3 30 ["api"] ["zz"] 2%nat)
    as (evs & _ & Ha & _ & Hb).
  - intros t i. exists i. reflexivity.
  - intros t i. reflexivity.
  - exists evs. split; [exact Hb | exact Ha].
Defined.

(** ** A timeout beyond what [time.sleep] takes *)

(** X16.  With [attempts_tm_sec] beyond [sleep_max] and more than one
    attempt, the first sleep raises [OverflowError] outside any [try]:
    after a first version query that fails the exception leaves
    [connect_docker_service], the script ends on it with exit status 1 and
    [restart_docker] is not run; in the health loop a first sample that
    does not end the loop is followed by the same exception, after one
    [info] query. *)
Theorem long_timeout_raises env client (N T : Z) names filters (c : nat) :
  2 <= N -> sleep_max < T ->
  (query_fails env c ->
   connect_docker_service env N T c
     = (Raise OverflowError, S c,
        [FromEnv; Version (env_version env c);
         Log WARNING "Can't get Docker version" [];
         Log INFO "Retry in: %d sec" [AInt T]]) /\
   outcome (main env N T names filters c) = Raise OverflowError /\
   exit_status (outcome (main env N T names filters c)) = 1 /\
   count is_restart (events (main env N T names filters c)) = 0%nat) /\
  (sample_not_started env c ->
   outcome (health_check_loop env (Some client) N T c) = Raise OverflowError /\
   calls (health_check_loop env (Some client) N T c) = S c /\
   count is_info (events (health_check_loop env (Some client) N T c)) = 1%nat /\
   count is_sleep (events (health_check_loop env (Some client) N T c)) = 0%nat).
Proof.
  intros HN HT.
  assert (E1 : (0 + 1 <? N) = true) by (apply Z.ltb_lt; lia).
  assert (E2 : (T <? 0) = false) by (apply Z.ltb_ge; unfold sleep_max in HT; lia).
  assert (E3 : (T <=? sleep_max) = false) by (apply Z.leb_gt; exact HT).
  assert (E1' : (1 <? N) = true) by (apply Z.ltb_lt; lia).
  split.
  - intros Hfail.
    assert (Hconnect : connect_docker_service env N T c
      = (Raise OverflowError, S c,
         [FromEnv; Version (env_version env c);
          Log WARNING "Can't get Docker version" [];
          Log INFO "Retry in: %d sec" [AInt T]])).
    { unfold connect_docker_service, range.
      destruct (Z.to_nat N) as [|n] eqn:E; [lia|]. simpl.
      unfold query_fails in Hfail.
      unfold connect_attempt, get_docker_version, try_except, call, bind, log, emit,
        sleep, ret, raise.
      destruct (env_version env c) as [v|e]; simpl in *; rewrite ?Hfail, E1, E2, E3;
        reflexivity. }
    split; [exact Hconnect|].
    rewrite main_steps, (bind_raise _ _ _ _ _ _ Hconnect).
    repeat split.
  - intros (q & r & E & H). unfold started in H.
    unfold health_check_loop, range.
    destruct (Z.to_nat N) as [|n] eqn:En; [lia|]. simpl.
    unfold health_check, with_client, daemon_started, py_eq0, py_gt0, call, bind,
      log, emit, sleep, ret, raise.
    rewrite E. simpl.
    destruct (q =? 0) eqn:E0; [apply Z.eqb_eq in E0; tauto|]. simpl.
    destruct (0 <? q) eqn:Eq; simpl.
    + destruct (0 <? r) eqn:Er; [apply Z.ltb_lt in Eq, Er; tauto|]. simpl.
      rewrite E1'. simpl. rewrite E2, E3. repeat split.
    + rewrite E1'. simpl. rewrite E2, E3. repeat split.
Qed.

Lemma long_timeout_raises_witness :
  outcome (main daemon_down 3 10000000000 [] [] 0%nat) = Raise OverflowError /\
  count is_restart (events (main daemon_down 3 10000000000 [] [] 0%nat)) = 0%nat /\
  outcome (health_check_loop daemon_degraded (Some from_env_client) 3 10000000000 1%nat)
    = Raise OverflowError.
Proof.
  assert (H1 : 2 <= 3) by lia.
  assert (H2 : sleep_max < 10000000000) by (unfold sleep_max; lia).
  destruct (long_timeout_raises daemon_down from_env_client 3 10000000000 [] []
              0%nat H1 H2) as (Ha & _).
  destruct (long_timeout_raises daemon_degraded from_env_client 3 10000000000 [] []
              1%nat H1 H2) as (_ & Hb).
  destruct Ha as (_ & Ha1 & _ & Ha2); [reflexivity|].
  destruct Hb as (Hb & _).
  { exists 5, 0. split; [reflexivity | unfold started; lia]. }
  exact (conj Ha1 (conj Ha2 Hb)).
Defined.
